(** * Munshiji expense tracker: data store and logical back navigation

    A shallow embedding of [app.js]: the [ExpenseTracker] class (the data
    store persisted in [localStorage]) and the screen navigation
    ([showScreen], [navigateBack] and the screen functions they call).

    Conventions of the embedding.
    - A JavaScript number is an IEEE 754 double, [float] (Rocq's primitive
      floats), so [+] on amounts is the addition the engine performs.
    - A stored field is a primitive [value]; a JavaScript object used as a
      record or dictionary is a [gmap string value] (own properties).
    - A [Date] is its time value: [Some t] with [t] in milliseconds since the
      epoch, or [None] for an Invalid Date (time value NaN).
    - [localStorage] holds one optional text under the key
      ['expenseTrackerData']; every method reads it, changes the copy and
      writes the whole record back. The text parses to a root record of
      the persistence format: an object whose fields [expenses],
      [categories], [income] and [limits], when present, are a list of
      expense objects, a list of names and two dictionaries.
    - A method that reads a property of [undefined] throws a TypeError:
      the methods of the store run in a monad of state and exception.
    - What the engine provides and [app.js] only calls (parsing a date text,
      the local time zone, [parseFloat] on text, [trim], [toLowerCase], the
      JSON codec) is a field of the class [Engine]. *)

From Stdlib Require Import ZArith Floats Ascii String.
From stdpp Require Import gmap strings list fin_maps pretty.

Open Scope Z_scope.

(** ** JavaScript primitive values *)

Inductive value : Type :=
| VUndef
| VNull
| VBool (b : bool)
| VNum (x : float)
| VStr (s : string).

(** Objects: own properties only. [get o k] is the property read [o.k]. *)
Abbreviation object := (gmap string value).

Definition get (o : object) (k : string) : value :=
  match o !! k with
  | Some v => v
  | None => VUndef
  end.

Definition is_finite (x : float) : bool :=
  negb (PrimFloat.is_nan x) && negb (PrimFloat.is_infinity x).

(** ToBoolean. *)
Definition truthy (v : value) : bool :=
  match v with
  | VUndef | VNull => false
  | VBool b => b
  | VNum x => negb (PrimFloat.is_nan x || PrimFloat.eqb x 0)
  | VStr s => negb (String.eqb s "")
  end.

(** [a === b]. *)
Definition strict_eq (a b : value) : bool :=
  match a, b with
  | VUndef, VUndef => true
  | VNull, VNull => true
  | VBool x, VBool y => Bool.eqb x y
  | VNum x, VNum y => PrimFloat.eqb x y
  | VStr x, VStr y => String.eqb x y
  | _, _ => false
  end.

(** [a || b] on values. *)
Definition or_else (a b : value) : value := if truthy a then a else b.

(** ** Dates (ECMAScript time values) *)

Module JSDate.

Definition msPerDay : Z := 86400000.

Definition Day (t : Z) : Z := t / msPerDay.
Definition TimeWithinDay (t : Z) : Z := t mod msPerDay.

Definition DaysInYear (y : Z) : Z :=
  if negb (y mod 4 =? 0) then 365
  else if negb (y mod 100 =? 0) then 366
  else if negb (y mod 400 =? 0) then 365
  else 366.

Definition DayFromYear (y : Z) : Z :=
  365 * (y - 1970) + (y - 1969) / 4 - (y - 1901) / 100 + (y - 1601) / 400.

(** The largest [y] with [DayFromYear y <= d]: an estimate from the mean
    length of a year, corrected by at most one. *)
Definition YearFromDay (d : Z) : Z :=
  let y := 1970 + (d * 400) / 146097 in
  if d <? DayFromYear y then y - 1
  else if DayFromYear (y + 1) <=? d then y + 1
  else y.

Definition YearFromTime (t : Z) : Z := YearFromDay (Day t).

Definition InLeapYear (t : Z) : Z :=
  if DaysInYear (YearFromTime t) =? 366 then 1 else 0.

Definition DayWithinYear (t : Z) : Z := Day t - DayFromYear (YearFromTime t).

(** Number of days of the year before month [m] (0-based). *)
Definition DaysBeforeMonth (leap m : Z) : Z :=
  match m with
  | 0 => 0
  | 1 => 31
  | 2 => 59 + leap
  | 3 => 90 + leap
  | 4 => 120 + leap
  | 5 => 151 + leap
  | 6 => 181 + leap
  | 7 => 212 + leap
  | 8 => 243 + leap
  | 9 => 273 + leap
  | 10 => 304 + leap
  | 11 => 334 + leap
  | _ => 365 + leap
  end.

Definition MonthFromTime (t : Z) : Z :=
  let d := DayWithinYear t in
  let leap := InLeapYear t in
  if d <? 31 then 0
  else if d <? 59 + leap then 1
  else if d <? 90 + leap then 2
  else if d <? 120 + leap then 3
  else if d <? 151 + leap then 4
  else if d <? 181 + leap then 5
  else if d <? 212 + leap then 6
  else if d <? 243 + leap then 7
  else if d <? 273 + leap then 8
  else if d <? 304 + leap then 9
  else if d <? 334 + leap then 10
  else 11.

Definition DateFromTime (t : Z) : Z :=
  DayWithinYear t - DaysBeforeMonth (InLeapYear t) (MonthFromTime t) + 1.

Definition HourFromTime (t : Z) : Z := (t / 3600000) mod 24.
Definition MinFromTime (t : Z) : Z := (t / 60000) mod 60.
Definition SecFromTime (t : Z) : Z := (t / 1000) mod 60.
Definition msFromTime (t : Z) : Z := t mod 1000.

(** MakeDay: the day number of day [date] of month [month] of [year];
    months outside 0..11 carry into the year. *)
Definition MakeDay (year month date : Z) : Z :=
  let ym := year + month / 12 in
  let mn := month mod 12 in
  let leap := if DaysInYear ym =? 366 then 1 else 0 in
  DayFromYear ym + DaysBeforeMonth leap mn + date - 1.

Definition MakeDate (day time : Z) : Z := day * msPerDay + time.

(** The number of days of month [m] (0-based) of year [y]. *)
Definition DaysInMonth (y m : Z) : Z :=
  let leap := if DaysInYear y =? 366 then 1 else 0 in
  DaysBeforeMonth leap (m + 1) - DaysBeforeMonth leap m.

(** TimeClip: a time value is at most 8.64e15 ms from the epoch. *)
Definition TimeClip (t : Z) : option Z :=
  if Z.abs t <=? 8640000000000000 then Some t else None.

End JSDate.

Import JSDate.

(** ** The persisted record *)

(** The root record [{ expenses, categories, income, limits }]. A field is
    [None] when the stored object has no such property: the methods test
    [!data.expenses], [!data.income], [data.categories || []]. *)
Record Data : Type := mkData {
  expenses : option (list object);
  categories : option (list string);
  income : option object;
  limits : option (gmap string object) }.

(** The record [getStoredData] falls back to. *)
Definition defaultData : Data :=
  {| expenses := Some []; categories := Some [];
     income := Some ∅; limits := Some ∅ |}.

(** What [JSON.stringify] keeps of a value: a property holding [undefined]
    is left out, a number that is NaN or infinite is written [null], and
    negative zero is written [0]. *)
Definition json_value (v : value) : option value :=
  match v with
  | VUndef => None
  | VNum x =>
      if PrimFloat.is_nan x || PrimFloat.is_infinity x then Some VNull
      else if PrimFloat.eqb x 0 then Some (VNum 0)
      else Some (VNum x)
  | _ => Some v
  end.

Definition json_object (o : object) : object := omap json_value o.

(** The record read back after it was written: [JSON.parse (JSON.stringify d)]. *)
Definition jsonify (d : Data) : Data :=
  {| expenses := option_map (List.map json_object) (expenses d);
     categories := categories d;
     income := option_map json_object (income d);
     limits := option_map (λ m : gmap string object, json_object <$> m) (limits d) |}.

(** A record of JSON values only: writing and reading it back changes
    nothing. Every record [saveData] wrote reads back as such a record. *)
Definition json_clean (d : Data) : Prop := jsonify d = d.

(** ** What the engine provides *)

Class Engine : Type := {
  (** the time value [new Date(text)] gets, [None] for an Invalid Date *)
  Date_parse : string → option Z;
  (** LocalTZA(t, isUTC): the offset of local time in ms *)
  LocalTZA : Z → bool → Z;
  (** [parseFloat] on a text *)
  parseFloat_text : string → float;
  String_trim : string → string;
  String_toLowerCase : string → string;
  (** [JSON.parse], [None] when it throws a SyntaxError *)
  JSON_parse : string → option Data;
  JSON_stringify : Data → string }.

(** The facts about the JSON codec the store relies on: a text that
    [JSON.stringify] wrote is not empty, parses, and reads back as the
    record with its values as JSON keeps them; writing that record again
    gives the same text. *)
Class JSONLaws (E : Engine) : Prop := {
  stringify_nonempty : ∀ d, JSON_stringify d ≠ "";
  parse_stringify : ∀ d, JSON_parse (JSON_stringify d) = Some (jsonify d);
  stringify_jsonify : ∀ d, JSON_stringify (jsonify d) = JSON_stringify d }.

(** ** The store monad: the text in [localStorage], and a thrown TypeError *)

Definition storage : Type := option string.

Inductive outcome (A : Type) : Type :=
| Returns (a : A) (st : storage)
| Throws.
Arguments Returns {A} a st.
Arguments Throws {A}.

Definition M (A : Type) : Type := storage → outcome A.

#[global] Instance M_ret : MRet M := λ A a st, Returns a st.
#[global] Instance M_bind : MBind M := λ A B f m st,
  match m st with
  | Returns a st' => f a st'
  | Throws => Throws
  end.

Definition throw {A} : M A := λ _, Throws.

(** The state after a call, when it returned. *)
Definition state_after {A} (o : outcome A) (st : storage) : storage :=
  match o with
  | Returns _ st' => st'
  | Throws => st
  end.

Section Store.
Context {E : Engine}.

(** *** Date methods *)

Definition LocalTime (t : Z) : Z := t + LocalTZA t true.
Definition UTC (t : Z) : Z := t - LocalTZA t false.

(** ToIntegerOrInfinity of a finite double, [None] for NaN and infinities. *)
Definition float_to_Z (x : float) : option Z :=
  match Prim2SF x with
  | S754_zero _ => Some 0
  | S754_finite s m e =>
      let mag := if 0 <=? e then Z.pos m * 2 ^ e else Z.pos m / 2 ^ (- e) in
      Some (if s then - mag else mag)
  | _ => None
  end.

(** [new Date(v)]. *)
Definition Date_new (v : value) : option Z :=
  match v with
  | VStr s => Date_parse s
  | VUndef => None
  | VNull => Some 0
  | VBool b => Some (if b then 1 else 0)
  | VNum x => float_to_Z x ≫= TimeClip
  end.

Definition getFullYear (d : option Z) : option Z :=
  (λ t, YearFromTime (LocalTime t)) <$> d.

Definition getMonth (d : option Z) : option Z :=
  (λ t, MonthFromTime (LocalTime t)) <$> d.

(** [d.setMonth(month)] on a valid date [t]; the new time value. *)
Definition setMonth (t : Z) (month : Z) : option Z :=
  let lt := LocalTime t in
  TimeClip (UTC (MakeDate (MakeDay (YearFromTime lt) month (DateFromTime lt))
                          (TimeWithinDay lt))).

(** [a >= b] on dates: false when either is invalid. *)
Definition date_ge (a b : option Z) : bool :=
  match a, b with
  | Some x, Some y => y <=? x
  | _, _ => false
  end.

(** [s.padStart(n, '0')]. *)
Fixpoint zeros (n : nat) : string :=
  match n with
  | O => ""
  | S n' => "0" +:+ zeros n'
  end.

Definition padStart (n : nat) (s : string) : string :=
  zeros (n - String.length s) +:+ s.

(** [String(x)] of an integer, ["NaN"] for NaN. *)
Definition number_to_string (x : option Z) : string :=
  match x with
  | Some n => pretty n
  | None => "NaN"
  end.

(** [getMonthKey(date)]: YYYY-MM. *)
Definition getMonthKey (date : option Z) : string :=
  let year := getFullYear date in
  let month := padStart 2 (number_to_string ((λ m, m + 1) <$> getMonth date)) in
  number_to_string year +:+ "-" +:+ month.

Definition isoYear (y : Z) : string :=
  if (0 <=? y) && (y <=? 9999) then padStart 4 (pretty y)
  else (if y <? 0 then "-" else "+") +:+ padStart 6 (pretty (Z.abs y)).

(** [toISOString()] of a valid date. *)
Definition toISOString (t : Z) : string :=
  isoYear (YearFromTime t) +:+ "-" +:+ padStart 2 (pretty (MonthFromTime t + 1))
  +:+ "-" +:+ padStart 2 (pretty (DateFromTime t))
  +:+ "T" +:+ padStart 2 (pretty (HourFromTime t))
  +:+ ":" +:+ padStart 2 (pretty (MinFromTime t))
  +:+ ":" +:+ padStart 2 (pretty (SecFromTime t))
  +:+ "." +:+ padStart 3 (pretty (msFromTime t)) +:+ "Z".

(** [parseFloat(v)]: the argument is first turned into a text. A number
    reads back as itself (zero loses its sign); [undefined], [null] and the
    booleans give NaN. *)
Definition parseFloat (v : value) : float :=
  match v with
  | VNum x => if PrimFloat.eqb x 0 then 0%float else x
  | VStr s => parseFloat_text s
  | _ => nan
  end.

(** *** Persistence *)

Definition with_expenses (l : list object) (d : Data) : Data :=
  {| expenses := Some l; categories := categories d;
     income := income d; limits := limits d |}.

Definition with_categories (l : list string) (d : Data) : Data :=
  {| expenses := expenses d; categories := Some l;
     income := income d; limits := limits d |}.

Definition with_income (m : object) (d : Data) : Data :=
  {| expenses := expenses d; categories := categories d;
     income := Some m; limits := limits d |}.

Definition with_limits (m : gmap string object) (d : Data) : Data :=
  {| expenses := expenses d; categories := categories d;
     income := income d; limits := Some m |}.

(** [getStoredData()]: the parsed text, or the default record when nothing
    (or the empty text) is stored or parsing throws. *)
Definition load (st : storage) : Data :=
  match st with
  | Some stored =>
      if String.eqb stored "" then defaultData
      else match JSON_parse stored with
           | Some d => d
           | None => defaultData
           end
  | None => defaultData
  end.

Definition getStoredData : M Data := λ st, Returns (load st) st.

(** [saveData(data)]. The write is taken to succeed: storage is a cell that
    keeps the last text set (the [catch] of a failed write only logs). *)
Definition saveData (data : Data) : M unit :=
  λ _, Returns tt (Some (JSON_stringify data)).

Definition loadData : M Data := getStoredData.


(** *** Retention *)

(** [new Date()] at [now], then [setMonth(getMonth() - 12)]. *)
Definition twelveMonthsAgo (now : Z) : option Z :=
  setMonth now (MonthFromTime (LocalTime now) - 12).

(** The callback of the filter in [cleanupOldData]. *)
Definition retained (now : Z) (expense : object) : bool :=
  let expenseDate := Date_new (get expense "date") in
  date_ge expenseDate (twelveMonthsAgo now).

(** [cleanupOldData()], run when the clock reads [now]. *)
Definition cleanupOldData (now : Z) : M unit :=
  data ← getStoredData;
  match expenses data with
  | None => mret tt
  | Some exps => saveData (with_expenses (List.filter (retained now) exps) data)
  end.

(** [init()], which the constructor calls when the script is loaded. *)
Definition init (now : Z) : M unit :=
  _ ← cleanupOldData now;
  _ ← loadData;
  mret tt.

(** *** Expenses *)

(** [addExpense(expense)]; [t_id] is what [Date.now()] reads and [t_date]
    what [new Date()] reads when the draft has no date. The stored object
    is returned. *)
Definition addExpense (expense : object) (t_id t_date : Z) : M object :=
  data ← getStoredData;
  let expense := <["id" := VStr (pretty t_id)]> expense in
  let expense :=
    <["date" := or_else (get expense "date") (VStr (toISOString t_date))]> expense in
  match expenses data with
  | None => throw
  | Some exps =>
      _ ← saveData (with_expenses (exps ++ [expense]) data);
      mret expense
  end.

(** Calls of [addExpense] in a row: the draft and the two clock readings
    of each call. *)
Fixpoint addExpenses (calls : list (object * Z * Z)) : M unit :=
  match calls with
  | [] => mret tt
  | (expense, t_id, t_date) :: rest =>
      _ ← addExpense expense t_id t_date;
      addExpenses rest
  end.

Definition getExpenses : M (list object) :=
  data ← getStoredData;
  mret (default [] (expenses data)).

(** [expense.id === id]. *)
Definition has_id (id : value) (expense : object) : bool :=
  strict_eq (get expense "id") id.

Definition deleteExpense (id : value) : M unit :=
  data ← getStoredData;
  match expenses data with
  | None => throw
  | Some exps =>
      saveData (with_expenses
        (List.filter (λ expense, negb (has_id id expense)) exps) data)
  end.

(** [findIndex]: [None] stands for -1. *)
Fixpoint findIndex {A} (p : A → bool) (l : list A) : option nat :=
  match l with
  | [] => None
  | x :: r => if p x then Some 0%nat else S <$> findIndex p r
  end.

(** [updateExpense(id, updatedExpense)]: [{...old, ...updatedExpense}] is
    the union that prefers the patch; [None] stands for [null]. *)
Definition updateExpense (id : value) (updatedExpense : object) : M (option object) :=
  data ← getStoredData;
  match expenses data with
  | None => throw
  | Some exps =>
      match findIndex (has_id id) exps with
      | Some index =>
          let merged := updatedExpense ∪ default ∅ (exps !! index) in
          _ ← saveData (with_expenses (<[index := merged]> exps) data);
          mret (Some merged)
      | None => mret None
      end
  end.

(** *** Income *)

(** [monthKey || this.getMonthKey()], with [None] for [null]. *)
Definition key_or_current (monthKey : option string) (now : Z) : string :=
  match monthKey with
  | Some k => if String.eqb k "" then getMonthKey (Some now) else k
  | None => getMonthKey (Some now)
  end.

Definition setIncome (amount : value) (monthKey : option string) (now : Z) : M value :=
  data ← getStoredData;
  let inc := default ∅ (income data) in
  let key := key_or_current monthKey now in
  let incomeValue := parseFloat amount in
  _ ← saveData (with_income (<[key := VNum incomeValue]> inc) data);
  mret (VNum incomeValue).

Definition getIncome (monthKey : option string) (now : Z) : M value :=
  data ← getStoredData;
  match income data with
  | None => mret (VNum 0)
  | Some inc =>
      let key := key_or_current monthKey now in
      mret (or_else (get inc key) (VNum 0))
  end.

(** *** Totals *)

(** [isNaN(amt) ? 0 : amt] for [amt = parseFloat(exp.amount)]. *)
Definition amount_or_zero (exp : object) : float :=
  let amt := parseFloat (get exp "amount") in
  if PrimFloat.is_nan amt then 0%float else amt.

Definition getTotalExpensesForCategoryInMonth
    (category : string) (monthKey : option string) (now : Z) : M float :=
  let key := key_or_current monthKey now in
  exps ← getExpenses;
  mret (fold_left (λ sum exp,
    if negb (truthy (get exp "category")) || negb (truthy (get exp "date")) then sum
    else
      let expMonthKey := getMonthKey (Date_new (get exp "date")) in
      if String.eqb expMonthKey key && strict_eq (get exp "category") (VStr category)
      then (sum + amount_or_zero exp)%float
      else sum) exps 0%float).

Definition getTotalExpensesForMonth (monthKey : option string) (now : Z) : M float :=
  let key := key_or_current monthKey now in
  exps ← getExpenses;
  mret (fold_left (λ sum exp,
    if negb (truthy (get exp "date")) then sum
    else
      let expMonthKey := getMonthKey (Date_new (get exp "date")) in
      if String.eqb expMonthKey key
      then (sum + amount_or_zero exp)%float
      else sum) exps 0%float).

(** The expenses a total is taken over, and the sum: "the expense has a
    date and its month key is [key]", "its category is [category]", and the
    amounts added from the left, starting from 0. *)
Definition in_month (key : string) (exp : object) : bool :=
  truthy (get exp "date") && String.eqb (getMonthKey (Date_new (get exp "date"))) key.

Definition in_category (category : string) (exp : object) : bool :=
  strict_eq (get exp "category") (VStr category).

Definition fsum (l : list float) : float := fold_left PrimFloat.add l 0%float.

(** *** Categories *)

Definition getCategories : M (list string) :=
  data ← getStoredData;
  mret (default [] (categories data)).

(** [addCategory(categoryName)]; [None] stands for [null]. *)
Definition addCategory (categoryName : string) : M (option string) :=
  data ← getStoredData;
  let cats := default [] (categories data) in
  let categoryLower := String_toLowerCase (String_trim categoryName) in
  let exists_ := existsb (λ cat, String.eqb (String_toLowerCase cat) categoryLower) cats in
  if exists_ then mret None
  else
    _ ← saveData (with_categories (cats ++ [String_trim categoryName]) data);
    mret (Some (String_trim categoryName)).

(** [updateCategory(oldName, newName)]: renames in place. *)
Definition updateCategory (oldName newName : string) : M bool :=
  data ← getStoredData;
  match categories data with
  | None => mret false
  | Some cats =>
      match findIndex (λ cat, String.eqb cat oldName) cats with
      | Some index =>
          _ ← saveData (with_categories (<[index := String_trim newName]> cats) data);
          mret true
      | None => mret false
      end
  end.

Definition deleteCategory (categoryName : string) : M bool :=
  data ← getStoredData;
  match categories data with
  | None => mret false
  | Some cats =>
      _ ← saveData (with_categories
             (List.filter (λ cat, negb (String.eqb cat categoryName)) cats) data);
      mret true
  end.

(** *** Limits *)

Definition getLimitsForMonth (monthKey : option string) (now : Z) : M object :=
  data ← getStoredData;
  let key := key_or_current monthKey now in
  match limits data with
  | None => mret ∅
  | Some lim => mret (default ∅ (lim !! key))
  end.

Definition setLimitsForMonth
    (limitsObj : object) (monthKey : option string) (now : Z) : M object :=
  data ← getStoredData;
  let lim := default ∅ (limits data) in
  let key := key_or_current monthKey now in
  _ ← saveData (with_limits (<[key := limitsObj]> lim) data);
  mret limitsObj.

(** *** What the properties speak about *)

(** The expense list a reader finds: [data.expenses || []]. *)
Definition stored_expenses (st : storage) : list object :=
  default [] (expenses (load st)).

(** The ids of the stored expenses, in order. *)
Definition stored_ids (st : storage) : list value :=
  List.map (λ e, get e "id") (stored_expenses st).

Definition clock_ids (calls : list (object * Z * Z)) : list value :=
  List.map (λ c, VStr (pretty (c.1.2))) calls.

(** Equal up to the case of letters: equal after [toLowerCase]. *)
Definition same_name (a b : string) : Prop :=
  String_toLowerCase a = String_toLowerCase b.

(** The store as the application leaves it: a record of JSON values with an
    expense list. *)
Definition well_formed (st : storage) : Prop :=
  json_clean (load st) ∧ is_Some (expenses (load st)).

(** One call of a method that writes the store. *)
Inductive step (st : storage) : storage → Prop :=
| step_cleanupOldData now :
    step st (state_after (cleanupOldData now st) st)
| step_addExpense expense t_id t_date :
    step st (state_after (addExpense expense t_id t_date st) st)
| step_deleteExpense id :
    step st (state_after (deleteExpense id st) st)
| step_updateExpense id patch :
    step st (state_after (updateExpense id patch st) st)
| step_setIncome amount monthKey now :
    step st (state_after (setIncome amount monthKey now st) st)
| step_setLimitsForMonth limitsObj monthKey now :
    step st (state_after (setLimitsForMonth limitsObj monthKey now st) st)
| step_addCategory name :
    step st (state_after (addCategory name st) st)
| step_updateCategory oldName newName :
    step st (state_after (updateCategory oldName newName st) st)
| step_deleteCategory name :
    step st (state_after (deleteCategory name st) st).

(** The states of the store the application reaches from an empty
    [localStorage]. *)
Inductive reachable : storage → Prop :=
| reachable_empty : reachable None
| reachable_step st st' : reachable st → step st st' → reachable st'.

End Store.

(** ** A reference engine

    An engine to run the model on concrete inputs: local time is UTC, texts
    are ASCII, a date text is read when it has the ISO form
    [YYYY-MM-DD] or [YYYY-MM-DDTHH:mm:ss.sssZ], [parseFloat] reads a sign
    and at most fifteen digits with an optional point, and the record is
    written as a lossless text (not the JSON syntax) that reads back as
    [jsonify] says. *)

Module Reference.

Definition digit (c : ascii) : option Z :=
  let n := Z.of_nat (nat_of_ascii c) in
  if (48 <=? n) && (n <=? 57) then Some (n - 48) else None.

(** Exactly [n] digits. *)
Fixpoint digits (n : nat) (acc : Z) (s : string) : option (Z * string) :=
  match n with
  | O => Some (acc, s)
  | S n' =>
      match s with
      | String c r => d ← digit c; digits n' (10 * acc + d) r
      | EmptyString => None
      end
  end.

Definition expect (c : ascii) (s : string) : option string :=
  match s with
  | String c' r => if Ascii.eqb c c' then Some r else None
  | EmptyString => None
  end.

Definition parse_time (s : string) : option Z :=
  s ← expect "T"%char s;
  '(h, s) ← digits 2 0 s;
  s ← expect ":"%char s;
  '(mi, s) ← digits 2 0 s;
  s ← expect ":"%char s;
  '(sec, s) ← digits 2 0 s;
  s ← expect "."%char s;
  '(ms, s) ← digits 3 0 s;
  s ← expect "Z"%char s;
  if String.eqb s "" && (h <=? 23) && (mi <=? 59) && (sec <=? 59)
  then Some (h * 3600000 + mi * 60000 + sec * 1000 + ms)
  else None.

Definition parse_iso (s : string) : option Z :=
  '(y, s) ← digits 4 0 s;
  s ← expect "-"%char s;
  '(m, s) ← digits 2 0 s;
  s ← expect "-"%char s;
  '(d, s) ← digits 2 0 s;
  time ← (if String.eqb s "" then Some 0 else parse_time s);
  if (1 <=? m) && (m <=? 12) && (1 <=? d) && (d <=? DaysInMonth y (m - 1))
  then TimeClip (MakeDate (MakeDay y (m - 1) d) time)
  else None.

(** ASCII white space and letters. *)
Definition is_space (c : ascii) : bool :=
  let n := Z.of_nat (nat_of_ascii c) in
  ((9 <=? n) && (n <=? 13)) || (n =? 32).

Fixpoint trim_start (s : string) : string :=
  match s with
  | String c r => if is_space c then trim_start r else s
  | EmptyString => EmptyString
  end.

Definition trim (s : string) : string :=
  String.rev (trim_start (String.rev (trim_start s))).

Definition lower_char (c : ascii) : ascii :=
  let n := nat_of_ascii c in
  if (65 <=? n)%nat && (n <=? 90)%nat then ascii_of_nat (n + 32) else c.

Fixpoint toLowerCase (s : string) : string :=
  match s with
  | String c r => String (lower_char c) (toLowerCase r)
  | EmptyString => EmptyString
  end.

(** As many digits as there are: their value, their number, the rest. *)
Fixpoint leading_digits (acc : Z) (n : nat) (s : string) : Z * nat * string :=
  match s with
  | String c r =>
      match digit c with
      | Some d => leading_digits (10 * acc + d) (S n) r
      | None => (acc, n, s)
      end
  | EmptyString => (acc, n, s)
  end.

Definition float_of_Z (n : Z) : float := PrimFloat.of_uint63 (Uint63.of_Z n).

(** A text that is a sign, digits and an optional fraction, with at most
    fifteen digits: the quotient of two doubles that are exact, rounded
    once. Any other text is NaN for this engine. *)
Definition parse_decimal (s : string) : float :=
  let '(neg, s) :=
    match s with
    | String "-" r => (true, r)
    | String "+" r => (false, r)
    | _ => (false, s)
    end in
  let '(ip, ni, s) := leading_digits 0 0 s in
  let '(mant, nf, s) :=
    match s with
    | String "." r => let '(m, n, r') := leading_digits ip 0 r in (m, n, r')
    | _ => (ip, 0%nat, s)
    end in
  if String.eqb s "" && (0 <? ni + nf)%nat && (ni + nf <=? 15)%nat then
    let x := (float_of_Z mant / float_of_Z (10 ^ Z.of_nat nf))%float in
    if neg then (- x)%float else x
  else nan.

(** The record as a text: the binary digits of its code. *)
#[local] Instance float_eq_dec : EqDecision float.
Proof.
  intros x y. destruct (PrimFloat.Leibniz.eqb x y) eqn:Hxy.
  - left. by apply Leibniz.eqb_spec.
  - right. intros Heq. apply Leibniz.eqb_spec in Heq. congruence.
Defined.

#[local] Instance spec_float_eq_dec : EqDecision spec_float.
Proof. solve_decision. Defined.

#[local] Instance spec_float_countable : Countable spec_float.
Proof.
  refine (inj_countable'
    (λ s, match s with
          | S754_zero b => inl (inl b)
          | S754_infinity b => inl (inr b)
          | S754_nan => inr (inl ())
          | S754_finite b m e => inr (inr (b, m, e))
          end)
    (λ c, match c with
          | inl (inl b) => S754_zero b
          | inl (inr b) => S754_infinity b
          | inr (inl _) => S754_nan
          | inr (inr (b, m, e)) => S754_finite b m e
          end) _).
  by intros [].
Defined.

#[local] Instance float_countable : Countable float :=
  inj_countable' Prim2SF SF2Prim SF2Prim_Prim2SF.

#[local] Instance value_eq_dec : EqDecision value.
Proof. solve_decision. Defined.

#[local] Instance value_countable : Countable value.
Proof.
  refine (inj_countable'
    (λ v, match v with
          | VUndef => inl (inl ())
          | VNull => inl (inr ())
          | VBool b => inr (inl b)
          | VNum x => inr (inr (inl x))
          | VStr s => inr (inr (inr s))
          end)
    (λ c, match c with
          | inl (inl _) => VUndef
          | inl (inr _) => VNull
          | inr (inl b) => VBool b
          | inr (inr (inl x)) => VNum x
          | inr (inr (inr s)) => VStr s
          end) _).
  by intros [].
Defined.

#[local] Instance Data_eq_dec : EqDecision Data.
Proof. solve_decision. Defined.

#[local] Instance Data_countable : Countable Data.
Proof.
  refine (inj_countable'
    (λ d, (expenses d, categories d, income d, limits d))
    (λ t, let '(e, c, i, l) := t in mkData e c i l) _).
  by intros [].
Defined.

Fixpoint bits_of_pos (p : positive) : string :=
  match p with
  | xH => EmptyString
  | xO q => String "0" (bits_of_pos q)
  | xI q => String "1" (bits_of_pos q)
  end.

Fixpoint pos_of_bits (s : string) : option positive :=
  match s with
  | EmptyString => Some xH
  | String c r =>
      if Ascii.eqb c "0" then xO <$> pos_of_bits r
      else if Ascii.eqb c "1" then xI <$> pos_of_bits r
      else None
  end.

Definition stringify (d : Data) : string :=
  String "#" (bits_of_pos (encode (jsonify d))).

Definition parse (s : string) : option Data :=
  match s with
  | String "#" r => pos_of_bits r ≫= decode
  | _ => None
  end.

#[global] Instance engine : Engine := {|
  Date_parse := parse_iso;
  LocalTZA := λ _ _, 0;
  parseFloat_text := parse_decimal;
  String_trim := trim;
  String_toLowerCase := toLowerCase;
  JSON_parse := parse;
  JSON_stringify := stringify |}.

End Reference.

(** ** Sample data *)

Module Sample.

Definition expense (id date category : string) (amount : float) : object :=
  {[ "id" := VStr id; "date" := VStr date; "category" := VStr category;
     "amount" := VNum amount; "comment" := VStr "note" ]}.

(** The clock at a start of the application: 2025-03-15T12:00:00.000Z. *)
Definition now : Z := 1742040000000.

Definition e_old : object := expense "1" "2024-03-15T11:59:59.999Z" "Food" 50.
Definition e_boundary : object := expense "2" "2024-03-15T12:00:00.000Z" "Food" 30.
Definition e_recent : object := expense "3" "2025-01-10T08:30:00.000Z" "Rent" 700.
Definition e_undated : object :=
  {[ "id" := VStr "4"; "category" := VStr "Food"; "amount" := VNum 5 ]}.
Definition e_misdated : object := expense "5" "yesterday" "Food" 7.

Definition record : Data :=
  {| expenses := Some [e_old; e_boundary; e_recent; e_undated; e_misdated];
     categories := Some ["Food"; "Rent"];
     income := Some {[ "2025-03" := VNum 1000 ]};
     limits := Some {[ "2025-03" := {[ "Food" := VNum 200 ]} ]} |}.

(** The store after [saveData record]. *)
Definition store : storage := Some (Reference.stringify record).

(** Two expenses on food in March 2024. *)
Definition e_march5 : object := expense "10" "2024-03-05T00:00:00.000Z" "Food" 50.
Definition e_march20 : object := expense "11" "2024-03-20T00:00:00.000Z" "Food" 30.

Definition march : Data := with_expenses [e_march5; e_march20] defaultData.

Definition march_store : storage := Some (Reference.stringify march).

(** A patch that changes the amount only. *)
Definition patch : object := {[ "amount" := VNum 75 ]}.

(** Two drafts, added at the readings [now] and [now + 1] of the clock or
    both at [now]. *)
Definition draft (category : string) (amount : float) : object :=
  {[ "date" := VStr "2025-03-15T00:00:00.000Z"; "category" := VStr category;
     "amount" := VNum amount; "comment" := VStr "note" ]}.

Definition calls_apart : list (object * Z * Z) :=
  [ (draft "Food" 12, now, now); (draft "Rent" 700, now + 1, now + 1) ].

Definition calls_together : list (object * Z * Z) :=
  [ (draft "Food" 12, now, now); (draft "Rent" 700, now, now) ].

End Sample.

(** ** Screen navigation *)

(** The module-level variables of [app.js] that navigation reads or writes,
    with what the page shows: the screen carrying the class [active], the
    entries pushed on the browser history (newest first), the pending timers
    and the alerts raised (newest first). Years and month indexes are
    integers; [None] is [null]. Filling a screen with content does not
    change this state and is left out. *)
Record Nav : Type := mkNav {
  active : option string;
  history : list string;
  activeTimeouts : list nat;
  alerts : list string;
  currentEditingYear : option Z;
  currentEditingMonthIndex : option Z;
  currentViewYear : option Z;
  currentViewMonthIndex : option Z;
  currentViewCategory : option string;
  lastSummaryParams : option (Z * Z);
  lastCategoryDetailParams : option (Z * Z * string);
  deletionSourceScreen : option string;
  deletionContext : option (Z * Z * string) }.

Definition with_history (h : list string) (n : Nav) : Nav :=
  {| active := active n; history := h;
     activeTimeouts := activeTimeouts n; alerts := alerts n;
     currentEditingYear := currentEditingYear n;
     currentEditingMonthIndex := currentEditingMonthIndex n;
     currentViewYear := currentViewYear n;
     currentViewMonthIndex := currentViewMonthIndex n;
     currentViewCategory := currentViewCategory n;
     lastSummaryParams := lastSummaryParams n;
     lastCategoryDetailParams := lastCategoryDetailParams n;
     deletionSourceScreen := deletionSourceScreen n;
     deletionContext := deletionContext n |}.

(** [alert(message)]. *)
Definition alert (message : string) (n : Nav) : Nav :=
  {| active := active n; history := history n;
     activeTimeouts := activeTimeouts n; alerts := message :: alerts n;
     currentEditingYear := currentEditingYear n;
     currentEditingMonthIndex := currentEditingMonthIndex n;
     currentViewYear := currentViewYear n;
     currentViewMonthIndex := currentViewMonthIndex n;
     currentViewCategory := currentViewCategory n;
     lastSummaryParams := lastSummaryParams n;
     lastCategoryDetailParams := lastCategoryDetailParams n;
     deletionSourceScreen := deletionSourceScreen n;
     deletionContext := deletionContext n |}.

(** [lastSummaryParams = { year, monthIndex }; currentViewYear = year;
    currentViewMonthIndex = monthIndex]. *)
Definition set_summary (year monthIndex : Z) (n : Nav) : Nav :=
  {| active := active n; history := history n;
     activeTimeouts := activeTimeouts n; alerts := alerts n;
     currentEditingYear := currentEditingYear n;
     currentEditingMonthIndex := currentEditingMonthIndex n;
     currentViewYear := Some year;
     currentViewMonthIndex := Some monthIndex;
     currentViewCategory := currentViewCategory n;
     lastSummaryParams := Some (year, monthIndex);
     lastCategoryDetailParams := lastCategoryDetailParams n;
     deletionSourceScreen := deletionSourceScreen n;
     deletionContext := deletionContext n |}.

(** [lastCategoryDetailParams = { year, monthIndex, category }] and the
    three [currentView] variables. *)
Definition set_detail (year monthIndex : Z) (category : string) (n : Nav) : Nav :=
  {| active := active n; history := history n;
     activeTimeouts := activeTimeouts n; alerts := alerts n;
     currentEditingYear := currentEditingYear n;
     currentEditingMonthIndex := currentEditingMonthIndex n;
     currentViewYear := Some year;
     currentViewMonthIndex := Some monthIndex;
     currentViewCategory := Some category;
     lastSummaryParams := lastSummaryParams n;
     lastCategoryDetailParams := Some (year, monthIndex, category);
     deletionSourceScreen := deletionSourceScreen n;
     deletionContext := deletionContext n |}.

(** [currentEditingYear = year; currentEditingMonthIndex = monthIndex]. *)
Definition set_editing (year monthIndex : option Z) (n : Nav) : Nav :=
  {| active := active n; history := history n;
     activeTimeouts := activeTimeouts n; alerts := alerts n;
     currentEditingYear := year;
     currentEditingMonthIndex := monthIndex;
     currentViewYear := currentViewYear n;
     currentViewMonthIndex := currentViewMonthIndex n;
     currentViewCategory := currentViewCategory n;
     lastSummaryParams := lastSummaryParams n;
     lastCategoryDetailParams := lastCategoryDetailParams n;
     deletionSourceScreen := deletionSourceScreen n;
     deletionContext := deletionContext n |}.

Section Navigation.
Context {E : Engine}.

(** The page ([index.html]): which ids are screens of the document. *)
Variable is_screen : string → bool.

(** [currentScreenId !== screenId], where the current id may be [null]. *)
Definition other_screen (current : option string) (screenId : string) : bool :=
  match current with
  | Some id => negb (String.eqb id screenId)
  | None => true
  end.

(** [showScreen(screenId, pushToHistory)]: pending timers are cleared, a
    history entry is pushed when asked for and the screen changes, every
    screen is hidden and the target, if the page has it, becomes active. *)
Definition showScreen (screenId : string) (pushToHistory : bool) (n : Nav) : Nav :=
  let currentScreenId := active n in
  {| active := if is_screen screenId then Some screenId else None;
     history :=
       if pushToHistory && other_screen currentScreenId screenId
       then screenId :: history n else history n;
     activeTimeouts := [];
     alerts := alerts n;
     currentEditingYear := currentEditingYear n;
     currentEditingMonthIndex := currentEditingMonthIndex n;
     currentViewYear := currentViewYear n;
     currentViewMonthIndex := currentViewMonthIndex n;
     currentViewCategory := currentViewCategory n;
     lastSummaryParams := lastSummaryParams n;
     lastCategoryDetailParams := lastCategoryDetailParams n;
     deletionSourceScreen := deletionSourceScreen n;
     deletionContext := deletionContext n |}.

(** [expenseTracker.getCategories()] as the screens read it. *)
Definition stored_categories (st : storage) : list string :=
  match getCategories st with
  | Returns categories _ => categories
  | Throws => []
  end.

(** The screen functions [navigateBack] calls. *)
Definition showIncomeViewScreen (addToHistory : bool) (n : Nav) : Nav :=
  showScreen "income-view-screen" addToHistory n.

Definition showCategoriesMainScreen (addToHistory : bool) (n : Nav) : Nav :=
  showScreen "categories-main-screen" addToHistory n.

Definition showEditCategorySelectScreen (addToHistory : bool) (st : storage) (n : Nav) : Nav :=
  let categories := stored_categories st in
  if (length categories =? 0)%nat then alert "No categories available to edit." n
  else showScreen "edit-category-select-screen" addToHistory n.

Definition showDeleteCategorySelectScreen (addToHistory : bool) (st : storage) (n : Nav) : Nav :=
  let categories := stored_categories st in
  if (length categories =? 0)%nat then alert "No categories available to delete." n
  else showScreen "delete-category-select-screen" addToHistory n.

Definition showAddExpenseScreen (addToHistory : bool) (n : Nav) : Nav :=
  showScreen "add-expense-screen" addToHistory n.

Definition showViewEditExpensesScreen (addToHistory : bool) (n : Nav) : Nav :=
  showScreen "view-edit-expenses-screen" addToHistory n.

Definition showViewExpensesMonthSelectScreen (addToHistory : bool) (n : Nav) : Nav :=
  showScreen "view-expenses-month-select-screen" addToHistory n.

Definition showMonthSummaryScreen (year monthIndex : Z) (addToHistory : bool) (n : Nav) : Nav :=
  showScreen "view-expenses-month-summary-screen" addToHistory
    (set_summary year monthIndex n).

Definition showCategoryExpensesDetailScreen
    (year monthIndex : Z) (category : string) (addToHistory : bool) (n : Nav) : Nav :=
  showScreen "category-expenses-detail-screen" addToHistory
    (set_detail year monthIndex category n).

Definition showEditExpensesMonthSelectScreen (addToHistory : bool) (n : Nav) : Nav :=
  showScreen "edit-expenses-month-select-screen" addToHistory n.

Definition showEditExpensesListScreen
    (year monthIndex : option Z) (addToHistory : bool) (n : Nav) : Nav :=
  showScreen "edit-expenses-list-screen" addToHistory (set_editing year monthIndex n).

Definition showViewSavingsScreen (addToHistory : bool) (n : Nav) : Nav :=
  showScreen "view-savings-screen" addToHistory n.

Definition showExitConfirmation (n : Nav) : Nav :=
  showScreen "exit-confirmation-screen" true n.

(** The object [logicalParent] of [navigateBack]: screen id to closure. *)
Definition logicalParent : list (string * (storage → Nav → Nav)) :=
  [ ("income-view-screen", λ _ n, showScreen "main-menu-screen" false n);
    ("income-edit-screen", λ _ n, showIncomeViewScreen false n);
    ("income-confirmation-screen", λ _ n, showScreen "main-menu-screen" false n);
    ("categories-main-screen", λ _ n, showScreen "main-menu-screen" false n);
    ("add-category-screen", λ _ n, showCategoriesMainScreen false n);
    ("category-confirmation-screen", λ _ n, showCategoriesMainScreen false n);
    ("edit-category-select-screen", λ _ n, showCategoriesMainScreen false n);
    ("edit-category-form-screen", λ st n, showEditCategorySelectScreen false st n);
    ("delete-category-select-screen", λ _ n, showCategoriesMainScreen false n);
    ("delete-category-confirmation-screen",
       λ st n, showDeleteCategorySelectScreen false st n);
    ("limits-screen", λ _ n, showScreen "main-menu-screen" false n);
    ("add-expense-screen", λ _ n, showScreen "main-menu-screen" false n);
    ("expense-added-screen", λ _ n, showAddExpenseScreen false n);
    ("view-edit-expenses-screen", λ _ n, showScreen "main-menu-screen" false n);
    ("view-expenses-month-select-screen", λ _ n, showViewEditExpensesScreen false n);
    ("view-expenses-month-summary-screen",
       λ _ n, showViewExpensesMonthSelectScreen false n);
    ("category-expenses-detail-screen", λ _ n,
       match lastSummaryParams n with
       | Some (year, monthIndex) => showMonthSummaryScreen year monthIndex false n
       | None => showViewExpensesMonthSelectScreen false n
       end);
    ("edit-expenses-month-select-screen", λ _ n, showViewEditExpensesScreen false n);
    ("edit-expenses-list-screen", λ _ n, showEditExpensesMonthSelectScreen false n);
    ("expense-modified-screen", λ _ n, showEditExpensesMonthSelectScreen false n);
    ("download-expenses-screen", λ _ n, showViewEditExpensesScreen false n);
    ("download-confirmation-screen", λ _ n, showViewEditExpensesScreen false n);
    ("view-savings-screen", λ _ n, showScreen "main-menu-screen" false n);
    ("monthly-savings-detail-screen", λ _ n, showViewSavingsScreen false n);
    ("exit-confirmation-screen", λ _ n, showScreen "main-menu-screen" false n);
    ("delete-expense-confirmation-screen", λ _ n,
       match deletionSourceScreen n, deletionContext n with
       | Some source, Some (year, monthIndex, category) =>
           if String.eqb source "category-expenses-detail-screen"
           then showCategoryExpensesDetailScreen year monthIndex category false n
           else if String.eqb source "edit-expenses-list-screen"
           then showEditExpensesListScreen
                  (currentEditingYear n) (currentEditingMonthIndex n) false n
           else showScreen "main-menu-screen" false n
       | Some source, None =>
           if String.eqb source "edit-expenses-list-screen"
           then showEditExpensesListScreen
                  (currentEditingYear n) (currentEditingMonthIndex n) false n
           else showScreen "main-menu-screen" false n
       | None, _ => showScreen "main-menu-screen" false n
       end) ].

(** [logicalParent[currentId]]: the own property of that name (a screen id
    is not the name of a member of [Object.prototype]). *)
Fixpoint property {A} (table : list (string * A)) (key : string) : option A :=
  match table with
  | [] => None
  | (k, v) :: rest => if String.eqb k key then Some v else property rest key
  end.

(** [navigateBack()]. *)
Definition navigateBack (st : storage) (n : Nav) : Nav :=
  match active n with
  | None => showExitConfirmation n
  | Some currentId =>
      if String.eqb currentId "" || String.eqb currentId "main-menu-screen"
         || String.eqb currentId "welcome-screen"
      then showExitConfirmation n
      else
        match property logicalParent currentId with
        | Some parent => parent st n
        | None => showScreen "main-menu-screen" false n
        end
  end.

(** The screens whose entry in [logicalParent] is a fixed transition, with
    the screen that transition shows. *)
Definition staticParent : list (string * string) :=
  [ ("income-view-screen", "main-menu-screen");
    ("income-edit-screen", "income-view-screen");
    ("income-confirmation-screen", "main-menu-screen");
    ("categories-main-screen", "main-menu-screen");
    ("add-category-screen", "categories-main-screen");
    ("category-confirmation-screen", "categories-main-screen");
    ("edit-category-select-screen", "categories-main-screen");
    ("edit-category-form-screen", "edit-category-select-screen");
    ("delete-category-select-screen", "categories-main-screen");
    ("delete-category-confirmation-screen", "delete-category-select-screen");
    ("limits-screen", "main-menu-screen");
    ("add-expense-screen", "main-menu-screen");
    ("expense-added-screen", "add-expense-screen");
    ("view-edit-expenses-screen", "main-menu-screen");
    ("view-expenses-month-select-screen", "view-edit-expenses-screen");
    ("view-expenses-month-summary-screen", "view-expenses-month-select-screen");
    ("edit-expenses-month-select-screen", "view-edit-expenses-screen");
    ("edit-expenses-list-screen", "edit-expenses-month-select-screen");
    ("expense-modified-screen", "edit-expenses-month-select-screen");
    ("download-expenses-screen", "view-edit-expenses-screen");
    ("download-confirmation-screen", "view-edit-expenses-screen");
    ("view-savings-screen", "main-menu-screen");
    ("monthly-savings-detail-screen", "view-savings-screen");
    ("exit-confirmation-screen", "main-menu-screen") ].

(** The two parents that are category pickers: their screen function shows
    nothing when no category is stored. *)
Definition category_picker (screenId : string) : bool :=
  String.eqb screenId "edit-category-select-screen"
  || String.eqb screenId "delete-category-select-screen".

End Navigation.

(** A page that has every screen, and the state in which the category edit
    form is shown. *)
Module SampleNav.

Definition every_screen (id : string) : bool := true.

Definition on_screen (id : string) : Nav :=
  {| active := Some id; history := [id; "categories-main-screen"];
     activeTimeouts := []; alerts := [];
     currentEditingYear := None; currentEditingMonthIndex := None;
     currentViewYear := None; currentViewMonthIndex := None;
     currentViewCategory := None;
     lastSummaryParams := None; lastCategoryDetailParams := None;
     deletionSourceScreen := None; deletionContext := None |}.

End SampleNav.

(** ** More of the store: months, years and the methods built on them *)

Section StoreMonths.
Context {E : Engine}.

(** The month key the screens build from a year and a month index (0 for
    January): [`${year}-${String(monthIndex + 1).padStart(2, '0')}`]. *)
Definition monthKeyOf (year monthIndex : Z) : string :=
  pretty year +:+ "-" +:+ padStart 2 (pretty (monthIndex + 1)).

(** [getPreviousMonth(date)]: a copy of the date, moved by
    [setMonth(getMonth() - 1)]; an Invalid Date stays invalid. *)
Definition getPreviousMonth (date : option Z) : option Z :=
  prevMonth ← date;
  setMonth prevMonth (MonthFromTime (LocalTime prevMonth) - 1).

(** [getPreviousMonthIncome()], called when the clock reads [now]. *)
Definition getPreviousMonthIncome (now : Z) : M value :=
  let prevMonth := getPreviousMonth (Some now) in
  let prevMonthKey := getMonthKey prevMonth in
  getIncome (Some prevMonthKey) now.

(** [getExpensesForMonth(monthKey)]. *)
Definition getExpensesForMonth (monthKey : option string) (now : Z) : M (list object) :=
  let key := key_or_current monthKey now in
  exps ← getExpenses;
  mret (List.filter (λ exp,
    if negb (truthy (get exp "date")) then false
    else
      let expMonthKey := getMonthKey (Date_new (get exp "date")) in
      String.eqb expMonthKey key) exps).

(** [year || new Date().getFullYear()], with [None] for [null]. *)
Definition year_or_current (year : option Z) (now : Z) : Z :=
  match year with
  | Some y => if y =? 0 then YearFromTime (LocalTime now) else y
  | None => YearFromTime (LocalTime now)
  end.

(** [expDate.getFullYear() === targetYear]: false for an Invalid Date. *)
Definition year_is (targetYear : Z) (expDate : option Z) : bool :=
  match getFullYear expDate with
  | Some y => y =? targetYear
  | None => false
  end.

(** [getTotalExpensesForYear(year)]. *)
Definition getTotalExpensesForYear (year : option Z) (now : Z) : M float :=
  let targetYear := year_or_current year now in
  exps ← getExpenses;
  mret (fold_left (λ sum exp,
    if negb (truthy (get exp "date")) then sum
    else
      let expDate := Date_new (get exp "date") in
      if year_is targetYear expDate
      then (sum + amount_or_zero exp)%float
      else sum) exps 0%float).

(** "The expense has a date in local year [targetYear]". *)
Definition in_year (targetYear : Z) (exp : object) : bool :=
  truthy (get exp "date") && year_is targetYear (Date_new (get exp "date")).

(** The category names compared as [addCategory] compares them. *)
Definition distinct_names (cats : list string) : Prop :=
  NoDup (List.map String_toLowerCase cats).

End StoreMonths.

(** More sample data: a limits object for one category, and a record
    that has no expense list. *)
Module SampleMore.

Definition rent_limit : object := {[ "Rent" := VNum 800 ]}.

Definition no_list : Data :=
  {| expenses := None; categories := Some []; income := Some ∅; limits := Some ∅ |}.

(** 2025-03-31T12:00:00.000Z, and the 3rd and the 15th of the months
    that [getPreviousMonth] gives for it and for [Sample.now]. *)
Definition march31 : Z := 1743422400000.
Definition march3 : Z := 1741003200000.
Definition february15 : Z := 1739620800000.

End SampleMore.

(** ** The handlers of the screens *)

(** [activeTimeouts = []]. *)
Definition clear_timeouts (n : Nav) : Nav :=
  {| active := active n; history := history n;
     activeTimeouts := []; alerts := alerts n;
     currentEditingYear := currentEditingYear n;
     currentEditingMonthIndex := currentEditingMonthIndex n;
     currentViewYear := currentViewYear n;
     currentViewMonthIndex := currentViewMonthIndex n;
     currentViewCategory := currentViewCategory n;
     lastSummaryParams := lastSummaryParams n;
     lastCategoryDetailParams := lastCategoryDetailParams n;
     deletionSourceScreen := deletionSourceScreen n;
     deletionContext := deletionContext n |}.

(** [activeTimeouts.push(timeout)]. *)
Definition push_timeout (timeout : nat) (n : Nav) : Nav :=
  {| active := active n; history := history n;
     activeTimeouts := activeTimeouts n ++ [timeout]; alerts := alerts n;
     currentEditingYear := currentEditingYear n;
     currentEditingMonthIndex := currentEditingMonthIndex n;
     currentViewYear := currentViewYear n;
     currentViewMonthIndex := currentViewMonthIndex n;
     currentViewCategory := currentViewCategory n;
     lastSummaryParams := lastSummaryParams n;
     lastCategoryDetailParams := lastCategoryDetailParams n;
     deletionSourceScreen := deletionSourceScreen n;
     deletionContext := deletionContext n |}.

(** [deletionSourceScreen = source; deletionContext = context]. *)
Definition set_deletion
    (source : option string) (context : option (Z * Z * string)) (n : Nav) : Nav :=
  {| active := active n; history := history n;
     activeTimeouts := activeTimeouts n; alerts := alerts n;
     currentEditingYear := currentEditingYear n;
     currentEditingMonthIndex := currentEditingMonthIndex n;
     currentViewYear := currentViewYear n;
     currentViewMonthIndex := currentViewMonthIndex n;
     currentViewCategory := currentViewCategory n;
     lastSummaryParams := lastSummaryParams n;
     lastCategoryDetailParams := lastCategoryDetailParams n;
     deletionSourceScreen := source;
     deletionContext := context |}.

(** The navigation variables together with [expenseIdToDelete], the id
    the delete confirmation is about ([None] is [null]). *)
Record Page : Type := mkPage {
  nav : Nav;
  expenseIdToDelete : option string }.

Section Handlers.
Context {E : Engine}.
Variable is_screen : string → bool.

Definition showLimitsScreen (addToHistory : bool) (n : Nav) : Nav :=
  showScreen is_screen "limits-screen" addToHistory n.

(** [handleMenuAction(action)]: the [switch] on the [data-action] of the
    menu button. *)
Definition handleMenuAction (action : string) (n : Nav) : Nav :=
  let n := clear_timeouts n in
  if String.eqb action "income" then showIncomeViewScreen is_screen true n
  else if String.eqb action "categories" then showCategoriesMainScreen is_screen true n
  else if String.eqb action "limits" then showLimitsScreen true n
  else if String.eqb action "add-expense" then showAddExpenseScreen is_screen true n
  else if String.eqb action "view-expense" then showViewEditExpensesScreen is_screen true n
  else if String.eqb action "savings" then showViewSavingsScreen is_screen true n
  else if String.eqb action "exit" then showExitConfirmation is_screen n
  else n.

(** *** Deleting an expense *)

(** [showDeleteExpenseConfirmation(id, sourceScreen, context)]. *)
Definition showDeleteExpenseConfirmation
    (id sourceScreen : string) (context : option (Z * Z * string)) (p : Page) : Page :=
  {| nav := showScreen is_screen "delete-expense-confirmation-screen" true
              (set_deletion (Some sourceScreen) context (nav p));
     expenseIdToDelete := Some id |}.

(** The screen shown again after a deletion: the one the delete button was
    on, none when the source is neither of the two lists. *)
Definition showDeletionSource (n : Nav) : Nav :=
  match deletionSourceScreen n, deletionContext n with
  | Some source, Some (year, monthIndex, category) =>
      if String.eqb source "category-expenses-detail-screen"
      then showCategoryExpensesDetailScreen is_screen year monthIndex category false n
      else if String.eqb source "edit-expenses-list-screen"
      then showEditExpensesListScreen is_screen
             (currentEditingYear n) (currentEditingMonthIndex n) false n
      else n
  | Some source, None =>
      if String.eqb source "edit-expenses-list-screen"
      then showEditExpensesListScreen is_screen
             (currentEditingYear n) (currentEditingMonthIndex n) false n
      else n
  | None, _ => n
  end.

(** [handleDeleteExpense()], the click handler of the confirm button. *)
Definition handleDeleteExpense (p : Page) : M Page :=
  match expenseIdToDelete p with
  | Some id =>
      if String.eqb id "" then mret p
      else
        _ ← deleteExpense (VStr id);
        let n := showDeletionSource (nav p) in
        mret {| nav := set_deletion None None n; expenseIdToDelete := None |}
  | None => mret p
  end.

(** The click handler of the cancel button of the delete confirmation. *)
Definition cancelDeleteExpense (n : Nav) : Nav :=
  match deletionSourceScreen n, deletionContext n with
  | Some source, Some (year, monthIndex, category) =>
      if String.eqb source "category-expenses-detail-screen"
      then showCategoryExpensesDetailScreen is_screen year monthIndex category false n
      else if String.eqb source "edit-expenses-list-screen"
      then showEditExpensesListScreen is_screen
             (currentEditingYear n) (currentEditingMonthIndex n) false n
      else showScreen is_screen "main-menu-screen" true n
  | Some source, None =>
      if String.eqb source "edit-expenses-list-screen"
      then showEditExpensesListScreen is_screen
             (currentEditingYear n) (currentEditingMonthIndex n) false n
      else showScreen is_screen "main-menu-screen" true n
  | None, _ => showScreen is_screen "main-menu-screen" true n
  end.

(** *** The category forms *)

(** [handleAddCategory()]; [input] is the text of the category field. *)
Definition handleAddCategory (input : string) (n : Nav) : M Nav :=
  let categoryName := String_trim input in
  if String.eqb categoryName "" then mret (alert "Please enter a category name." n)
  else
    added ← addCategory categoryName;
    match added with
    | Some name =>
        if String.eqb name "" then mret (alert "This category already exists." n)
        else mret (showScreen is_screen "category-confirmation-screen" true n)
    | None => mret (alert "This category already exists." n)
    end.

(** [cat !== window.currentEditingCategory]. *)
Definition differs (cat : string) (current : option string) : bool :=
  match current with
  | Some name => negb (String.eqb cat name)
  | None => true
  end.

(** [handleUpdateCategory()]; [input] is the text of the edit field and
    [currentEditingCategory] what [window.currentEditingCategory] holds
    ([None] when it was never set: no stored name is equal to it, and
    [updateCategory] answers [false]). An error only changes the text of
    the error element. *)
Definition handleUpdateCategory
    (input : string) (currentEditingCategory : option string) (n : Nav) : M Nav :=
  let newName := String_trim input in
  if String.eqb newName "" then mret n
  else
    categories ← getCategories;
    if existsb (λ cat,
         String.eqb (String_toLowerCase cat) (String_toLowerCase newName)
         && differs cat currentEditingCategory) categories
    then mret n
    else
      updated ← match currentEditingCategory with
                | Some oldName => updateCategory oldName newName
                | None => mret false
                end;
      if (updated : bool)
      then mret (showCategoriesMainScreen is_screen true n)
      else mret n.

(** [handleDeleteCategory(categoryName)]. *)
Definition handleDeleteCategory (categoryName : string) (n : Nav) : M Nav :=
  deleted ← deleteCategory categoryName;
  if (deleted : bool)
  then mret (showCategoriesMainScreen is_screen true n)
  else mret n.

(** *** The expense and income forms *)

(** [handleAddExpenseSubmit()]; the arguments are the texts of the four
    fields, [t_id] is the reading of the clock. [toISOString] of an Invalid
    Date throws a RangeError. *)
Definition handleAddExpenseSubmit
    (date cat value commentInput : string) (t_id : Z) (n : Nav) : M Nav :=
  let val := parseFloat_text value in
  let comment := String_trim commentInput in
  let hasError := false in
  let hasError := if String.eqb date "" then true else hasError in
  let hasError := if String.eqb cat "" then true else hasError in
  let hasError :=
    if PrimFloat.is_nan val || PrimFloat.leb val 0 then true else hasError in
  let hasError := if String.eqb comment "" then true else hasError in
  if negb hasError then
    match Date_parse date with
    | Some t =>
        _ ← addExpense {[ "date" := VStr (toISOString t); "category" := VStr cat;
                          "amount" := VNum val; "comment" := VStr comment ]} t_id t_id;
        mret (showScreen is_screen "expense-added-screen" true n)
    | None => throw
    end
  else mret n.

(** [handleSetIncome()]; [input] is the text of the income field, [now] the
    reading of the clock and [timeout] the timer [setTimeout] returns. *)
Definition handleSetIncome (input : string) (now : Z) (timeout : nat) (n : Nav) : M Nav :=
  let incomeValue := parseFloat_text input in
  if PrimFloat.is_nan incomeValue || PrimFloat.ltb incomeValue 0
  then mret (alert "Please enter a valid income amount." n)
  else
    _ ← setIncome (VNum incomeValue) None now;
    mret (push_timeout timeout n).

(** *** What back navigation is measured against *)

(** The screen each menu action shows. *)
Definition menuTarget : list (string * string) :=
  [ ("income", "income-view-screen");
    ("categories", "categories-main-screen");
    ("limits", "limits-screen");
    ("add-expense", "add-expense-screen");
    ("view-expense", "view-edit-expenses-screen");
    ("savings", "view-savings-screen");
    ("exit", "exit-confirmation-screen") ].

(** The screens that [navigateBack] shows. *)
Definition backTargets : list string :=
  [ "main-menu-screen"; "exit-confirmation-screen"; "income-view-screen";
    "categories-main-screen"; "edit-category-select-screen";
    "delete-category-select-screen"; "add-expense-screen";
    "view-edit-expenses-screen"; "view-expenses-month-select-screen";
    "view-expenses-month-summary-screen"; "category-expenses-detail-screen";
    "edit-expenses-month-select-screen"; "edit-expenses-list-screen";
    "view-savings-screen" ].

(** The number of times back is pressed, at most, to come from a screen to
    the main menu. *)
Definition backDistanceOf : list (string * nat) :=
  [ ("main-menu-screen", 0%nat);
    ("", 2%nat);
    ("welcome-screen", 2%nat);
    ("income-view-screen", 1%nat);
    ("income-edit-screen", 2%nat);
    ("income-confirmation-screen", 1%nat);
    ("categories-main-screen", 1%nat);
    ("add-category-screen", 2%nat);
    ("category-confirmation-screen", 2%nat);
    ("edit-category-select-screen", 2%nat);
    ("edit-category-form-screen", 3%nat);
    ("delete-category-select-screen", 2%nat);
    ("delete-category-confirmation-screen", 3%nat);
    ("limits-screen", 1%nat);
    ("add-expense-screen", 1%nat);
    ("expense-added-screen", 2%nat);
    ("view-edit-expenses-screen", 1%nat);
    ("view-expenses-month-select-screen", 2%nat);
    ("view-expenses-month-summary-screen", 3%nat);
    ("category-expenses-detail-screen", 4%nat);
    ("edit-expenses-month-select-screen", 2%nat);
    ("edit-expenses-list-screen", 3%nat);
    ("expense-modified-screen", 3%nat);
    ("download-expenses-screen", 2%nat);
    ("download-confirmation-screen", 2%nat);
    ("view-savings-screen", 1%nat);
    ("monthly-savings-detail-screen", 2%nat);
    ("exit-confirmation-screen", 1%nat);
    ("delete-expense-confirmation-screen", 5%nat) ].

Definition backDistance (current : option string) : nat :=
  match current with
  | Some id => default 1%nat (property backDistanceOf id)
  | None => 2%nat
  end.

End Handlers.

(** A page on which the screen [id] is shown and no deletion is pending,
    the navigation state when the delete button of the edit list was
    pressed, and a draft of an expense on 25 March 2024. *)
Module SamplePage.

Definition showing (id : string) : Page :=
  {| nav := SampleNav.on_screen id; expenseIdToDelete := None |}.

Definition confirming : Nav :=
  set_deletion (Some "edit-expenses-list-screen") None
    (SampleNav.on_screen "delete-expense-confirmation-screen").

Definition draft25 : object :=
  {[ "date" := VStr "2024-03-25T00:00:00.000Z"; "category" := VStr "Food";
     "amount" := VNum 20; "comment" := VStr "note" ]}.

End SamplePage.

(** ** Carrying the income forward, and the back button of the detail list *)

Section IncomeFlow.
Context {E : Engine}.
Variable is_screen : string → bool.

(** [Number(text)]: the number the engine converts a text to when it
    compares it with a number. *)
Variable Number_text : string → float.

(** [v > 0] for a stored value [v]. *)
Definition above_zero (v : value) : bool :=
  match v with
  | VNum x => PrimFloat.ltb 0 x
  | VStr s => PrimFloat.ltb 0 (Number_text s)
  | VBool b => b
  | VNull | VUndef => false
  end.

(** [showIncomeConfirmation(income)]; [timeout] is the timer [setTimeout]
    returns. *)
Definition showIncomeConfirmation (timeout : nat) (n : Nav) : Nav :=
  push_timeout timeout (showScreen is_screen "income-confirmation-screen" true n).

(** [handleContinueIncome()]; [now] and [now'] are the readings of the
    clock in [getMonthKey()] and in [getPreviousMonthIncome()]. *)
Definition handleContinueIncome (now now' : Z) (timeout : nat) (n : Nav) : M Nav :=
  let currentMonthKey := getMonthKey (Some now) in
  currentIncome ← getIncome (Some currentMonthKey) now;
  if above_zero currentIncome then mret (showIncomeConfirmation timeout n)
  else
    previousIncome ← getPreviousMonthIncome now';
    if strict_eq previousIncome (VNum 0)
    then mret (alert "Please enter an income using the Edit button." n)
    else
      _ ← setIncome previousIncome (Some currentMonthKey) now;
      mret (showIncomeConfirmation timeout n).

(** The click handler of the back button of the category detail list. *)
Definition categoryExpensesBack (n : Nav) : Nav :=
  match currentViewYear n, currentViewMonthIndex n with
  | Some year, Some monthIndex => showMonthSummaryScreen is_screen year monthIndex false n
  | _, _ => showScreen is_screen "view-expenses-month-summary-screen" true n
  end.

End IncomeFlow.

(** 2025-04-15T12:00:00.000Z, a month after [Sample.now], and the detail
    list of Food opened from the summary of March 2025. *)
Module SampleFlow.

Definition april15 : Z := 1744718400000.

Definition detail_from_summary : Nav :=
  showCategoryExpensesDetailScreen SampleNav.every_screen 2025 2 "Food" true
    (showMonthSummaryScreen SampleNav.every_screen 2025 2 true
       (SampleNav.on_screen "view-expenses-month-select-screen")).

End SampleFlow.

(** * Properties *)

(** Linear arithmetic with division and remainder by constants. *)
Ltac zdiv := Z.to_euclidean_division_equations; lia.

(** Reading the store is reasoned about through [load_saved], not unfolded. *)
Arguments load : simpl never.
Arguments key_or_current : simpl never.

(** Running a method of the store: unfold the monad. *)
Ltac run_store :=
  repeat (progress (unfold getStoredData, saveData, mbind, M_bind, mret, M_ret, throw; simpl)).

(** ** The calendar *)

(** A year has 365 or 366 days, as the leap year rule says. *)
Lemma DayFromYear_step y : DayFromYear (y + 1) - DayFromYear y = DaysInYear y.
Proof.
  unfold DayFromYear, DaysInYear.
  repeat (case_match; simpl); rewrite ?negb_true_iff, ?negb_false_iff in *;
    rewrite ?Z.eqb_eq, ?Z.eqb_neq in *; zdiv.
Qed.

Lemma DaysInYear_range y : 365 ≤ DaysInYear y ≤ 366.
Proof. unfold DaysInYear. repeat case_match; lia. Qed.

Lemma DayFromYear_mono y1 y2 : y1 ≤ y2 → DayFromYear y1 ≤ DayFromYear y2.
Proof. unfold DayFromYear. zdiv. Qed.

(** [YearFromDay d] is the year day [d] falls in: the largest year that
    starts on or before [d]. *)
Lemma YearFromDay_spec d :
  DayFromYear (YearFromDay d) ≤ d < DayFromYear (YearFromDay d + 1).
Proof.
  unfold YearFromDay. cbv zeta.
  destruct (Z.ltb_spec d (DayFromYear (1970 + d * 400 / 146097))) as [Hlt|Hge].
  - replace (1970 + d * 400 / 146097 - 1 + 1) with (1970 + d * 400 / 146097) by lia.
    split; [|lia]. revert Hlt. unfold DayFromYear. zdiv.
  - destruct (Z.leb_spec (DayFromYear (1970 + d * 400 / 146097 + 1)) d) as [Hle|Hgt].
    + split; [lia|]. revert Hle. unfold DayFromYear. zdiv.
    + lia.
Qed.

Lemma YearFromDay_unique d y :
  DayFromYear y ≤ d < DayFromYear (y + 1) → YearFromDay d = y.
Proof.
  intros Hy. pose proof (YearFromDay_spec d) as Hspec.
  destruct (Z.lt_trichotomy (YearFromDay d) y) as [Hlt|[Heq|Hgt]]; [|done|].
  - pose proof (DayFromYear_mono (YearFromDay d + 1) y). lia.
  - pose proof (DayFromYear_mono (y + 1) (YearFromDay d)). lia.
Qed.

(** The calendar functions read back the date [MakeDay] and [MakeDate]
    were given. *)
Lemma calendar_fields y m d time :
  0 ≤ m < 12 → 1 ≤ d ≤ DaysInMonth y m → 0 ≤ time < msPerDay →
  let t := MakeDate (MakeDay y m d) time in
  YearFromTime t = y ∧ MonthFromTime t = m ∧ DateFromTime t = d ∧
  TimeWithinDay t = time.
Proof.
  intros Hm Hd Htime t.
  assert (Hday : Day t = MakeDay y m d).
  { subst t. unfold Day, MakeDate, msPerDay in *. zdiv. }
  assert (Hmake : MakeDay y m d =
            DayFromYear y +
            DaysBeforeMonth (if DaysInYear y =? 366 then 1 else 0) m + d - 1).
  { unfold MakeDay. replace (m / 12) with 0 by zdiv.
    replace (m mod 12) with m by zdiv. by rewrite Z.add_0_r. }
  pose proof (DayFromYear_step y) as Hstep.
  pose proof (DaysInYear_range y) as Hrange.
  assert (Hyear : YearFromTime t = y).
  { unfold YearFromTime. rewrite Hday, Hmake. apply YearFromDay_unique.
    unfold DaysInMonth in Hd. destruct (DaysInYear y =? 366) eqn:Hleap;
      [apply Z.eqb_eq in Hleap | apply Z.eqb_neq in Hleap];
      assert (m = 0 ∨ m = 1 ∨ m = 2 ∨ m = 3 ∨ m = 4 ∨ m = 5 ∨ m = 6 ∨ m = 7 ∨
              m = 8 ∨ m = 9 ∨ m = 10 ∨ m = 11) as Hcases by lia;
      repeat (destruct Hcases as [->|Hcases]; [simpl in *; lia|]);
      subst m; simpl in *; lia. }
  assert (Hwithin : DayWithinYear t =
            DaysBeforeMonth (if DaysInYear y =? 366 then 1 else 0) m + d - 1).
  { unfold DayWithinYear. rewrite Hyear, Hday, Hmake. lia. }
  assert (Hleapyear : InLeapYear t = if DaysInYear y =? 366 then 1 else 0).
  { unfold InLeapYear. by rewrite Hyear. }
  assert (Hmonth : MonthFromTime t = m).
  { unfold MonthFromTime. rewrite Hwithin, Hleapyear.
    unfold DaysInMonth in Hd. destruct (DaysInYear y =? 366);
      assert (m = 0 ∨ m = 1 ∨ m = 2 ∨ m = 3 ∨ m = 4 ∨ m = 5 ∨ m = 6 ∨ m = 7 ∨
              m = 8 ∨ m = 9 ∨ m = 10 ∨ m = 11) as Hcases by lia;
      repeat (destruct Hcases as [->|Hcases];
              [simpl in *; repeat case_match; lia|]);
      subst m; simpl in *; repeat case_match; lia. }
  split; [done|]. split; [done|]. split.
  - unfold DateFromTime. rewrite Hwithin, Hleapyear, Hmonth. lia.
  - subst t. unfold TimeWithinDay, MakeDate, msPerDay in *. zdiv.
Qed.

(** ** The record that comes back from the store *)

Lemma json_value_fixed v w : json_value v = Some w → json_value w = Some w.
Proof.
  destruct v as [| |b|x|s]; simpl; try (intros [= <-]; reflexivity); try discriminate.
  destruct (PrimFloat.is_nan x || PrimFloat.is_infinity x) eqn:Hspecial.
  - intros [= <-]. reflexivity.
  - destruct (PrimFloat.eqb x 0) eqn:Hzero; intros [= <-].
    + reflexivity.
    + simpl. by rewrite Hspecial, Hzero.
Qed.

Lemma json_object_idem (o : object) : json_object (json_object o) = json_object o.
Proof.
  apply map_eq. intros k. unfold json_object. rewrite !lookup_omap.
  destruct (o !! k) as [v|]; simpl; [|done].
  destruct (json_value v) as [w|] eqn:Hv; simpl; [|done].
  by apply json_value_fixed in Hv.
Qed.

Lemma jsonify_idem d : jsonify (jsonify d) = jsonify d.
Proof.
  destruct d as [e c i l]. unfold jsonify. simpl. f_equal.
  - destruct e as [e|]; simpl; [|done]. f_equal.
    rewrite List.map_map. apply List.map_ext. intros o. apply json_object_idem.
  - destruct i as [i|]; simpl; [|done]. f_equal. apply json_object_idem.
  - destruct l as [l|]; simpl; [|done]. f_equal.
    rewrite <- map_fmap_compose. apply map_fmap_ext. intros k o _.
    apply json_object_idem.
Qed.

Lemma json_clean_jsonify d : json_clean (jsonify d).
Proof. apply jsonify_idem. Qed.

Lemma json_clean_default : json_clean defaultData.
Proof. reflexivity. Qed.

Lemma map_fixed_Forall {A} (f : A → A) (l : list A) :
  List.map f l = l ↔ Forall (λ x, f x = x) l.
Proof.
  induction l as [|x l IH]; simpl.
  - split; [constructor | done].
  - split.
    + intros [= Hx Hl]. constructor; [done | by apply IH].
    + intros H. inversion H; subst. f_equal; [done | by apply IH].
Qed.

Lemma json_clean_expenses d l :
  json_clean d → expenses d = Some l → Forall (λ o, json_object o = o) l.
Proof.
  unfold json_clean. intros Hd Hl. apply map_fixed_Forall.
  apply (f_equal expenses) in Hd. simpl in Hd. rewrite Hl in Hd. simpl in Hd.
  congruence.
Qed.

Lemma json_clean_income d m :
  json_clean d → income d = Some m → json_object m = m.
Proof.
  unfold json_clean. intros Hd Hm.
  apply (f_equal income) in Hd. simpl in Hd. rewrite Hm in Hd. simpl in Hd.
  congruence.
Qed.

Lemma json_clean_with_expenses d l :
  json_clean d → Forall (λ o, json_object o = o) l → json_clean (with_expenses l d).
Proof.
  unfold json_clean. intros Hd Hl. destruct d as [e c i m].
  unfold jsonify, with_expenses in *. simpl in *.
  injection Hd as _ Hi Hm. f_equal; [|done|done].
  f_equal. by apply map_fixed_Forall.
Qed.

Lemma Forall_filter_fixed {A} (P : A → Prop) (p : A → bool) (l : list A) :
  Forall P l → Forall P (List.filter p l).
Proof.
  induction 1 as [|x l Hx Hl IH]; simpl; [constructor|].
  destruct (p x); [constructor|]; done.
Qed.

(** ** The reference engine satisfies the codec laws *)

Lemma pos_of_bits_of_pos p : Reference.pos_of_bits (Reference.bits_of_pos p) = Some p.
Proof. induction p as [p IH|p IH|]; simpl; [by rewrite IH..|done]. Qed.

Lemma reference_parse_stringify d :
  Reference.parse (Reference.stringify d) = Some (jsonify d).
Proof.
  unfold Reference.parse, Reference.stringify.
  rewrite pos_of_bits_of_pos. simpl. apply decode_encode.
Qed.

#[global] Instance reference_laws : JSONLaws Reference.engine.
Proof.
  split.
  - intros d. discriminate.
  - apply reference_parse_stringify.
  - intros d. simpl. unfold Reference.stringify. by rewrite jsonify_idem.
Defined.

(** ** Reading back what was written *)

Section StoreFacts.
Context {E : Engine} {L : JSONLaws E}.

Lemma load_saved d : load (Some (JSON_stringify d)) = jsonify d.
Proof.
  unfold load. destruct (String.eqb_spec (JSON_stringify d) "") as [Heq|_].
  - by apply stringify_nonempty in Heq.
  - by rewrite parse_stringify.
Qed.

Lemma load_saved_clean d : json_clean d → load (Some (JSON_stringify d)) = d.
Proof. intros Hd. by rewrite load_saved. Qed.

Lemma MonthFromTime_range t : 0 ≤ MonthFromTime t < 12.
Proof. unfold MonthFromTime. repeat case_match; lia. Qed.

Lemma DateFromTime_positive t : 1 ≤ DateFromTime t.
Proof.
  unfold DateFromTime, MonthFromTime.
  assert (0 ≤ DayWithinYear t).
  { unfold DayWithinYear, YearFromTime. pose proof (YearFromDay_spec (Day t)). lia. }
  assert (0 ≤ InLeapYear t ≤ 1) by (unfold InLeapYear; case_match; lia).
  repeat case_match; simpl; lia.
Qed.

(** The cutoff is the local calendar date of [now] one year back: same
    month, same day of the month, same time of day. *)
Lemma twelveMonthsAgo_calendar now :
  let lt := LocalTime now in
  twelveMonthsAgo now =
    TimeClip (UTC (MakeDate
      (MakeDay (YearFromTime lt - 1) (MonthFromTime lt) (DateFromTime lt))
      (TimeWithinDay lt))).
Proof.
  intros lt. unfold twelveMonthsAgo, setMonth. fold lt.
  assert (Hm : 0 ≤ MonthFromTime lt < 12) by apply MonthFromTime_range.
  unfold MakeDay.
  replace ((MonthFromTime lt - 12) / 12) with (-1) by zdiv.
  replace ((MonthFromTime lt - 12) mod 12) with (MonthFromTime lt) by zdiv.
  replace (MonthFromTime lt / 12) with 0 by zdiv.
  replace (MonthFromTime lt mod 12) with (MonthFromTime lt) by zdiv.
  replace (YearFromTime lt + -1) with (YearFromTime lt - 1) by lia.
  replace (YearFromTime lt - 1 + 0) with (YearFromTime lt - 1) by lia.
  reflexivity.
Qed.

(** Unless the day of the month does not exist a year earlier (29
    February), the cutoff has, in local time, the fields of [now] with the
    year lowered by one. *)
Lemma twelveMonthsAgo_fields now :
  let lt := LocalTime now in
  let back := MakeDate
    (MakeDay (YearFromTime lt - 1) (MonthFromTime lt) (DateFromTime lt))
    (TimeWithinDay lt) in
  DateFromTime lt ≤ DaysInMonth (YearFromTime lt - 1) (MonthFromTime lt) →
  YearFromTime back = YearFromTime lt - 1 ∧
  MonthFromTime back = MonthFromTime lt ∧
  DateFromTime back = DateFromTime lt ∧
  TimeWithinDay back = TimeWithinDay lt.
Proof.
  intros lt back Hexists. apply calendar_fields.
  - apply MonthFromTime_range.
  - split; [apply DateFromTime_positive | done].
  - unfold TimeWithinDay, msPerDay. zdiv.
Qed.

Lemma cleanupOldData_state st now :
  json_clean (load st) →
  cleanupOldData now st = Returns tt (state_after (cleanupOldData now st) st) ∧
  load (state_after (cleanupOldData now st) st) =
    match expenses (load st) with
    | Some exps => with_expenses (List.filter (retained now) exps) (load st)
    | None => load st
    end.
Proof.
  intros Hclean. unfold cleanupOldData. run_store.
  destruct (expenses (load st)) as [exps|] eqn:Hexps; simpl; [|done].
  split; [done|]. apply load_saved_clean.
  apply json_clean_with_expenses; [done|].
  apply Forall_filter_fixed. by eapply json_clean_expenses.
Qed.

Lemma cleanupOldData_expenses st now :
  json_clean (load st) →
  stored_expenses (state_after (cleanupOldData now st) st) =
    List.filter (retained now) (stored_expenses st).
Proof.
  intros Hclean. unfold stored_expenses.
  rewrite (proj2 (cleanupOldData_state st now Hclean)).
  destruct (expenses (load st)) as [exps|] eqn:Hexps; simpl; [done|].
  by rewrite Hexps.
Qed.

Lemma init_cleanup st now :
  init now st = Returns tt (state_after (cleanupOldData now st) st).
Proof.
  unfold init, loadData, cleanupOldData. run_store.
  by destruct (expenses (load st)).
Qed.

(** C1. When the application starts at clock reading [now], [init] runs
    [cleanupOldData] and returns; afterwards the stored expense list is the
    earlier one filtered by "date >= cutoff", where the cutoff is [now]
    moved back twelve calendar months (the same local month, day and time
    of day one year earlier). So an expense dated before the cutoff is gone
    and one dated at or after it, the boundary included, is kept. *)
Theorem cleanupOldData_retention st now :
  json_clean (load st) →
  let st' := state_after (init now st) st in
  let lt := LocalTime now in
  let back := MakeDate
    (MakeDay (YearFromTime lt - 1) (MonthFromTime lt) (DateFromTime lt))
    (TimeWithinDay lt) in
  init now st = Returns tt st' ∧
  twelveMonthsAgo now = TimeClip (UTC back) ∧
  (DateFromTime lt ≤ DaysInMonth (YearFromTime lt - 1) (MonthFromTime lt) →
     YearFromTime back = YearFromTime lt - 1 ∧
     MonthFromTime back = MonthFromTime lt ∧
     DateFromTime back = DateFromTime lt ∧
     TimeWithinDay back = TimeWithinDay lt) ∧
  stored_expenses st' = List.filter (retained now) (stored_expenses st) ∧
  (∀ expense t cutoff,
     In expense (stored_expenses st) →
     Date_new (get expense "date") = Some t →
     twelveMonthsAgo now = Some cutoff →
     (t < cutoff → ¬ In expense (stored_expenses st')) ∧
     (cutoff ≤ t → In expense (stored_expenses st'))).
Proof.
  intros Hclean st' lt back. subst st'. rewrite init_cleanup. simpl.
  split; [done|]. split; [apply twelveMonthsAgo_calendar|].
  split; [apply twelveMonthsAgo_fields|].
  rewrite cleanupOldData_expenses by done. split; [done|].
  intros expense t cutoff Hin Ht Hc. rewrite List.filter_In.
  unfold retained. rewrite Ht, Hc. simpl. split.
  - intros Hlt [_ Hge]. apply Z.leb_le in Hge. lia.
  - intros Hle. split; [done|]. by apply Z.leb_le.
Qed.

(** C9. At start, [cleanupOldData] also removes every stored expense that
    has no date field or whose date is not a valid date: the comparison
    with the cutoff is false for an Invalid Date. *)
Theorem cleanupOldData_drops_invalid st now expense :
  json_clean (load st) →
  In expense (stored_expenses st) →
  expense !! "date" = None ∨ Date_new (get expense "date") = None →
  retained now expense = false ∧
  ¬ In expense (stored_expenses (state_after (init now st) st)).
Proof.
  intros Hclean Hin Hdate.
  assert (Hnew : Date_new (get expense "date") = None).
  { destruct Hdate as [Hmissing|]; [|done]. unfold get. by rewrite Hmissing. }
  assert (Hret : retained now expense = false).
  { unfold retained. by rewrite Hnew. }
  split; [done|]. rewrite init_cleanup. simpl.
  rewrite cleanupOldData_expenses by done. rewrite List.filter_In.
  intros [_ Hkeep]. congruence.
Qed.

(** ** Deleting and updating an expense *)

Lemma filter_keeps_all {A} (p : A → bool) (l : list A) :
  (∀ x, In x l → p x = true) → List.filter p l = l.
Proof.
  induction l as [|x l IH]; simpl; [done|]. intros Hall.
  rewrite (Hall x) by auto. f_equal. apply IH. auto.
Qed.

Lemma filter_twice {A} (p : A → bool) (l : list A) :
  List.filter p (List.filter p l) = List.filter p l.
Proof.
  apply filter_keeps_all. intros x Hx. by apply List.filter_In in Hx as [_ ?].
Qed.

Lemma findIndex_None {A} (p : A → bool) (l : list A) :
  findIndex p l = None ↔ ∀ x, In x l → p x = false.
Proof.
  induction l as [|x l IH]; simpl.
  - split; [intros _ ? [] | done].
  - destruct (p x) eqn:Hx.
    + split; [done|]. intros Hall. specialize (Hall x (or_introl eq_refl)). congruence.
    + rewrite fmap_None, IH. split.
      * intros Hall y [<-|Hy]; auto.
      * intros Hall y Hy. auto.
Qed.

(** [findIndex] finds the first position whose element passes the test. *)
Lemma findIndex_Some {A} (p : A → bool) (l : list A) (i : nat) :
  findIndex p l = Some i ↔
  ∃ x, l !! i = Some x ∧ p x = true ∧
       ∀ j y, (j < i)%nat → l !! j = Some y → p y = false.
Proof.
  revert i. induction l as [|x l IH]; intros i; simpl.
  - split; [done | intros (y & Hy & _); done].
  - destruct (p x) eqn:Hx.
    + split.
      * intros [= <-]. exists x. repeat split; [done|]. intros j y Hj. lia.
      * intros (y & Hy & Hpy & Hfirst). destruct i as [|i]; [done|].
        specialize (Hfirst 0%nat x). simpl in Hfirst.
        rewrite Hfirst in Hx; [done | lia | done].
    + rewrite fmap_Some. split.
      * intros (i' & Hi' & ->). apply IH in Hi' as (y & Hy & Hpy & Hfirst).
        exists y. repeat split; [done..|]. intros [|j] z Hj Hz; simpl in Hz.
        -- congruence.
        -- apply (Hfirst j); [lia | done].
      * intros (y & Hy & Hpy & Hfirst). destruct i as [|i]; simpl in Hy.
        -- congruence.
        -- exists i. split; [|done]. apply IH. exists y. repeat split; [done..|].
           intros j z Hj Hz. apply (Hfirst (S j)); [lia | done].
Qed.

Lemma findIndex_exists {A} (p : A → bool) (l : list A) :
  (∃ x, In x l ∧ p x = true) → ∃ i, findIndex p l = Some i.
Proof.
  intros (x & Hin & Hx). destruct (findIndex p l) as [i|] eqn:Hfind; [by exists i|].
  rewrite findIndex_None in Hfind. rewrite (Hfind x Hin) in Hx. done.
Qed.

Lemma deleteExpense_state st id exps :
  json_clean (load st) →
  expenses (load st) = Some exps →
  deleteExpense id st =
    Returns tt (Some (JSON_stringify
      (with_expenses (List.filter (λ e, negb (has_id id e)) exps) (load st)))) ∧
  load (state_after (deleteExpense id st) st) =
    with_expenses (List.filter (λ e, negb (has_id id e)) exps) (load st).
Proof.
  intros Hclean Hexps. unfold deleteExpense. run_store. rewrite Hexps. simpl.
  split; [done|]. apply load_saved_clean, json_clean_with_expenses; [done|].
  apply Forall_filter_fixed. by eapply json_clean_expenses.
Qed.

(** C10. [deleteExpense(id)] removes every expense whose id is [id] (all of
    them when several share it) and keeps the others in their order; the
    categories, income and limits are as before. When no expense has the
    id the record is unchanged, and a second call with the same id changes
    nothing: the state after it is the state before it. *)
Theorem deleteExpense_frame st id exps :
  json_clean (load st) →
  expenses (load st) = Some exps →
  let st' := state_after (deleteExpense id st) st in
  deleteExpense id st = Returns tt st' ∧
  expenses (load st') = Some (List.filter (λ e, negb (has_id id e)) exps) ∧
  (∀ e, In e (stored_expenses st') ↔ In e exps ∧ has_id id e = false) ∧
  categories (load st') = categories (load st) ∧
  income (load st') = income (load st) ∧
  limits (load st') = limits (load st) ∧
  ((∀ e, In e exps → has_id id e = false) → load st' = load st) ∧
  deleteExpense id st' = Returns tt st'.
Proof.
  intros Hclean Hexps st'.
  destruct (deleteExpense_state st id exps Hclean Hexps) as [Hrun Hload].
  fold st' in Hload.
  set (d' := with_expenses (List.filter (λ e, negb (has_id id e)) exps) (load st)) in *.
  assert (Hst' : st' = Some (JSON_stringify d')) by (subst st'; by rewrite Hrun).
  split; [by rewrite Hrun, Hst'|]. rewrite Hload. simpl.
  split; [done|]. split.
  { intros e. unfold stored_expenses. rewrite Hload. simpl.
    rewrite List.filter_In, negb_true_iff. done. }
  split; [done|]. split; [done|]. split; [done|]. split.
  - intros Hnone. subst d'. rewrite filter_keeps_all.
    + destruct (load st); simpl in *. by subst.
    + intros e He. apply negb_true_iff. auto.
  - assert (Hclean' : json_clean (load st')).
    { rewrite Hst', load_saved. apply json_clean_jsonify. }
    destruct (deleteExpense_state st' id
                (List.filter (λ e, negb (has_id id e)) exps))
      as [Hrun' _]; [done | by rewrite Hload |].
    rewrite Hrun', Hload, Hst'. subst d'. simpl. rewrite filter_twice.
    by destruct (load st).
Qed.

(** C3. [updateExpense(id, patch)], when some expense has the id: the first
    such expense is replaced by its merge with the patch, in which every
    field of the patch has the patch's value and every other field keeps its
    old value; the merged expense is returned; all other expenses and the
    other collections are as before. The stored fields are the merged ones
    as JSON keeps them (equal to the merged ones when the patch holds JSON
    values). When no expense has the id, [null] is returned and the stored
    state is untouched. *)
Theorem updateExpense_merge st id (patch : object) exps :
  json_clean (load st) →
  expenses (load st) = Some exps →
  let st' := state_after (updateExpense id patch st) st in
  ((∀ e, In e exps → has_id id e = false) →
     updateExpense id patch st = Returns None st) ∧
  ((∃ e, In e exps ∧ has_id id e = true) →
     ∃ (i : nat) (old : object),
       exps !! i = Some old ∧ has_id id old = true ∧
       (∀ j e, (j < i)%nat → exps !! j = Some e → has_id id e = false) ∧
       let merged : object := patch ∪ old in
       updateExpense id patch st = Returns (Some merged) st' ∧
       (∀ k, merged !! k =
               match patch !! k with Some v => Some v | None => old !! k end) ∧
       expenses (load st') = Some (<[i := json_object merged]> exps) ∧
       (∀ k, json_object merged !! k =
               match patch !! k with Some v => json_value v | None => old !! k end) ∧
       (json_object patch = patch → json_object merged = merged) ∧
       (∀ j, j ≠ i → <[i := json_object merged]> exps !! j = exps !! j) ∧
       categories (load st') = categories (load st) ∧
       income (load st') = income (load st) ∧
       limits (load st') = limits (load st)).
Proof.
  intros Hclean Hexps st'. split.
  - intros Hnone. apply findIndex_None in Hnone.
    unfold updateExpense. run_store. by rewrite Hexps, Hnone.
  - intros Hsome. apply findIndex_exists in Hsome as [i Hfind].
    pose proof Hfind as Hi. apply findIndex_Some in Hi as (old & Hold & Hid & Hfirst).
    exists i, old. split; [done|]. split; [done|]. split; [done|].
    intros merged.
    assert (Hrun : updateExpense id patch st =
              Returns (Some merged)
                (Some (JSON_stringify (with_expenses (<[i := merged]> exps) (load st))))).
    { unfold updateExpense. run_store. rewrite Hexps, Hfind, Hold. done. }
    assert (Hold_clean : json_object old = old).
    { pose proof (json_clean_expenses _ _ Hclean Hexps) as Hall.
      rewrite Forall_forall in Hall. apply Hall.
      apply list_elem_of_lookup. eauto. }
    assert (Hstored : ∀ k, json_object merged !! k =
              match patch !! k with Some v => json_value v | None => old !! k end).
    { intros k. unfold json_object at 1. rewrite lookup_omap. subst merged.
      rewrite lookup_union. destruct (patch !! k) as [v|] eqn:Hk; simpl.
      - destruct (old !! k); done.
      - rewrite <- Hold_clean at 2. unfold json_object. rewrite lookup_omap.
        destruct (old !! k); done. }
    assert (Hload : load st' =
              with_expenses (<[i := json_object merged]> exps) (load st)).
    { subst st'. rewrite Hrun. unfold state_after. rewrite load_saved.
      unfold json_clean in Hclean. rewrite <- Hclean at 2.
      unfold jsonify, with_expenses. simpl. f_equal. f_equal.
      rewrite list_fmap_insert. f_equal.
      apply map_fixed_Forall. by eapply json_clean_expenses. }
    split; [by subst st'; rewrite Hrun|].
    split.
    { intros k. subst merged. rewrite lookup_union.
      destruct (patch !! k), (old !! k); done. }
    rewrite Hload. simpl. split; [done|]. split; [done|]. split.
    { intros Hpatch. apply map_eq. intros k. rewrite Hstored. subst merged.
      rewrite lookup_union.
      assert (Hk' : json_object patch !! k = patch !! k) by (by rewrite Hpatch).
      unfold json_object in Hk'. rewrite lookup_omap in Hk'.
      destruct (patch !! k) as [v|] eqn:Hk; simpl in *.
      - rewrite Hk'. by destruct (old !! k).
      - by destruct (old !! k). }
    split; [|done]. intros j Hj. by apply list_lookup_insert_ne.
Qed.

(** ** Adding expenses *)

Lemma addExpense_state st expense t_id t_date exps :
  json_clean (load st) →
  expenses (load st) = Some exps →
  ∃ stored : object,
    get stored "id" = VStr (pretty t_id) ∧
    Forall (λ o, json_object o = o) (exps ++ [stored]) ∧
    state_after (addExpense expense t_id t_date st) st =
      Some (JSON_stringify (with_expenses (exps ++ [stored]) (load st))) ∧
    (∃ e, addExpense expense t_id t_date st =
            Returns e (state_after (addExpense expense t_id t_date st) st)) ∧
    load (state_after (addExpense expense t_id t_date st) st) =
      with_expenses (exps ++ [stored]) (load st).
Proof.
  intros Hclean Hexps.
  set (e1 := <["id" := VStr (pretty t_id)]> expense).
  set (e2 := <["date" := or_else (get e1 "date") (VStr (toISOString t_date))]> e1).
  exists (json_object e2).
  assert (Hrun : addExpense expense t_id t_date st =
            Returns e2 (Some (JSON_stringify (with_expenses (exps ++ [e2]) (load st))))).
  { unfold addExpense. run_store. by rewrite Hexps. }
  assert (Hall : Forall (λ o, json_object o = o) (exps ++ [json_object e2])).
  { apply Forall_app. split; [by eapply json_clean_expenses|].
    constructor; [apply json_object_idem | constructor]. }
  assert (Hjson : jsonify (with_expenses (exps ++ [e2]) (load st)) =
            with_expenses (exps ++ [json_object e2]) (load st)).
  { unfold json_clean in Hclean. rewrite <- Hclean at 2.
    unfold jsonify, with_expenses. simpl. f_equal. f_equal.
    rewrite List.map_app. simpl. f_equal.
    apply map_fixed_Forall. by eapply json_clean_expenses. }
  rewrite Hrun. unfold state_after. split; [|split; [done|split; [|split]]].
  - unfold get, json_object. rewrite lookup_omap. subst e2 e1.
    rewrite lookup_insert_ne by done. by rewrite lookup_insert_eq.
  - by rewrite <- Hjson, <- stringify_jsonify.
  - by exists e2.
  - by rewrite load_saved.
Qed.

Lemma addExpenses_ids calls : ∀ st,
  json_clean (load st) →
  is_Some (expenses (load st)) →
  addExpenses calls st = Returns tt (state_after (addExpenses calls st) st) ∧
  stored_ids (state_after (addExpenses calls st) st) = stored_ids st ++ clock_ids calls.
Proof.
  induction calls as [|[[expense t_id] t_date] rest IH]; intros st Hclean [exps Hexps].
  - simpl. split; [done|]. by rewrite app_nil_r.
  - destruct (addExpense_state st expense t_id t_date exps Hclean Hexps)
      as (stored & Hid & Hall & Hst1 & [e Hrun] & Hload).
    set (st1 := state_after (addExpense expense t_id t_date st) st) in *.
    assert (Hclean1 : json_clean (load st1)).
    { rewrite Hload. apply json_clean_with_expenses; done. }
    destruct (IH st1 Hclean1) as [Hrest Hids]; [rewrite Hload; by eexists|].
    assert (Hstep : addExpenses ((expense, t_id, t_date) :: rest) st = addExpenses rest st1).
    { simpl. unfold mbind, M_bind. by rewrite Hrun. }
    rewrite Hstep. split; [by rewrite Hrest at 1; rewrite Hrest|].
    rewrite Hrest. simpl. rewrite Hrest in Hids. simpl in Hids. rewrite Hids.
    unfold stored_ids at 1, stored_expenses. rewrite Hload. simpl.
    rewrite List.map_app. simpl. rewrite Hid. rewrite <- app_assoc.
    unfold stored_ids, stored_expenses. by rewrite Hexps.
Qed.

(** C7, as the code has it. The id [addExpense] assigns is the decimal text
    of the clock reading [Date.now()]; the draft's own id is overwritten.
    So after a run of calls the stored ids are the earlier ones followed by
    the texts of the readings, and they are pairwise distinct when the
    earlier ids are, the readings are pairwise distinct, and no reading's
    text is an id already stored. *)
Theorem addExpense_ids_from_clock st calls :
  json_clean (load st) →
  is_Some (expenses (load st)) →
  let st' := state_after (addExpenses calls st) st in
  addExpenses calls st = Returns tt st' ∧
  stored_ids st' = stored_ids st ++ clock_ids calls ∧
  (NoDup (stored_ids st) →
   NoDup (List.map (λ c, c.1.2) calls) →
   (∀ c, In c calls → ¬ In (VStr (pretty (c.1.2))) (stored_ids st)) →
   NoDup (stored_ids st')).
Proof.
  intros Hclean Hsome st'.
  destruct (addExpenses_ids calls st Hclean Hsome) as [Hrun Hids].
  split; [done|]. split; [done|]. subst st'. rewrite Hids.
  intros Hold Hnew Hfresh. apply NoDup_app. split; [done|]. split.
  - intros v Hv Hin. unfold clock_ids in Hin.
    apply list_elem_of_In, List.in_map_iff in Hin as (c & <- & Hc).
    apply (Hfresh c Hc). by apply list_elem_of_In.
  - unfold clock_ids.
    replace (List.map (λ c : object * Z * Z, VStr (pretty (c.1.2))) calls)
      with ((λ t : Z, VStr (pretty t)) <$> (List.map (λ c : object * Z * Z, c.1.2) calls)).
    + apply NoDup_fmap_2; [|done]. intros t1 t2 [= Heq]. by apply (inj pretty) in Heq.
    + clear. induction calls as [|c calls IH]; simpl; [done|]. by rewrite <- IH.
Qed.

(** ** Income *)

Lemma key_or_current_given k now : k ≠ "" → key_or_current (Some k) now = k.
Proof.
  intros Hk. unfold key_or_current.
  by destruct (String.eqb_spec k "").
Qed.

(** What [getIncome] returns on a record. *)
Lemma getIncome_load st k now :
  k ≠ "" →
  getIncome (Some k) now st =
    Returns (or_else (get (default ∅ (income (load st))) k) (VNum 0)) st.
Proof.
  intros Hk. unfold getIncome. rewrite key_or_current_given by done. run_store.
  destruct (income (load st)); simpl; [done|].
  unfold get. by rewrite lookup_empty.
Qed.

Lemma setIncome_state st amount k now :
  json_clean (load st) →
  k ≠ "" →
  let x := parseFloat amount in
  setIncome amount (Some k) now st =
    Returns (VNum x) (state_after (setIncome amount (Some k) now st) st) ∧
  income (load (state_after (setIncome amount (Some k) now st) st)) =
    Some (json_object (<[k := VNum x]> (default ∅ (income (load st))))).
Proof.
  intros Hclean Hk x. unfold setIncome.
  rewrite key_or_current_given by done. run_store. split; [done|].
  by rewrite load_saved.
Qed.

(** C5. Income is kept per month. After [setIncome(amount, k)], with [x]
    the number [parseFloat] reads from the amount, [getIncome(k)] returns
    [x] (0 when [x] is a zero, NaN or infinite); [getIncome(k')] for another
    month [k'] returns what it returned before; and a month with no entry
    reads as 0. *)
Theorem income_per_month st amount k k' now :
  json_clean (load st) →
  k ≠ "" → k' ≠ "" → k ≠ k' →
  let x := parseFloat amount in
  let st' := state_after (setIncome amount (Some k) now st) st in
  setIncome amount (Some k) now st = Returns (VNum x) st' ∧
  getIncome (Some k) now st' =
    Returns (VNum (if PrimFloat.is_nan x || PrimFloat.is_infinity x || PrimFloat.eqb x 0
                   then 0%float else x)) st' ∧
  (is_finite x = true → PrimFloat.eqb x 0 = false →
     getIncome (Some k) now st' = Returns (VNum x) st') ∧
  (∃ v, getIncome (Some k') now st = Returns v st ∧
        getIncome (Some k') now st' = Returns v st') ∧
  (default ∅ (income (load st)) !! k' = None →
     getIncome (Some k') now st = Returns (VNum 0) st).
Proof.
  intros Hclean Hk Hk' Hne x st'.
  destruct (setIncome_state st amount k now Hclean Hk) as [Hrun Hinc].
  fold x st' in Hrun, Hinc.
  assert (Hold : json_object (default ∅ (income (load st))) = default ∅ (income (load st))).
  { destruct (income (load st)) as [inc|] eqn:Hi; simpl; [by eapply json_clean_income|].
    apply map_eq. intros key. unfold json_object. by rewrite lookup_omap, lookup_empty. }
  assert (Hget : getIncome (Some k) now st' =
    Returns (VNum (if PrimFloat.is_nan x || PrimFloat.is_infinity x || PrimFloat.eqb x 0
                   then 0%float else x)) st').
  { rewrite getIncome_load by done. rewrite Hinc. simpl. f_equal.
    unfold get, json_object. rewrite lookup_omap, lookup_insert_eq. simpl.
    destruct (PrimFloat.is_nan x) eqn:Hnan; simpl; [done|].
    destruct (PrimFloat.is_infinity x) eqn:Hinf; simpl; [done|].
    destruct (PrimFloat.eqb x 0) eqn:Hzero; simpl; [done|].
    unfold or_else. simpl. by rewrite Hnan, Hzero. }
  split; [done|]. split; [done|]. split; [|split].
  - intros Hfin Hnz. rewrite Hget. unfold is_finite in Hfin.
    apply andb_true_iff in Hfin as [Hnan Hinf].
    apply negb_true_iff in Hnan, Hinf. by rewrite Hnan, Hinf, Hnz.
  - eexists. split; [by apply getIncome_load|].
    rewrite getIncome_load by done. rewrite Hinc. simpl. f_equal.
    unfold get at 1. unfold json_object. rewrite lookup_omap.
    rewrite lookup_insert_ne by done.
    unfold get. rewrite <- Hold at 2. unfold json_object. by rewrite lookup_omap.
  - intros Hnone. rewrite getIncome_load by done. unfold get. by rewrite Hnone.
Qed.

(** ** Categories *)

Lemma existsb_same_name (cats : list string) (name : string) :
  existsb (λ cat, String.eqb (String_toLowerCase cat) (String_toLowerCase name)) cats = true
  ↔ ∃ cat, In cat cats ∧ same_name cat name.
Proof.
  rewrite List.existsb_exists. unfold same_name.
  split; intros (cat & Hin & Heq); exists cat; (split; [done|]); by apply String.eqb_eq.
Qed.

(** C4. [addCategory(name)] returns [null] and leaves the stored text as it
    was exactly when some stored category equals the trimmed name up to the
    case of letters; otherwise the trimmed name is appended at the end of
    the category list and returned. A second call with a name that equals
    the first one up to case and surrounding blanks therefore returns
    [null]. *)
Theorem addCategory_dedup st name :
  let cats := default [] (categories (load st)) in
  let trimmed := String_trim name in
  let st' := state_after (addCategory name st) st in
  (addCategory name st = Returns None st
     ↔ ∃ cat, In cat cats ∧ same_name cat trimmed) ∧
  ((∃ cat, In cat cats ∧ same_name cat trimmed) → st' = st) ∧
  (¬ (∃ cat, In cat cats ∧ same_name cat trimmed) →
     addCategory name st = Returns (Some trimmed) st' ∧
     categories (load st') = Some (cats ++ [trimmed])) ∧
  (∀ name2, same_name (String_trim name) (String_trim name2) →
     addCategory name2 st' = Returns None st').
Proof.
  intros cats trimmed st'.
  assert (Hdup : (∃ cat, In cat cats ∧ same_name cat trimmed) →
            addCategory name st = Returns None st).
  { intros Hex. apply existsb_same_name in Hex.
    unfold addCategory. run_store. fold cats trimmed. by rewrite Hex. }
  assert (Hnew : ¬ (∃ cat, In cat cats ∧ same_name cat trimmed) →
            addCategory name st =
              Returns (Some trimmed)
                (Some (JSON_stringify (with_categories (cats ++ [trimmed]) (load st))))).
  { intros Hex. rewrite <- existsb_same_name in Hex. apply not_true_is_false in Hex.
    unfold addCategory. run_store. fold cats trimmed. by rewrite Hex. }
  assert (Hdec : (∃ cat, In cat cats ∧ same_name cat trimmed) ∨
                 ¬ (∃ cat, In cat cats ∧ same_name cat trimmed)).
  { rewrite <- existsb_same_name. destruct (existsb _ cats); auto. }
  split; [|split; [|split]].
  - split; [|done]. intros Hnull. destruct Hdec as [|Hno]; [done|].
    rewrite (Hnew Hno) in Hnull. done.
  - intros Hex. subst st'. by rewrite (Hdup Hex).
  - intros Hno. subst st'. rewrite (Hnew Hno). unfold state_after.
    split; [done|]. by rewrite load_saved.
  - intros name2 Hsame.
    assert (Hex : ∃ cat, In cat (default [] (categories (load st'))) ∧
                         same_name cat (String_trim name2)).
    { destruct Hdec as [(cat & Hin & Hcat)|Hno].
      - exists cat. subst st'. rewrite (Hdup (ex_intro _ cat (conj Hin Hcat))).
        split; [done|]. unfold same_name in *. subst trimmed. congruence.
      - exists trimmed. subst st'. rewrite (Hnew Hno). unfold state_after.
        rewrite load_saved. simpl. split; [|done].
        apply List.in_or_app. right. by left. }
    apply existsb_same_name in Hex.
    unfold addCategory. run_store. by rewrite Hex.
Qed.

(** ** Totals *)

Lemma fold_left_pointwise {A B} (f g : A → B → A) (l : list B) :
  (∀ a b, f a b = g a b) → ∀ a, fold_left f l a = fold_left g l a.
Proof.
  intros Hfg. induction l as [|b l IH]; intros a; simpl; [done|].
  by rewrite Hfg, IH.
Qed.

(** A [reduce] that adds the amount of the expenses passing a test is the
    sum over the filtered list. *)
Lemma fold_conditional_sum (P : object → bool) (l : list object) : ∀ acc,
  fold_left (λ sum exp, if P exp then (sum + amount_or_zero exp)%float else sum) l acc =
  fold_left PrimFloat.add (List.map amount_or_zero (List.filter P l)) acc.
Proof.
  induction l as [|e l IH]; intros acc; simpl; [done|].
  destruct (P e); simpl; apply IH.
Qed.

Lemma in_category_truthy category exp :
  category ≠ "" → in_category category exp = true → truthy (get exp "category") = true.
Proof.
  unfold in_category. intros Hne Hcat.
  destruct (get exp "category") as [| |b|x|c]; simpl in *; try done.
  apply String.eqb_eq in Hcat as ->.
  by destruct (String.eqb_spec category "").
Qed.

Lemma getExpenses_load st : getExpenses st = Returns (stored_expenses st) st.
Proof. unfold getExpenses. by run_store. Qed.


(** ** Saving what was loaded *)



(** ** What the application leaves in the store *)

Lemma saved_well_formed d :
  is_Some (expenses d) → well_formed (Some (JSON_stringify d)).
Proof.
  intros [exps Hexps]. unfold well_formed. rewrite load_saved.
  split; [apply json_clean_jsonify|]. simpl. rewrite Hexps. by eexists.
Qed.

Lemma step_well_formed st st' : well_formed st → step st st' → well_formed st'.
Proof.
  intros Hwf Hstep. pose proof Hwf as [Hclean [exps Hexps]].
  destruct Hstep;
    unfold cleanupOldData, addExpense, deleteExpense, updateExpense, setIncome,
      setLimitsForMonth, addCategory, updateCategory, deleteCategory;
    run_store; rewrite ?Hexps; simpl;
    repeat (case_match; simpl);
    try exact Hwf;
    apply saved_well_formed; simpl; rewrite ?Hexps; by eexists.
Qed.

(** Every state the application reaches from an empty [localStorage] holds
    a record of JSON values with an expense list: the hypotheses of the
    properties above hold of it. *)
Lemma reachable_well_formed st : reachable st → well_formed st.
Proof.
  induction 1 as [|st st' _ IH Hstep].
  - split; [apply json_clean_default | by eexists].
  - by eapply step_well_formed.
Qed.
End StoreFacts.

(** ** Logical back navigation *)

Section NavigationFacts.
Context {E : Engine}.
Variable is_screen : string → bool.

Lemma stored_categories_load st :
  stored_categories st = default [] (categories (load st)).
Proof. reflexivity. Qed.

Lemma property_None {A} (table : list (string * A)) key :
  property table key = None ↔ ¬ In key (List.map fst table).
Proof.
  induction table as [|[k v] table IH]; simpl; [tauto|].
  destruct (String.eqb_spec k key) as [->|Hne].
  - split; [done | tauto].
  - rewrite IH. tauto.
Qed.

(** The screens with an entry in [logicalParent] are those with a fixed
    parent and the two screens that branch on stored context. *)
Lemma logicalParent_entries id :
  property (logicalParent is_screen) id = None ↔
  ¬ In id (List.map fst staticParent) ∧
  id ≠ "category-expenses-detail-screen" ∧
  id ≠ "delete-expense-confirmation-screen".
Proof.
  rewrite property_None. unfold logicalParent, staticParent.
  cbn [List.map fst In]. intuition congruence.
Qed.

Lemma navigateBack_exit st n :
  active n = None ∨ active n = Some "main-menu-screen" ∨
  active n = Some "welcome-screen" →
  navigateBack is_screen st n = showScreen is_screen "exit-confirmation-screen" true n.
Proof.
  unfold navigateBack. by intros [-> | [-> | ->]].
Qed.

Lemma navigateBack_no_entry st n id :
  active n = Some id →
  id ≠ "" → id ≠ "main-menu-screen" → id ≠ "welcome-screen" →
  property (logicalParent is_screen) id = None →
  navigateBack is_screen st n = showScreen is_screen "main-menu-screen" false n.
Proof.
  intros Hactive H1 H2 H3 Hnone. unfold navigateBack. rewrite Hactive, Hnone.
  apply String.eqb_neq in H1, H2, H3. by rewrite H1, H2, H3.
Qed.

(** A screen with a fixed parent: back shows the parent, except that a
    category picker is not shown when no category is stored. *)
Lemma navigateBack_static st n id parent :
  In (id, parent) staticParent →
  active n = Some id →
  navigateBack is_screen st n =
    if category_picker parent && (length (stored_categories st) =? 0)%nat
    then alert (if String.eqb parent "edit-category-select-screen"
                then "No categories available to edit."
                else "No categories available to delete.") n
    else showScreen is_screen parent false n.
Proof.
  intros Hin Hactive. unfold navigateBack. rewrite Hactive.
  unfold staticParent in Hin. simpl in Hin.
  repeat (destruct Hin as [Heq|Hin];
          [ injection Heq as <- <-; simpl;
            unfold showEditCategorySelectScreen, showDeleteCategorySelectScreen;
            try reflexivity; by destruct (length (stored_categories st) =? 0)%nat |]).
  done.
Qed.

Lemma navigateBack_detail st n :
  active n = Some "category-expenses-detail-screen" →
  navigateBack is_screen st n =
    match lastSummaryParams n with
    | Some (year, monthIndex) =>
        showScreen is_screen "view-expenses-month-summary-screen" false
          (set_summary year monthIndex n)
    | None => showScreen is_screen "view-expenses-month-select-screen" false n
    end.
Proof.
  intros Hactive. unfold navigateBack. rewrite Hactive. simpl.
  by destruct (lastSummaryParams n) as [[year monthIndex]|].
Qed.

Lemma navigateBack_delete_confirmation st n :
  active n = Some "delete-expense-confirmation-screen" →
  (∀ year monthIndex category,
     deletionSourceScreen n = Some "category-expenses-detail-screen" →
     deletionContext n = Some (year, monthIndex, category) →
     navigateBack is_screen st n =
       showScreen is_screen "category-expenses-detail-screen" false
         (set_detail year monthIndex category n)) ∧
  (deletionSourceScreen n = Some "edit-expenses-list-screen" →
     navigateBack is_screen st n =
       showScreen is_screen "edit-expenses-list-screen" false
         (set_editing (currentEditingYear n) (currentEditingMonthIndex n) n)) ∧
  (deletionSourceScreen n ≠ Some "edit-expenses-list-screen" →
   deletionSourceScreen n ≠ Some "category-expenses-detail-screen" ∨
   deletionContext n = None →
     navigateBack is_screen st n = showScreen is_screen "main-menu-screen" false n).
Proof.
  intros Hactive. unfold navigateBack. rewrite Hactive. simpl.
  split; [|split].
  - intros year monthIndex category -> ->. done.
  - intros ->. by destruct (deletionContext n) as [[[year monthIndex] category]|].
  - intros Hedit Hdetail.
    destruct (deletionSourceScreen n) as [source|]; [|done].
    assert (Hne : String.eqb source "edit-expenses-list-screen" = false).
    { apply String.eqb_neq. congruence. }
    rewrite Hne.
    destruct (deletionContext n) as [[[year monthIndex] category]|]; [|done].
    destruct Hdetail as [Hdetail|]; [|done].
    assert (Hne' : String.eqb source "category-expenses-detail-screen" = false).
    { apply String.eqb_neq. congruence. }
    by rewrite Hne'.
Qed.

Lemma showScreen_history name push h n :
  active (showScreen is_screen name push (with_history h n)) =
  active (showScreen is_screen name push n).
Proof. reflexivity. Qed.

Lemma property_Forall {A} (P : A → Prop) (table : list (string * A)) key v :
  Forall (λ kv, P kv.2) table → property table key = Some v → P v.
Proof.
  induction 1 as [|[k x] table Hx _ IH]; simpl; [done|].
  destruct (String.eqb k key); [by intros [= <-] | done].
Qed.

(** No closure of [logicalParent] looks at the history entries. *)
Lemma logicalParent_history :
  Forall (λ kv, ∀ st n h,
            active (kv.2 st (with_history h n)) = active (kv.2 st n))
         (logicalParent is_screen).
Proof.
  unfold logicalParent.
  repeat (constructor;
          [ intros st n h; cbn -[String.eqb];
            unfold showEditCategorySelectScreen, showDeleteCategorySelectScreen;
            repeat case_match; reflexivity |]).
  constructor.
Qed.

Lemma navigateBack_history st n h :
  active (navigateBack is_screen st (with_history h n)) =
  active (navigateBack is_screen st n).
Proof.
  unfold navigateBack. cbn [active with_history].
  destruct (active n) as [id|]; [|done].
  destruct (_ || _); [done|].
  destruct (property (logicalParent is_screen) id) as [parent|] eqn:Hparent; [|done].
  exact (property_Forall
           (λ f, ∀ st n h, active (f st (with_history h n)) = active (f st n))
           _ _ _ logicalParent_history Hparent st n h).
Qed.

(** C8, as the code has it. [navigateBack] is a function of the current
    screen, not of the screens visited before: on the main menu, the
    welcome screen or no screen it shows the exit confirmation; a screen
    without an entry in [logicalParent] goes to the main menu; a screen with
    a fixed parent goes to that parent, except that the two category pickers
    (the parents of the category edit form and of the category delete
    confirmation) only raise an alert and leave the screen as it is when no
    category is stored; the category detail screen and the expense delete
    confirmation branch on [lastSummaryParams], [deletionSourceScreen] and
    [deletionContext]. The screen shown never depends on the history
    entries. *)
Theorem navigateBack_logical st n :
  (active n = None ∨ active n = Some "main-menu-screen" ∨
   active n = Some "welcome-screen" →
   navigateBack is_screen st n = showScreen is_screen "exit-confirmation-screen" true n) ∧
  (∀ id, active n = Some id →
     id ≠ "" → id ≠ "main-menu-screen" → id ≠ "welcome-screen" →
     property (logicalParent is_screen) id = None →
     navigateBack is_screen st n = showScreen is_screen "main-menu-screen" false n) ∧
  (∀ id, property (logicalParent is_screen) id = None ↔
     ¬ In id (List.map fst staticParent) ∧
     id ≠ "category-expenses-detail-screen" ∧
     id ≠ "delete-expense-confirmation-screen") ∧
  (∀ id parent, In (id, parent) staticParent → active n = Some id →
     (category_picker parent = true → stored_categories st ≠ []) →
     navigateBack is_screen st n = showScreen is_screen parent false n) ∧
  (∀ id parent, In (id, parent) staticParent → active n = Some id →
     category_picker parent = true → stored_categories st = [] →
     active (navigateBack is_screen st n) = Some id ∧
     history (navigateBack is_screen st n) = history n ∧
     alerts (navigateBack is_screen st n) ≠ alerts n) ∧
  (active n = Some "category-expenses-detail-screen" →
   navigateBack is_screen st n =
     match lastSummaryParams n with
     | Some (year, monthIndex) =>
         showScreen is_screen "view-expenses-month-summary-screen" false
           (set_summary year monthIndex n)
     | None => showScreen is_screen "view-expenses-month-select-screen" false n
     end) ∧
  (active n = Some "delete-expense-confirmation-screen" →
   (∀ year monthIndex category,
      deletionSourceScreen n = Some "category-expenses-detail-screen" →
      deletionContext n = Some (year, monthIndex, category) →
      navigateBack is_screen st n =
        showScreen is_screen "category-expenses-detail-screen" false
          (set_detail year monthIndex category n)) ∧
   (deletionSourceScreen n = Some "edit-expenses-list-screen" →
      navigateBack is_screen st n =
        showScreen is_screen "edit-expenses-list-screen" false
          (set_editing (currentEditingYear n) (currentEditingMonthIndex n) n)) ∧
   (deletionSourceScreen n ≠ Some "edit-expenses-list-screen" →
    deletionSourceScreen n ≠ Some "category-expenses-detail-screen" ∨
    deletionContext n = None →
      navigateBack is_screen st n = showScreen is_screen "main-menu-screen" false n)) ∧
  (∀ h, active (navigateBack is_screen st (with_history h n)) =
        active (navigateBack is_screen st n)).
Proof.
  split; [apply navigateBack_exit|].
  split; [apply navigateBack_no_entry|].
  split; [apply logicalParent_entries|].
  split; [|split].
  - intros id parent Hin Hactive Hcats.
    rewrite (navigateBack_static st n id parent Hin Hactive).
    destruct (category_picker parent) eqn:Hpick; [|done].
    specialize (Hcats eq_refl). by destruct (stored_categories st).
  - intros id parent Hin Hactive Hpick Hnone.
    rewrite (navigateBack_static st n id parent Hin Hactive), Hpick, Hnone. simpl.
    split; [done|]. split; [done|].
    intros Heq. apply (f_equal length) in Heq. simpl in Heq. lia.
  - split; [apply navigateBack_detail|].
    split; [apply navigateBack_delete_confirmation|].
    apply navigateBack_history.
Qed.

End NavigationFacts.

(** * The properties on the sample data, with the reference engine *)

(** The date and number functions on a few inputs. *)
Example getMonthKey_march :
  getMonthKey (Date_new (VStr "2024-03-05T00:00:00.000Z")) = "2024-03".
Proof. vm_compute. reflexivity. Qed.

Example getMonthKey_invalid : getMonthKey (Date_new (VStr "yesterday")) = "NaN-NaN".
Proof. vm_compute. reflexivity. Qed.

Example getMonthKey_null : getMonthKey (Date_new VNull) = "1970-01".
Proof. vm_compute. reflexivity. Qed.

Example toISOString_now : toISOString Sample.now = "2025-03-15T12:00:00.000Z".
Proof. vm_compute. reflexivity. Qed.

Example parse_iso_now : Reference.parse_iso "2025-03-15T12:00:00.000Z" = Some Sample.now.
Proof. vm_compute. reflexivity. Qed.

(** From 29 February the cutoff is 1 March of the year before. *)
Example twelveMonthsAgo_leap_day :
  Reference.parse_iso "2024-02-29T10:00:00.000Z" = Some 1709200800000 ∧
  twelveMonthsAgo 1709200800000 = Reference.parse_iso "2023-03-01T10:00:00.000Z".
Proof. vm_compute. done. Qed.

Example Date_new_number :
  Date_new (VNum 1709596800000.75) = Some 1709596800000 ∧
  Date_new (VNum 8640000000000001) = None.
Proof. vm_compute. done. Qed.

Example parseFloat_values :
  parseFloat (VStr "12.50") = 12.5%float ∧ parseFloat (VNum (-0)) = 0%float ∧
  parseFloat VNull = nan.
Proof. vm_compute. done. Qed.

(** Amounts are added as doubles: 0.1 + 0.2 is not 0.3. *)
Example double_sum :
  PrimFloat.eqb
    (fsum [Reference.parse_decimal "0.1"; Reference.parse_decimal "0.2"])
    (Reference.parse_decimal "0.3") = false.
Proof. vm_compute. reflexivity. Qed.

(** The sample stores hold the sample records, which are JSON. *)
Lemma sample_record_clean : json_clean Sample.record.
Proof. vm_compute. reflexivity. Defined.

Lemma sample_store_load : load Sample.store = Sample.record.
Proof. apply (load_saved_clean (L := reference_laws)), sample_record_clean. Defined.

Lemma sample_store_clean : json_clean (load Sample.store).
Proof. rewrite sample_store_load. apply sample_record_clean. Defined.

Lemma sample_store_expenses :
  stored_expenses Sample.store =
    [Sample.e_old; Sample.e_boundary; Sample.e_recent; Sample.e_undated; Sample.e_misdated].
Proof. unfold stored_expenses. rewrite sample_store_load. reflexivity. Defined.

Lemma sample_store_expenses_field :
  expenses (load Sample.store) =
    Some [Sample.e_old; Sample.e_boundary; Sample.e_recent; Sample.e_undated; Sample.e_misdated].
Proof. rewrite sample_store_load. reflexivity. Defined.

Lemma sample_march_clean : json_clean Sample.march.
Proof. vm_compute. reflexivity. Defined.

Lemma sample_march_expenses :
  stored_expenses Sample.march_store = [Sample.e_march5; Sample.e_march20].
Proof.
  unfold stored_expenses, Sample.march_store.
  rewrite (load_saved_clean (L := reference_laws)) by apply sample_march_clean.
  reflexivity.
Defined.

Lemma empty_store_clean : json_clean (load (E := Reference.engine) None).
Proof. apply json_clean_default. Defined.

Lemma cleanupOldData_retention_witness :
  json_clean (load Sample.store) ∧
  twelveMonthsAgo Sample.now = Some 1710504000000 ∧
  ¬ In Sample.e_old (stored_expenses (state_after (init Sample.now Sample.store) Sample.store)) ∧
  In Sample.e_boundary (stored_expenses (state_after (init Sample.now Sample.store) Sample.store)).
Proof.
  destruct (cleanupOldData_retention Sample.store Sample.now sample_store_clean)
    as (_ & _ & _ & _ & Hall).
  split; [exact sample_store_clean|]. split; [vm_compute; reflexivity|]. split.
  - refine (proj1 (Hall Sample.e_old 1710503999999 1710504000000 _ _ _) _);
      [rewrite sample_store_expenses; simpl; tauto
      | vm_compute; reflexivity | vm_compute; reflexivity | lia].
  - refine (proj2 (Hall Sample.e_boundary 1710504000000 1710504000000 _ _ _) _);
      [rewrite sample_store_expenses; simpl; tauto
      | vm_compute; reflexivity | vm_compute; reflexivity | lia].
Defined.

Lemma cleanupOldData_drops_invalid_witness :
  json_clean (load Sample.store) ∧
  In Sample.e_undated (stored_expenses Sample.store) ∧
  Sample.e_undated !! "date" = None ∧
  ¬ In Sample.e_undated (stored_expenses (state_after (init Sample.now Sample.store) Sample.store)).
Proof.
  assert (Hin : In Sample.e_undated (stored_expenses Sample.store))
    by (rewrite sample_store_expenses; simpl; tauto).
  assert (Hdate : Sample.e_undated !! "date" = None) by (vm_compute; reflexivity).
  split; [exact sample_store_clean|]. split; [exact Hin|]. split; [exact Hdate|].
  exact (proj2 (cleanupOldData_drops_invalid Sample.store Sample.now Sample.e_undated
                  sample_store_clean Hin (or_introl Hdate))).
Defined.


Lemma updateExpense_merge_witness :
  json_clean (load Sample.store) ∧
  expenses (load Sample.store) =
    Some [Sample.e_old; Sample.e_boundary; Sample.e_recent; Sample.e_undated; Sample.e_misdated] ∧
  updateExpense (VStr "404") Sample.patch Sample.store = Returns None Sample.store ∧
  ∃ (i : nat) (old : object),
    [Sample.e_old; Sample.e_boundary; Sample.e_recent; Sample.e_undated; Sample.e_misdated]
      !! i = Some old ∧
    has_id (VStr "2") old = true ∧
    updateExpense (VStr "2") Sample.patch Sample.store =
      Returns (Some (Sample.patch ∪ old))
        (state_after (updateExpense (VStr "2") Sample.patch Sample.store) Sample.store).
Proof.
  split; [exact sample_store_clean|]. split; [exact sample_store_expenses_field|]. split.
  - refine (proj1 (updateExpense_merge Sample.store (VStr "404") Sample.patch _
                     sample_store_clean sample_store_expenses_field) _).
    intros e He. simpl in He.
    repeat (destruct He as [<-|He]; [vm_compute; reflexivity|]). destruct He.
  - destruct (proj2 (updateExpense_merge Sample.store (VStr "2") Sample.patch _
                       sample_store_clean sample_store_expenses_field))
      as (i & old & Hold & Hid & _ & Hrun & _).
    + exists Sample.e_boundary. split; [simpl; tauto | vm_compute; reflexivity].
    + exists i, old. split; [exact Hold|]. split; [exact Hid | exact Hrun].
Defined.

Lemma addCategory_dedup_witness :
  addCategory "food" (state_after (addCategory "Food" None) None) =
    Returns None (state_after (addCategory "Food" None) None).
Proof.
  refine (proj2 (proj2 (proj2
    (addCategory_dedup (L := reference_laws) None "Food"))) "food" _).
  vm_compute. reflexivity.
Defined.

Lemma income_per_month_witness :
  json_clean (load (E := Reference.engine) None) ∧
  "2024-03" ≠ "" ∧ "2024-04" ≠ "" ∧ "2024-03" ≠ "2024-04" ∧
  getIncome (Some "2024-03") Sample.now
      (state_after (setIncome (VNum 1000) (Some "2024-03") Sample.now None) None) =
    Returns (VNum 1000)
      (state_after (setIncome (VNum 1000) (Some "2024-03") Sample.now None) None) ∧
  getIncome (Some "2024-04") Sample.now
      (state_after (setIncome (VNum 1000) (Some "2024-03") Sample.now None) None) =
    Returns (VNum 0)
      (state_after (setIncome (VNum 1000) (Some "2024-03") Sample.now None) None).
Proof.
  assert (H1 : "2024-03" ≠ "") by discriminate.
  assert (H2 : "2024-04" ≠ "") by discriminate.
  assert (H3 : "2024-03" ≠ "2024-04") by discriminate.
  destruct (income_per_month (L := reference_laws) None (VNum 1000)
              "2024-03" "2024-04" Sample.now empty_store_clean H1 H2 H3)
    as (_ & _ & Hset & (v & Hbefore & Hafter) & Hunset).
  split; [exact empty_store_clean|]. split; [exact H1|]. split; [exact H2|].
  split; [exact H3|]. split.
  - apply Hset; vm_compute; reflexivity.
  - rewrite Hunset in Hbefore by (vm_compute; reflexivity).
    injection Hbefore as <-. exact Hafter.
Defined.



Lemma addExpense_ids_from_clock_witness :
  json_clean (load (E := Reference.engine) None) ∧
  is_Some (expenses (load (E := Reference.engine) None)) ∧
  stored_ids (state_after (addExpenses Sample.calls_apart None) None) =
    [VStr "1742040000000"; VStr "1742040000001"] ∧
  NoDup (stored_ids (state_after (addExpenses Sample.calls_apart None) None)).
Proof.
  assert (Hsome : is_Some (expenses (load (E := Reference.engine) None)))
    by (by eexists).
  destruct (addExpense_ids_from_clock (L := reference_laws) None Sample.calls_apart
              empty_store_clean Hsome) as (_ & Hids & Hdistinct).
  split; [exact empty_store_clean|]. split; [exact Hsome|]. split.
  - rewrite Hids. vm_compute. reflexivity.
  - apply Hdistinct.
    + constructor.
    + simpl. apply NoDup_cons. split; [|apply NoDup_singleton].
      intros Hin. apply list_elem_of_In in Hin. simpl in Hin.
      destruct Hin as [Heq|[]]. lia.
    + intros c _ Hin. destruct Hin.
Defined.

(** C7 does not hold of every run of calls: when the clock reads the same
    millisecond at two calls, both expenses get the same id. *)
Lemma addExpense_same_reading_same_id :
  stored_ids (state_after (addExpenses Sample.calls_together None) None) =
    [VStr "1742040000000"; VStr "1742040000000"] ∧
  ¬ NoDup (stored_ids (state_after (addExpenses Sample.calls_together None) None)).
Proof.
  assert (Hsome : is_Some (expenses (load (E := Reference.engine) None)))
    by (by eexists).
  destruct (addExpenses_ids (L := reference_laws) Sample.calls_together None
              empty_store_clean Hsome) as [_ Hids].
  assert (Heq : stored_ids (state_after (addExpenses Sample.calls_together None) None) =
                  [VStr "1742040000000"; VStr "1742040000000"]).
  { rewrite Hids. vm_compute. reflexivity. }
  split; [exact Heq|]. rewrite Heq. intros Hnodup.
  apply NoDup_cons in Hnodup as [Hnotin _]. apply Hnotin. by left.
Defined.

(** C8 does not hold of the category edit form when no category is stored:
    its fixed parent is the category picker, and back raises an alert and
    stays on the form. *)
Lemma navigateBack_stays_without_categories :
  In ("edit-category-form-screen", "edit-category-select-screen") staticParent ∧
  stored_categories (E := Reference.engine) None = [] ∧
  navigateBack SampleNav.every_screen None
      (SampleNav.on_screen "edit-category-form-screen") =
    alert "No categories available to edit."
      (SampleNav.on_screen "edit-category-form-screen") ∧
  active (navigateBack SampleNav.every_screen None
            (SampleNav.on_screen "edit-category-form-screen")) =
    Some "edit-category-form-screen" ∧
  active (showScreen SampleNav.every_screen "edit-category-select-screen" false
            (SampleNav.on_screen "edit-category-form-screen")) =
    Some "edit-category-select-screen".
Proof.
  split; [simpl; tauto|]. repeat split; vm_compute; reflexivity.
Defined.

Lemma deleteExpense_frame_witness :
  json_clean (load Sample.store) ∧
  expenses (load Sample.store) =
    Some [Sample.e_old; Sample.e_boundary; Sample.e_recent; Sample.e_undated; Sample.e_misdated] ∧
  expenses (load (state_after (deleteExpense (VStr "2") Sample.store) Sample.store)) =
    Some [Sample.e_old; Sample.e_recent; Sample.e_undated; Sample.e_misdated] ∧
  categories (load (state_after (deleteExpense (VStr "2") Sample.store) Sample.store)) =
    Some ["Food"; "Rent"].
Proof.
  destruct (deleteExpense_frame Sample.store (VStr "2") _
              sample_store_clean sample_store_expenses_field)
    as (_ & Hexps & _ & Hcats & _).
  split; [exact sample_store_clean|]. split; [exact sample_store_expenses_field|]. split.
  - rewrite Hexps. vm_compute. reflexivity.
  - rewrite Hcats, sample_store_load. reflexivity.
Defined.
(** * Further properties of the store *)

(** ** Month keys *)

Lemma string_length_app (s1 s2 : string) :
  String.length (s1 +:+ s2) = (String.length s1 + String.length s2)%nat.
Proof. induction s1 as [|c s1 IH]; simpl; [done | by rewrite IH]. Qed.

(** Two texts that end in tails of the same length are equal only when the
    heads and the tails are. *)
Lemma string_app_inj_tail (s1 s2 a b : string) :
  String.length a = String.length b → s1 +:+ a = s2 +:+ b → s1 = s2 ∧ a = b.
Proof.
  intros Hlen. revert s2. induction s1 as [|c s1 IH]; intros [|c2 s2] Heq.
  - split; [done | exact Heq].
  - apply (f_equal String.length) in Heq. rewrite !string_length_app in Heq.
    simpl in Heq. lia.
  - apply (f_equal String.length) in Heq. rewrite !string_length_app in Heq.
    simpl in Heq. lia.
  - change (String c (s1 +:+ a) = String c2 (s2 +:+ b)) in Heq.
    injection Heq as -> Heq. destruct (IH _ Heq) as [-> ->]. done.
Qed.

Lemma month_cases m :
  0 ≤ m < 12 →
  m = 0 ∨ m = 1 ∨ m = 2 ∨ m = 3 ∨ m = 4 ∨ m = 5 ∨ m = 6 ∨ m = 7 ∨
  m = 8 ∨ m = 9 ∨ m = 10 ∨ m = 11.
Proof. lia. Qed.

(** The month part of a key has two characters. *)
Lemma month_text_length m :
  0 ≤ m < 12 → String.length (padStart 2 (pretty (m + 1))) = 2%nat.
Proof.
  intros Hm. destruct (month_cases m Hm) as
    [-> | [-> | [-> | [-> | [-> | [-> | [-> | [-> | [-> | [-> | [-> | ->]]]]]]]]]]];
    reflexivity.
Qed.

Lemma month_text_inj m m' :
  0 ≤ m < 12 → 0 ≤ m' < 12 →
  padStart 2 (pretty (m + 1)) = padStart 2 (pretty (m' + 1)) → m = m'.
Proof.
  intros Hm Hm'.
  destruct (month_cases m Hm) as
    [-> | [-> | [-> | [-> | [-> | [-> | [-> | [-> | [-> | [-> | [-> | ->]]]]]]]]]]];
  destruct (month_cases m' Hm') as
    [-> | [-> | [-> | [-> | [-> | [-> | [-> | [-> | [-> | [-> | [-> | ->]]]]]]]]]]];
    vm_compute; intros Heq; first [reflexivity | discriminate Heq].
Qed.

(** A month key determines the year and the month. *)
Lemma monthKeyOf_inj y m y' m' :
  0 ≤ m < 12 → 0 ≤ m' < 12 →
  monthKeyOf y m = monthKeyOf y' m' → y = y' ∧ m = m'.
Proof.
  intros Hm Hm' Heq. unfold monthKeyOf in Heq.
  apply string_app_inj_tail in Heq as [Hy Htail].
  - split; [by apply (inj pretty) in Hy|].
    apply (inj (String.app "-")) in Htail. by apply month_text_inj.
  - by rewrite !string_length_app, !month_text_length.
Qed.

(** The key of a valid date is made of its local year and month. *)
Lemma getMonthKey_valid `{E : Engine} t :
  getMonthKey (Some t) =
    monthKeyOf (YearFromTime (LocalTime t)) (MonthFromTime (LocalTime t)).
Proof. reflexivity. Qed.

Lemma getMonthKey_not_invalid `{E : Engine} y m :
  0 ≤ m < 12 → monthKeyOf y m ≠ getMonthKey None.
Proof.
  intros Hm Heq. change (getMonthKey None) with ("NaN-" +:+ "NaN") in Heq.
  unfold monthKeyOf in Heq.
  apply string_app_inj_tail in Heq as [_ Htail].
  - discriminate Htail.
  - by rewrite string_length_app, month_text_length.
Qed.

(** X1. The month key of a valid date names its local year and month and
    nothing else: two valid dates have the same key exactly when they fall
    in the same month of the same year; the key equals the key a screen
    builds from a year and a month index exactly for that year and month;
    and it is never the key ["NaN-NaN"] of an Invalid Date. *)
Theorem getMonthKey_identifies_month `{E : Engine} (t1 t2 : Z) :
  (getMonthKey (Some t1) = getMonthKey (Some t2) ↔
     YearFromTime (LocalTime t1) = YearFromTime (LocalTime t2) ∧
     MonthFromTime (LocalTime t1) = MonthFromTime (LocalTime t2)) ∧
  (∀ year monthIndex, 0 ≤ monthIndex < 12 →
     (getMonthKey (Some t1) = monthKeyOf year monthIndex ↔
        YearFromTime (LocalTime t1) = year ∧
        MonthFromTime (LocalTime t1) = monthIndex)) ∧
  getMonthKey (Some t1) ≠ getMonthKey None ∧
  getMonthKey None = "NaN-NaN".
Proof.
  rewrite !getMonthKey_valid.
  pose proof (MonthFromTime_range (LocalTime t1)) as H1.
  pose proof (MonthFromTime_range (LocalTime t2)) as H2.
  split; [|split; [|split]].
  - split; [by apply monthKeyOf_inj | by intros [-> ->]].
  - intros year monthIndex Hm.
    split; [by apply monthKeyOf_inj | by intros [-> ->]].
  - by apply getMonthKey_not_invalid.
  - reflexivity.
Qed.

(** ** The previous month *)

Lemma DayWithinYear_range t :
  0 ≤ DayWithinYear t < DaysInYear (YearFromTime t).
Proof.
  unfold DayWithinYear, YearFromTime.
  pose proof (YearFromDay_spec (Day t)).
  pose proof (DayFromYear_step (YearFromDay (Day t))). lia.
Qed.

(** The day of the month is a day of that month. *)
Lemma DateFromTime_range t :
  1 ≤ DateFromTime t ≤ DaysInMonth (YearFromTime t) (MonthFromTime t).
Proof.
  split; [apply DateFromTime_positive|].
  pose proof (DayWithinYear_range t) as Hd.
  pose proof (DaysInYear_range (YearFromTime t)) as Hy.
  unfold DateFromTime, DaysInMonth, MonthFromTime, InLeapYear in *.
  destruct (DaysInYear (YearFromTime t) =? 366) eqn:Hleap;
    [apply Z.eqb_eq in Hleap | apply Z.eqb_neq in Hleap];
    repeat case_match; simpl; lia.
Qed.

Lemma DaysInMonth_range y m : 0 ≤ m < 12 → 28 ≤ DaysInMonth y m ≤ 31.
Proof.
  intros Hm. unfold DaysInMonth.
  destruct (DaysInYear y =? 366);
    destruct (month_cases m Hm) as
      [-> | [-> | [-> | [-> | [-> | [-> | [-> | [-> | [-> | [-> | [-> | ->]]]]]]]]]]];
    simpl; lia.
Qed.

(** [MakeDay] with the month before [m]: the same day of the month before,
    which for January is December of the year before. *)
Lemma MakeDay_previous_month y m d :
  0 ≤ m < 12 →
  MakeDay y (m - 1) d =
    MakeDay (if m =? 0 then y - 1 else y) (if m =? 0 then 11 else m - 1) d.
Proof.
  intros Hm. destruct (Z.eqb_spec m 0) as [->|Hne]; [|done].
  unfold MakeDay.
  replace (y + (0 - 1) / 12) with (y - 1) by zdiv.
  replace (y - 1 + 11 / 12) with (y - 1) by zdiv.
  done.
Qed.

(** A day past the end of the month before falls in month [m] itself. *)
Lemma MakeDay_overflow y m d :
  1 ≤ m < 12 →
  MakeDay y (m - 1) d = MakeDay y m (d - DaysInMonth y (m - 1)).
Proof.
  intros Hm. unfold MakeDay, DaysInMonth.
  replace ((m - 1) / 12) with 0 by zdiv. replace (m / 12) with 0 by zdiv.
  replace ((m - 1) mod 12) with (m - 1) by zdiv. replace (m mod 12) with m by zdiv.
  replace (m - 1 + 1) with m by lia. rewrite Z.add_0_r. lia.
Qed.

Lemma monthKeyOf_nonempty y m : monthKeyOf y m ≠ "".
Proof.
  intros Heq. apply (f_equal String.length) in Heq.
  unfold monthKeyOf in Heq. rewrite !string_length_app in Heq. simpl in Heq. lia.
Qed.

Lemma getIncome_current `{E : Engine} st now :
  getIncome (Some (getMonthKey (Some now))) now st = getIncome None now st.
Proof.
  unfold getIncome. rewrite key_or_current_given; [done|].
  rewrite getMonthKey_valid. apply monthKeyOf_nonempty.
Qed.

(** In a time zone with a fixed offset, local time read back from UTC. *)
Lemma LocalTime_UTC `{E : Engine} (tz back prev : Z) :
  (∀ t isUTC, LocalTZA t isUTC = tz) →
  TimeClip (UTC back) = Some prev → LocalTime prev = back.
Proof.
  intros Htz Hprev. unfold TimeClip in Hprev.
  destruct (_ <=? _); [|done]. injection Hprev as <-.
  unfold LocalTime, UTC. rewrite !Htz. lia.
Qed.

Lemma setMonth_eq `{E : Engine} (t month : Z) :
  setMonth t month =
    TimeClip (UTC (MakeDate
      (MakeDay (YearFromTime (LocalTime t)) month (DateFromTime (LocalTime t)))
      (TimeWithinDay (LocalTime t)))).
Proof. reflexivity. Qed.

Lemma getPreviousMonth_valid `{E : Engine} (now : Z) :
  getPreviousMonth (Some now) = setMonth now (MonthFromTime (LocalTime now) - 1).
Proof. reflexivity. Qed.

(** There the local time of the result of [getPreviousMonth] is the local
    date of [now] with the month lowered by one. *)
Lemma getPreviousMonth_local `{E : Engine} (now prev tz : Z) :
  (∀ t isUTC, LocalTZA t isUTC = tz) →
  getPreviousMonth (Some now) = Some prev →
  LocalTime prev =
    MakeDate (MakeDay (YearFromTime (LocalTime now))
                      (MonthFromTime (LocalTime now) - 1)
                      (DateFromTime (LocalTime now)))
             (TimeWithinDay (LocalTime now)).
Proof.
  intros Htz Hprev. rewrite getPreviousMonth_valid, setMonth_eq in Hprev.
  exact (LocalTime_UTC tz _ prev Htz Hprev).
Qed.

(** X2. [getPreviousMonth] in a time zone with a fixed offset, when the
    result is a valid date. If the day of the month exists in the month
    before (the month before January being December of the year before),
    the result is that day of that month, and [getPreviousMonthIncome]
    reads the income of that month. Otherwise (the 31st after a month of
    30 days, 29 to 31 March) the date overflows into the current month:
    the result has the month key of [now], and [getPreviousMonthIncome]
    reads the income of the current month. *)
Theorem getPreviousMonth_key `{E : Engine} (now prev tz : Z) (st : storage) :
  (∀ t isUTC, LocalTZA t isUTC = tz) →
  getPreviousMonth (Some now) = Some prev →
  let lt := LocalTime now in
  let y := YearFromTime lt in
  let m := MonthFromTime lt in
  let d := DateFromTime lt in
  let py := if m =? 0 then y - 1 else y in
  let pm := if m =? 0 then 11 else m - 1 in
  (d ≤ DaysInMonth py pm →
     getMonthKey (Some prev) = monthKeyOf py pm ∧
     DateFromTime (LocalTime prev) = d ∧
     getPreviousMonthIncome now st = getIncome (Some (monthKeyOf py pm)) now st) ∧
  (DaysInMonth py pm < d →
     getMonthKey (Some prev) = getMonthKey (Some now) ∧
     DateFromTime (LocalTime prev) = d - DaysInMonth py pm ∧
     getPreviousMonthIncome now st = getIncome None now st).
Proof.
  intros Htz Hprev lt y m d py pm.
  assert (Hm : 0 ≤ m < 12) by apply MonthFromTime_range.
  assert (Hd : 1 ≤ d ≤ DaysInMonth y m) by apply DateFromTime_range.
  assert (Htime : 0 ≤ TimeWithinDay lt < msPerDay).
  { unfold TimeWithinDay, msPerDay. zdiv. }
  assert (Hlocal : LocalTime prev = MakeDate (MakeDay y (m - 1) d) (TimeWithinDay lt))
    by exact (getPreviousMonth_local now prev tz Htz Hprev).
  assert (Hincome : getPreviousMonthIncome now st =
                    getIncome (Some (getMonthKey (Some prev))) now st).
  { unfold getPreviousMonthIncome. by rewrite Hprev. }
  assert (Hnow : getMonthKey (Some now) = monthKeyOf y m)
    by exact (getMonthKey_valid now).
  pose proof (getIncome_current st now) as Hcurrent.
  rewrite Hincome, (getMonthKey_valid prev), Hlocal. rewrite Hnow in *.
  clear Hincome Hprev Hnow Hlocal.
  clearbody d m y. clearbody lt.
  assert (Hpm : 0 ≤ pm < 12) by (subst pm; destruct (Z.eqb_spec m 0); lia).
  pose proof (DaysInMonth_range y m Hm) as Hdim.
  pose proof (DaysInMonth_range py pm Hpm) as Hpdim.
  split.
  - intros Hexists.
    destruct (calendar_fields py pm d (TimeWithinDay lt)) as (Hy & Hmo & Hda & _);
      [done | lia | done |].
    rewrite (MakeDay_previous_month y m d Hm). fold py pm.
    by rewrite Hy, Hmo, Hda.
  - intros Hover.
    assert (Hm1 : 1 ≤ m < 12).
    { subst pm py. destruct (Z.eqb_spec m 0); [|lia].
      unfold DaysInMonth in Hover. simpl in Hover.
      destruct (DaysInYear (y - 1) =? 366); simpl in Hover; lia. }
    assert (Hpy : py = y) by (subst py; destruct (Z.eqb_spec m 0); lia).
    assert (Hpm' : pm = m - 1) by (subst pm; destruct (Z.eqb_spec m 0); lia).
    clearbody py pm. subst py pm.
    destruct (calendar_fields y m (d - DaysInMonth y (m - 1)) (TimeWithinDay lt))
      as (Hy & Hmo & Hda & _); [done | lia | done |].
    rewrite (MakeDay_overflow y m d Hm1).
    by rewrite Hy, Hmo, Hda.
Qed.

Lemma getPreviousMonth_key_witness :
  (∀ t isUTC, LocalTZA (Engine := Reference.engine) t isUTC = 0) ∧
  getPreviousMonth (Some Sample.now) = Some SampleMore.february15 ∧
  getMonthKey (Some SampleMore.february15) = "2025-02" ∧
  toISOString SampleMore.march31 = "2025-03-31T12:00:00.000Z" ∧
  getPreviousMonth (Some SampleMore.march31) = Some SampleMore.march3 ∧
  getMonthKey (Some SampleMore.march3) = getMonthKey (Some SampleMore.march31) ∧
  getPreviousMonthIncome SampleMore.march31 None = getIncome None SampleMore.march31 None.
Proof.
  assert (Htz : ∀ t isUTC, LocalTZA (Engine := Reference.engine) t isUTC = 0) by done.
  assert (Hmid : getPreviousMonth (Some Sample.now) = Some SampleMore.february15)
    by (vm_compute; reflexivity).
  assert (Hend : getPreviousMonth (Some SampleMore.march31) = Some SampleMore.march3)
    by (vm_compute; reflexivity).
  split; [exact Htz|]. split; [exact Hmid|]. split.
  { destruct (getPreviousMonth_key Sample.now SampleMore.february15 0 None Htz Hmid)
      as [Hexists _].
    destruct Hexists as (Hkey & _); [by vm_compute|].
    rewrite Hkey. vm_compute. reflexivity. }
  split; [vm_compute; reflexivity|]. split; [exact Hend|].
  destruct (getPreviousMonth_key SampleMore.march31 SampleMore.march3 0 None Htz Hend)
    as [_ Hover].
  destruct Hover as (Hkey & _ & Hincome); [by vm_compute|].
  split; [exact Hkey | exact Hincome].
Defined.

(** ** The expenses of a month and of a year *)

Lemma getExpensesForMonth_load `{E : Engine} st monthKey now :
  getExpensesForMonth monthKey now st =
    Returns (List.filter (in_month (key_or_current monthKey now)) (stored_expenses st)) st.
Proof.
  unfold getExpensesForMonth, mbind, M_bind. rewrite getExpenses_load.
  unfold mret, M_ret. f_equal. apply filter_ext. intros exp. unfold in_month.
  by destruct (truthy (get exp "date")).
Qed.

Lemma filter_filter_and {A} (p q : A → bool) (l : list A) :
  List.filter q (List.filter p l) = List.filter (λ x, p x && q x) l.
Proof.
  induction l as [|x l IH]; simpl; [done|].
  destruct (p x); simpl; [destruct (q x)|]; by rewrite ?IH.
Qed.

(** The two totals of a month as sums over the list of the month. *)
Lemma month_totals_list `{E : Engine} st category monthKey now :
  category ≠ "" →
  getTotalExpensesForMonth monthKey now st =
    Returns (fsum (List.map amount_or_zero
              (List.filter (in_month (key_or_current monthKey now))
                           (stored_expenses st)))) st ∧
  getTotalExpensesForCategoryInMonth category monthKey now st =
    Returns (fsum (List.map amount_or_zero
              (List.filter (in_category category)
                 (List.filter (in_month (key_or_current monthKey now))
                              (stored_expenses st))))) st.
Proof.
  intros Hcat. set (key := key_or_current monthKey now). split.
  - unfold getTotalExpensesForMonth. fold key.
    unfold mbind, M_bind. rewrite getExpenses_load. unfold mret, M_ret. f_equal.
    unfold fsum. rewrite <- fold_conditional_sum.
    apply fold_left_pointwise. intros sum exp. unfold in_month.
    by destruct (truthy (get exp "date")).
  - unfold getTotalExpensesForCategoryInMonth. fold key.
    unfold mbind, M_bind. rewrite getExpenses_load. unfold mret, M_ret. f_equal.
    unfold fsum. rewrite filter_filter_and, <- fold_conditional_sum.
    apply fold_left_pointwise. intros sum exp. unfold in_month.
    destruct (in_category category exp) eqn:Hin.
    + rewrite (in_category_truthy _ _ Hcat Hin). unfold in_category in Hin. rewrite Hin.
      simpl. destruct (truthy (get exp "date")); simpl; [|done].
      by rewrite !andb_true_r.
    + unfold in_category in Hin. rewrite Hin. rewrite !andb_false_r.
      by destruct (negb _ || negb _).
Qed.

(** X3. The list [getExpensesForMonth] returns is the stored list filtered,
    in order, by "has a date whose month key is the key"; the month total
    is the sum of the amounts over exactly that list, and the total of a
    category is the sum over the expenses of that list whose category is
    the given one, which are the expenses the category detail screen of the
    month lists. None of the three calls throws or writes. *)
Theorem month_totals_over_month_list `{E : Engine} st category monthKey now :
  category ≠ "" →
  let key := key_or_current monthKey now in
  let listed := List.filter (in_month key) (stored_expenses st) in
  getExpensesForMonth monthKey now st = Returns listed st ∧
  (∀ e, In e listed ↔
        In e (stored_expenses st) ∧ truthy (get e "date") = true ∧
        getMonthKey (Date_new (get e "date")) = key) ∧
  getTotalExpensesForMonth monthKey now st =
    Returns (fsum (List.map amount_or_zero listed)) st ∧
  getTotalExpensesForCategoryInMonth category monthKey now st =
    Returns (fsum (List.map amount_or_zero
                     (List.filter (in_category category) listed))) st.
Proof.
  intros Hcat. cbv zeta.
  destruct (month_totals_list st category monthKey now Hcat) as [Hmonth Hcategory].
  split; [exact (getExpensesForMonth_load st monthKey now)|]. split.
  { intros e. rewrite List.filter_In. unfold in_month.
    rewrite andb_true_iff, String.eqb_eq. done. }
  split; [exact Hmonth | exact Hcategory].
Qed.

Lemma month_totals_over_month_list_witness :
  "Food" ≠ "" ∧
  getExpensesForMonth (Some "2024-03") Sample.now Sample.march_store =
    Returns [Sample.e_march5; Sample.e_march20] Sample.march_store ∧
  getTotalExpensesForMonth (Some "2024-03") Sample.now Sample.march_store =
    Returns 80%float Sample.march_store.
Proof.
  assert (Hfood : "Food" ≠ "") by done.
  destruct (month_totals_over_month_list Sample.march_store "Food" (Some "2024-03")
              Sample.now Hfood) as (Hlist & _ & Htotal & _).
  rewrite sample_march_expenses in Hlist, Htotal.
  split; [done|]. split; [exact Hlist | exact Htotal].
Defined.

(** The same for [getTotalExpensesForYear]. *)
Lemma getTotalExpensesForYear_load `{E : Engine} st year now :
  getTotalExpensesForYear year now st =
    Returns (fsum (List.map amount_or_zero
              (List.filter (in_year (year_or_current year now)) (stored_expenses st)))) st.
Proof.
  unfold getTotalExpensesForYear.
  unfold mbind, M_bind. rewrite getExpenses_load. unfold mret, M_ret. f_equal.
  unfold fsum. rewrite <- fold_conditional_sum.
  apply fold_left_pointwise. intros sum exp. unfold in_year.
  by destruct (truthy (get exp "date")).
Qed.

(** X4. [getTotalExpensesForYear(year)] returns the sum of the amounts of
    the stored expenses dated in that local year, the current year when
    [year] is [null] or 0. An expense counts for a year exactly when it
    counts for one of the twelve month keys of that year, so no expense
    is counted for a year without being listed under one of its months,
    and conversely. *)
Theorem year_total_over_months `{E : Engine} st year now :
  let targetYear := year_or_current year now in
  getTotalExpensesForYear year now st =
    Returns (fsum (List.map amount_or_zero
              (List.filter (in_year targetYear) (stored_expenses st)))) st ∧
  (year = None ∨ year = Some 0 → targetYear = YearFromTime (LocalTime now)) ∧
  (∀ y, y ≠ 0 → year_or_current (Some y) now = y) ∧
  (∀ e, in_year targetYear e = true ↔
        ∃ monthIndex, 0 ≤ monthIndex < 12 ∧
          in_month (monthKeyOf targetYear monthIndex) e = true).
Proof.
  cbv zeta. set (targetYear := year_or_current year now).
  split; [exact (getTotalExpensesForYear_load st year now)|].
  split; [by intros [-> | ->]|]. split.
  { intros y Hy. unfold year_or_current. by destruct (Z.eqb_spec y 0). }
  intros e. unfold in_year, in_month, year_is.
  destruct (truthy (get e "date")); cbn [andb];
    [|split; [done | by intros (? & ? & ?)]].
  destruct (Date_new (get e "date")) as [t|]; cbn [getFullYear fmap option_fmap option_map].
  - rewrite Z.eqb_eq, getMonthKey_valid. split.
    + intros <-. exists (MonthFromTime (LocalTime t)).
      split; [apply MonthFromTime_range | by apply String.eqb_eq].
    + intros (monthIndex & Hm & Hkey). apply String.eqb_eq in Hkey.
      apply monthKeyOf_inj in Hkey as [Hy _]; [done | apply MonthFromTime_range | done].
  - split; [done|]. intros (monthIndex & Hm & Hkey). apply String.eqb_eq in Hkey.
    symmetry in Hkey. by apply getMonthKey_not_invalid in Hkey.
Qed.

(** ** Limits, categories and the other collections *)

Section StoreExtras.
Context {E : Engine} {L : JSONLaws E}.

Lemma json_clean_fields d :
  json_clean d →
  option_map (List.map json_object) (expenses d) = expenses d ∧
  option_map json_object (income d) = income d ∧
  option_map (λ m : gmap string object, json_object <$> m) (limits d) = limits d.
Proof.
  unfold json_clean, jsonify. destruct d as [e c i l]. simpl.
  intros Heq. injection Heq as He Hi Hl. done.
Qed.

Lemma jsonify_with_categories d l :
  json_clean d → jsonify (with_categories l d) = with_categories l d.
Proof.
  intros (He & Hi & Hl)%json_clean_fields.
  unfold jsonify, with_categories. simpl. by rewrite He, Hi, Hl.
Qed.

Lemma jsonify_with_limits d (m : gmap string object) :
  json_clean d → jsonify (with_limits m d) = with_limits (json_object <$> m) d.
Proof.
  intros (He & Hi & Hl)%json_clean_fields.
  unfold jsonify, with_limits. simpl. by rewrite He, Hi.
Qed.

Lemma json_clean_limits d (m : gmap string object) :
  json_clean d → limits d = Some m → json_object <$> m = m.
Proof.
  intros (_ & _ & Hl)%json_clean_fields Hm. rewrite Hm in Hl. simpl in Hl.
  by injection Hl.
Qed.

Lemma getLimitsForMonth_load st k now :
  k ≠ "" →
  getLimitsForMonth (Some k) now st =
    Returns (default ∅ (default ∅ (limits (load st)) !! k)) st.
Proof.
  intros Hk. unfold getLimitsForMonth. rewrite key_or_current_given by done.
  run_store. destruct (limits (load st)); simpl; [done|].
  by rewrite lookup_empty.
Qed.

Lemma setLimitsForMonth_state st (limitsObj : object) k now :
  json_clean (load st) →
  k ≠ "" →
  setLimitsForMonth limitsObj (Some k) now st =
    Returns limitsObj (state_after (setLimitsForMonth limitsObj (Some k) now st) st) ∧
  load (state_after (setLimitsForMonth limitsObj (Some k) now st) st) =
    with_limits (<[k := json_object limitsObj]> (default ∅ (limits (load st)))) (load st).
Proof.
  intros Hclean Hk. unfold setLimitsForMonth.
  rewrite key_or_current_given by done. run_store. split; [done|].
  rewrite load_saved, jsonify_with_limits by done. f_equal.
  rewrite fmap_insert. f_equal.
  destruct (limits (load st)) as [m|] eqn:Hm; simpl.
  - by eapply json_clean_limits.
  - apply fmap_empty.
Qed.

(** X5. Limits are kept per month. After [setLimitsForMonth(limitsObj, k)],
    which returns its argument, [getLimitsForMonth(k)] returns the object
    as JSON keeps it: it replaces whatever was stored for the month, so a
    category that is not in the new object has no limit any more. The
    limits of another month [k'] read as before, a month without an entry
    reads as the empty object, and expenses, categories and income are
    untouched. *)
Theorem limits_per_month st (limitsObj : object) k k' now :
  json_clean (load st) →
  k ≠ "" → k' ≠ "" → k ≠ k' →
  let st' := state_after (setLimitsForMonth limitsObj (Some k) now st) st in
  setLimitsForMonth limitsObj (Some k) now st = Returns limitsObj st' ∧
  getLimitsForMonth (Some k) now st' = Returns (json_object limitsObj) st' ∧
  (∀ category, limitsObj !! category = None →
     ∃ o, getLimitsForMonth (Some k) now st' = Returns o st' ∧ o !! category = None) ∧
  (∃ o, getLimitsForMonth (Some k') now st = Returns o st ∧
        getLimitsForMonth (Some k') now st' = Returns o st') ∧
  (default ∅ (limits (load st)) !! k' = None →
     getLimitsForMonth (Some k') now st = Returns ∅ st) ∧
  expenses (load st') = expenses (load st) ∧
  categories (load st') = categories (load st) ∧
  income (load st') = income (load st).
Proof.
  intros Hclean Hk Hk' Hne st'.
  destruct (setLimitsForMonth_state st limitsObj k now Hclean Hk) as [Hrun Hload].
  fold st' in Hrun, Hload.
  assert (Hget : getLimitsForMonth (Some k) now st' = Returns (json_object limitsObj) st').
  { rewrite getLimitsForMonth_load by done. rewrite Hload. simpl.
    by rewrite lookup_insert_eq. }
  split; [done|]. split; [done|]. split.
  { intros category Hnone. eexists. split; [exact Hget|].
    unfold json_object. rewrite lookup_omap, Hnone. done. }
  split.
  { eexists. split; [by apply getLimitsForMonth_load|].
    rewrite getLimitsForMonth_load by done. rewrite Hload. simpl.
    by rewrite lookup_insert_ne. }
  split.
  { intros Hnone. rewrite getLimitsForMonth_load by done. by rewrite Hnone. }
  by rewrite Hload.
Qed.

(** ** Renaming and deleting a category *)

Lemma category_total_load st category monthKey now :
  getTotalExpensesForCategoryInMonth category monthKey now st =
    Returns (fold_left (λ sum exp,
      if negb (truthy (get exp "category")) || negb (truthy (get exp "date")) then sum
      else
        if String.eqb (getMonthKey (Date_new (get exp "date")))
                      (key_or_current monthKey now)
           && strict_eq (get exp "category") (VStr category)
        then (sum + amount_or_zero exp)%float
        else sum) (stored_expenses st) 0%float) st.
Proof.
  unfold getTotalExpensesForCategoryInMonth, mbind, M_bind.
  by rewrite getExpenses_load.
Qed.

Lemma getCategories_load st :
  getCategories st = Returns (default [] (categories (load st))) st.
Proof. unfold getCategories. by run_store. Qed.

Lemma categories_after_load st : stored_categories st = default [] (categories (load st)).
Proof. unfold stored_categories. by rewrite getCategories_load. Qed.

Lemma updateCategory_state st oldName newName cats i :
  json_clean (load st) →
  categories (load st) = Some cats →
  findIndex (λ cat, String.eqb cat oldName) cats = Some i →
  updateCategory oldName newName st =
    Returns true (state_after (updateCategory oldName newName st) st) ∧
  load (state_after (updateCategory oldName newName st) st) =
    with_categories (<[i := String_trim newName]> cats) (load st).
Proof.
  intros Hclean Hcats Hfind. unfold updateCategory. run_store.
  rewrite Hcats, Hfind. simpl. split; [done|].
  by rewrite load_saved, jsonify_with_categories.
Qed.

Lemma updateCategory_absent st oldName newName :
  ¬ In oldName (default [] (categories (load st))) →
  updateCategory oldName newName st = Returns false st.
Proof.
  intros Hnot. unfold updateCategory. run_store.
  destruct (categories (load st)) as [cats|]; simpl in *; [|done].
  assert (Hfind : findIndex (λ cat, String.eqb cat oldName) cats = None).
  { apply findIndex_None. intros c Hc. apply String.eqb_neq. by intros ->. }
  by rewrite Hfind.
Qed.

(** X6. [updateCategory(oldName, newName)] returns [false] and writes
    nothing when no stored category is exactly [oldName]; otherwise it
    returns [true] and puts the trimmed new name in the place of the first
    category equal to [oldName], every other place being as before. The
    expenses are not touched: an expense recorded under the old name keeps
    it, so every category total, also the ones of the old and of the new
    name, is what it was; income and limits are as before too. *)
Theorem updateCategory_renames_in_place st oldName newName :
  json_clean (load st) →
  let cats := stored_categories st in
  let st' := state_after (updateCategory oldName newName st) st in
  (¬ In oldName cats → updateCategory oldName newName st = Returns false st) ∧
  (In oldName cats →
     ∃ i : nat,
       cats !! i = Some oldName ∧
       (∀ (j : nat) c, (j < i)%nat → cats !! j = Some c → c ≠ oldName) ∧
       updateCategory oldName newName st = Returns true st' ∧
       stored_categories st' = <[i := String_trim newName]> cats ∧
       (∀ j : nat, j ≠ i → stored_categories st' !! j = cats !! j) ∧
       stored_categories st' !! i = Some (String_trim newName)) ∧
  stored_expenses st' = stored_expenses st ∧
  income (load st') = income (load st) ∧
  limits (load st') = limits (load st) ∧
  (∀ category monthKey now, ∃ total,
     getTotalExpensesForCategoryInMonth category monthKey now st = Returns total st ∧
     getTotalExpensesForCategoryInMonth category monthKey now st' = Returns total st').
Proof.
  intros Hclean cats st'.
  assert (Hcats : cats = default [] (categories (load st)))
    by apply categories_after_load.
  assert (Hframe : stored_expenses st' = stored_expenses st ∧
                   income (load st') = income (load st) ∧
                   limits (load st') = limits (load st) ∧
                   (In oldName cats →
                    ∃ i : nat,
                      cats !! i = Some oldName ∧
                      (∀ (j : nat) c, (j < i)%nat → cats !! j = Some c → c ≠ oldName) ∧
                      updateCategory oldName newName st = Returns true st' ∧
                      stored_categories st' = <[i := String_trim newName]> cats)).
  { destruct (categories (load st)) as [l|] eqn:Hl; simpl in Hcats.
    - destruct (findIndex (λ cat, String.eqb cat oldName) l) as [i|] eqn:Hfind.
      + destruct (updateCategory_state st oldName newName l i Hclean Hl Hfind)
          as [Hrun Hload].
        fold st' in Hrun, Hload. unfold stored_expenses. rewrite Hload. simpl.
        split; [done|]. split; [done|]. split; [done|].
        intros _. exists i. apply findIndex_Some in Hfind as (c & Hc & Heq & Hbefore).
        apply String.eqb_eq in Heq as ->. rewrite Hcats.
        split; [done|]. split.
        { intros j c Hj Hjc. specialize (Hbefore j c Hj Hjc).
          by apply String.eqb_neq in Hbefore. }
        split; [done|]. rewrite categories_after_load, Hload. done.
      + assert (Hrun : updateCategory oldName newName st = Returns false st).
        { apply updateCategory_absent. rewrite Hl. simpl. intros Hin.
          apply (proj1 (findIndex_None _ _) Hfind) in Hin.
          by rewrite String.eqb_refl in Hin. }
        assert (Hst' : st' = st) by (subst st'; by rewrite Hrun).
        rewrite Hst'. split; [done|]. split; [done|]. split; [done|].
        intros Hin. rewrite Hcats in Hin.
        apply (proj1 (findIndex_None _ _) Hfind) in Hin.
        by rewrite String.eqb_refl in Hin.
    - assert (Hrun : updateCategory oldName newName st = Returns false st).
      { apply updateCategory_absent. rewrite Hl. simpl. tauto. }
      assert (Hst' : st' = st) by (subst st'; by rewrite Hrun).
      rewrite Hst'. split; [done|]. split; [done|]. split; [done|].
      intros Hin. rewrite Hcats in Hin. done. }
  destruct Hframe as (Hexp & Hinc & Hlim & Hpresent).
  split; [intros Hnot; apply updateCategory_absent; by rewrite <- Hcats|].
  split.
  { intros Hin. destruct (Hpresent Hin) as (i & Hi & Hbefore & Hrun & Hnew).
    exists i. split; [done|]. split; [done|]. split; [done|]. split; [done|].
    rewrite Hnew. split.
    - intros j Hj. by rewrite list_lookup_insert_ne.
    - apply list_lookup_insert_eq. by eapply lookup_lt_Some. }
  split; [done|]. split; [done|]. split; [done|].
  intros category monthKey now. eexists.
  split; [apply category_total_load|]. rewrite category_total_load. by rewrite Hexp.
Qed.

Lemma deleteCategory_state st name cats :
  json_clean (load st) →
  categories (load st) = Some cats →
  deleteCategory name st =
    Returns true (Some (JSON_stringify
      (with_categories (List.filter (λ cat, negb (String.eqb cat name)) cats) (load st)))) ∧
  load (state_after (deleteCategory name st) st) =
    with_categories (List.filter (λ cat, negb (String.eqb cat name)) cats) (load st).
Proof.
  intros Hclean Hcats. unfold deleteCategory. run_store. rewrite Hcats. simpl.
  split; [done|]. by rewrite load_saved, jsonify_with_categories.
Qed.

(** X7. [deleteCategory(name)] on a record with a category list returns
    [true], also when the name is not in the list, and removes every
    category that is exactly [name] (a name that differs in case stays);
    the others keep their order and a second call changes nothing. Only
    the category list is written: the expenses recorded under the name and
    the limits set for it stay in the store, so the totals and limits read
    as before. Without a category list the call returns [false] and writes
    nothing. *)
Theorem deleteCategory_removes_name_only st name :
  json_clean (load st) →
  let st' := state_after (deleteCategory name st) st in
  (categories (load st) = None → deleteCategory name st = Returns false st) ∧
  (∀ cats, categories (load st) = Some cats →
     deleteCategory name st = Returns true st' ∧
     stored_categories st' = List.filter (λ cat, negb (String.eqb cat name)) cats ∧
     (∀ c, In c (stored_categories st') ↔ In c cats ∧ c ≠ name) ∧
     deleteCategory name st' = Returns true st') ∧
  stored_expenses st' = stored_expenses st ∧
  income (load st') = income (load st) ∧
  limits (load st') = limits (load st) ∧
  (∀ category monthKey now, ∃ total,
     getTotalExpensesForCategoryInMonth category monthKey now st = Returns total st ∧
     getTotalExpensesForCategoryInMonth category monthKey now st' = Returns total st') ∧
  (∀ monthKey now, ∃ o,
     getLimitsForMonth monthKey now st = Returns o st ∧
     getLimitsForMonth monthKey now st' = Returns o st').
Proof.
  intros Hclean st'.
  assert (Hframe : stored_expenses st' = stored_expenses st ∧
                   income (load st') = income (load st) ∧
                   limits (load st') = limits (load st)).
  { destruct (categories (load st)) as [cats|] eqn:Hcats.
    - destruct (deleteCategory_state st name cats Hclean Hcats) as [_ Hload].
      fold st' in Hload. unfold stored_expenses. by rewrite Hload.
    - assert (Hst' : st' = st).
      { subst st'. unfold deleteCategory. run_store. by rewrite Hcats. }
      by rewrite Hst'. }
  destruct Hframe as (Hexp & Hinc & Hlim).
  split.
  { intros Hnone. unfold deleteCategory. run_store. by rewrite Hnone. }
  split.
  { intros cats Hcats.
    destruct (deleteCategory_state st name cats Hclean Hcats) as [Hrun Hload].
    fold st' in Hload.
    set (d' := with_categories (List.filter (λ cat, negb (String.eqb cat name)) cats)
                 (load st)) in *.
    assert (Hst' : st' = Some (JSON_stringify d')) by (subst st'; by rewrite Hrun).
    split; [by rewrite Hrun, Hst'|].
    assert (Hnew : stored_categories st' =
                   List.filter (λ cat, negb (String.eqb cat name)) cats).
    { rewrite categories_after_load, Hload. done. }
    split; [done|]. split.
    { intros c. rewrite Hnew, List.filter_In, negb_true_iff, String.eqb_neq. done. }
    assert (Hclean' : json_clean (load st')).
    { rewrite Hst', load_saved. apply json_clean_jsonify. }
    destruct (deleteCategory_state st' name
                (List.filter (λ cat, negb (String.eqb cat name)) cats))
      as [Hrun' _]; [done | by rewrite Hload |].
    rewrite Hrun', Hload, Hst'. subst d'. simpl. rewrite filter_twice.
    by destruct (load st). }
  split; [done|]. split; [done|]. split; [done|]. split.
  - intros category monthKey now. eexists.
    split; [apply category_total_load|]. rewrite category_total_load. by rewrite Hexp.
  - intros monthKey now. unfold getLimitsForMonth. run_store. rewrite Hlim.
    destruct (limits (load st)); eexists; done.
Qed.

(** ** Undoing an addition, cleaning twice *)

Lemma has_id_clock (stored : object) (t_id : Z) :
  get stored "id" = VStr (pretty t_id) → has_id (VStr (pretty t_id)) stored = true.
Proof. intros Hid. unfold has_id. rewrite Hid. simpl. apply String.eqb_refl. Qed.

Lemma filter_app_last {A} (p : A → bool) (l : list A) (x : A) :
  p x = false → List.filter p (l ++ [x]) = List.filter p l.
Proof.
  intros Hx. rewrite List.filter_app. simpl. rewrite Hx. apply app_nil_r.
Qed.

(** X8. [deleteExpense] with the id that [addExpense] has just assigned
    undoes the addition: both calls return, and afterwards the stored list
    is the list from before the addition without the expenses that already
    had that id. When no earlier expense had the id, the record is exactly
    the one from before the addition. *)
Theorem addExpense_then_deleteExpense st expense t_id t_date exps :
  json_clean (load st) →
  expenses (load st) = Some exps →
  let id := VStr (pretty t_id) in
  let st1 := state_after (addExpense expense t_id t_date st) st in
  let st2 := state_after (deleteExpense id st1) st1 in
  (∃ stored, addExpense expense t_id t_date st = Returns stored st1 ∧
             get stored "id" = id) ∧
  has_id id (default ∅ (last (stored_expenses st1))) = true ∧
  deleteExpense id st1 = Returns tt st2 ∧
  stored_expenses st2 = List.filter (λ e, negb (has_id id e)) exps ∧
  ((∀ e, In e exps → has_id id e = false) → load st2 = load st).
Proof.
  intros Hclean Hexps id st1 st2.
  destruct (addExpense_state st expense t_id t_date exps Hclean Hexps)
    as (stored & Hid & Hfixed & Hst1 & [e Hrun] & Hload1).
  fold st1 in Hst1, Hrun, Hload1.
  assert (Hclean1 : json_clean (load st1)).
  { rewrite Hst1, load_saved. apply json_clean_jsonify. }
  assert (Hexps1 : expenses (load st1) = Some (exps ++ [stored])) by by rewrite Hload1.
  destruct (deleteExpense_state st1 id (exps ++ [stored]) Hclean1 Hexps1)
    as [Hrun2 Hload2].
  fold st2 in Hload2.
  assert (Hstored : has_id id stored = true) by by apply has_id_clock.
  rewrite filter_app_last in Hload2 by (by rewrite Hstored).
  split.
  { exists e. split; [done|]. revert Hrun. unfold addExpense. run_store.
    rewrite Hexps. simpl. intros [= <- _]. unfold get.
    rewrite lookup_insert_ne by done. by rewrite lookup_insert_eq. }
  split.
  { unfold stored_expenses. rewrite Hexps1. simpl. by rewrite last_snoc. }
  split.
  { rewrite Hrun2. f_equal. subst st2. by rewrite Hrun2. }
  split.
  { unfold stored_expenses. rewrite Hload2. done. }
  intros Hfresh. rewrite Hload2, Hload1. rewrite filter_keeps_all.
  - destruct (load st); simpl in *. by subst.
  - intros x Hx. apply negb_true_iff. auto.
Qed.

(** X9. [cleanupOldData] only ever removes expenses: the list it leaves is
    the earlier one filtered in order, so every expense left was stored
    before; the categories, the income of every month and the limits of
    every month, however old, are as before. Run again at the same clock
    reading it changes nothing: the text in the store is the same. *)
Theorem cleanupOldData_only_expenses st now :
  json_clean (load st) →
  let st1 := state_after (cleanupOldData now st) st in
  cleanupOldData now st = Returns tt st1 ∧
  stored_expenses st1 = List.filter (retained now) (stored_expenses st) ∧
  (∀ e, In e (stored_expenses st1) → In e (stored_expenses st)) ∧
  categories (load st1) = categories (load st) ∧
  income (load st1) = income (load st) ∧
  limits (load st1) = limits (load st) ∧
  cleanupOldData now st1 = Returns tt st1.
Proof.
  intros Hclean st1.
  destruct (cleanupOldData_state st now Hclean) as [Hrun Hload].
  fold st1 in Hrun, Hload.
  pose proof (cleanupOldData_expenses st now Hclean) as Hexps. fold st1 in Hexps.
  split; [done|]. split; [done|]. split.
  { intros e. rewrite Hexps, List.filter_In. tauto. }
  destruct (expenses (load st)) as [exps|] eqn:Hfield.
  - rewrite Hload. simpl. split; [done|]. split; [done|]. split; [done|].
    assert (Hst1 : st1 = Some (JSON_stringify
                     (with_expenses (List.filter (retained now) exps) (load st)))).
    { subst st1. unfold cleanupOldData. run_store. by rewrite Hfield. }
    unfold cleanupOldData. run_store. rewrite Hload. simpl.
    rewrite filter_twice, Hst1. by destruct (load st).
  - rewrite Hload. split; [done|]. split; [done|]. split; [done|].
    unfold cleanupOldData. run_store. by rewrite Hload, Hfield.
Qed.

(** ** The store never throws *)

(** X10. On every state of the store that the methods reach from an empty
    [localStorage], no method throws: the record read back holds JSON
    values and has an expense list, so [addExpense], [deleteExpense] and
    [updateExpense], which throw on a record without an expense list,
    return, as do the other methods. *)
Theorem reachable_store_never_throws st :
  reachable st →
  well_formed st ∧
  (∀ expense t_id t_date, ∃ e st',
     addExpense expense t_id t_date st = Returns e st' ∧ reachable st') ∧
  (∀ id, ∃ st', deleteExpense id st = Returns tt st' ∧ reachable st') ∧
  (∀ id patch, ∃ r st', updateExpense id patch st = Returns r st' ∧ reachable st') ∧
  (∀ now, ∃ st', cleanupOldData now st = Returns tt st' ∧ reachable st') ∧
  (∀ amount monthKey now, ∃ v st',
     setIncome amount monthKey now st = Returns v st' ∧ reachable st') ∧
  (∀ limitsObj monthKey now, ∃ o st',
     setLimitsForMonth limitsObj monthKey now st = Returns o st' ∧ reachable st') ∧
  (∀ name, ∃ r st', addCategory name st = Returns r st' ∧ reachable st') ∧
  (∀ oldName newName, ∃ r st',
     updateCategory oldName newName st = Returns r st' ∧ reachable st') ∧
  (∀ name, ∃ r st', deleteCategory name st = Returns r st' ∧ reachable st').
Proof.
  intros Hreach. pose proof (reachable_well_formed st Hreach) as Hwf.
  destruct Hwf as [Hclean [exps Hexps]].
  assert (Hstep : ∀ {A} (call : M A) (a : A) st',
            step st (state_after (call st) st) →
            call st = Returns a st' → reachable st').
  { intros A call a st' Hstep Hrun.
    rewrite Hrun in Hstep. simpl in Hstep. by eapply reachable_step. }
  split; [split; [done | by exists exps]|].
  split.
  { intros expense t_id t_date.
    destruct (addExpense_state st expense t_id t_date exps Hclean Hexps)
      as (_ & _ & _ & _ & [e Hrun] & _).
    eexists _, _. split; [exact Hrun|].
    eapply (Hstep _ (addExpense expense t_id t_date)); [constructor | exact Hrun]. }
  split.
  { intros id. destruct (deleteExpense_state st id exps Hclean Hexps) as [Hrun _].
    eexists. split; [exact Hrun|].
    eapply (Hstep _ (deleteExpense id)); [constructor | exact Hrun]. }
  split.
  { intros id patch.
    assert (∃ r st', updateExpense id patch st = Returns r st') as (r & st' & Hrun).
    { unfold updateExpense. run_store. rewrite Hexps. simpl.
      destruct (findIndex (has_id id) exps); simpl; eauto. }
    exists r, st'. split; [exact Hrun|].
    eapply (Hstep _ (updateExpense id patch)); [constructor | exact Hrun]. }
  split.
  { intros now. destruct (cleanupOldData_state st now Hclean) as [Hrun _].
    eexists. split; [exact Hrun|].
    eapply (Hstep _ (cleanupOldData now)); [constructor | exact Hrun]. }
  split.
  { intros amount monthKey now.
    assert (∃ r st', setIncome amount monthKey now st = Returns r st')
      as (r & st' & Hrun) by (unfold setIncome; run_store; eauto).
    exists r, st'. split; [exact Hrun|].
    eapply (Hstep _ (setIncome amount monthKey now)); [constructor | exact Hrun]. }
  split.
  { intros limitsObj monthKey now.
    assert (∃ r st', setLimitsForMonth limitsObj monthKey now st = Returns r st')
      as (r & st' & Hrun) by (unfold setLimitsForMonth; run_store; eauto).
    exists r, st'. split; [exact Hrun|].
    eapply (Hstep _ (setLimitsForMonth limitsObj monthKey now));
      [constructor | exact Hrun]. }
  split.
  { intros name.
    assert (∃ r st', addCategory name st = Returns r st') as (r & st' & Hrun).
    { unfold addCategory. run_store. destruct (existsb _ _); simpl; eauto. }
    exists r, st'. split; [exact Hrun|].
    eapply (Hstep _ (addCategory name)); [constructor | exact Hrun]. }
  split.
  { intros oldName newName.
    assert (∃ r st', updateCategory oldName newName st = Returns r st')
      as (r & st' & Hrun).
    { unfold updateCategory. run_store.
      destruct (categories (load st)) as [cats|]; simpl; [|eauto].
      destruct (findIndex _ cats); simpl; eauto. }
    exists r, st'. split; [exact Hrun|].
    eapply (Hstep _ (updateCategory oldName newName)); [constructor | exact Hrun]. }
  intros name.
  assert (∃ r st', deleteCategory name st = Returns r st') as (r & st' & Hrun).
  { unfold deleteCategory. run_store.
    destruct (categories (load st)) as [cats|]; simpl; eauto. }
  exists r, st'. split; [exact Hrun|].
  eapply (Hstep _ (deleteCategory name)); [constructor | exact Hrun].
Qed.

End StoreExtras.

(** ** The properties of the store on the sample data *)

Lemma sample_store_categories : stored_categories Sample.store = ["Food"; "Rent"].
Proof. rewrite categories_after_load, sample_store_load. reflexivity. Defined.

Lemma sample_store_categories_field :
  categories (load Sample.store) = Some ["Food"; "Rent"].
Proof. rewrite sample_store_load. reflexivity. Defined.

Lemma limits_per_month_witness :
  json_clean (load Sample.store) ∧
  "2025-03" ≠ "" ∧ "2025-04" ≠ "" ∧ "2025-03" ≠ "2025-04" ∧
  SampleMore.rent_limit !! "Food" = None ∧
  getLimitsForMonth (Some "2025-03") Sample.now
      (state_after (setLimitsForMonth SampleMore.rent_limit (Some "2025-03")
                      Sample.now Sample.store) Sample.store) =
    Returns (json_object SampleMore.rent_limit)
      (state_after (setLimitsForMonth SampleMore.rent_limit (Some "2025-03")
                      Sample.now Sample.store) Sample.store) ∧
  json_object SampleMore.rent_limit = SampleMore.rent_limit.
Proof.
  assert (H1 : "2025-03" ≠ "") by discriminate.
  assert (H2 : "2025-04" ≠ "") by discriminate.
  assert (H3 : "2025-03" ≠ "2025-04") by discriminate.
  destruct (limits_per_month (L := reference_laws) Sample.store SampleMore.rent_limit
              "2025-03" "2025-04" Sample.now sample_store_clean H1 H2 H3)
    as (_ & Hget & _).
  split; [exact sample_store_clean|]. split; [exact H1|]. split; [exact H2|].
  split; [exact H3|]. split; [vm_compute; reflexivity|].
  split; [exact Hget | vm_compute; reflexivity].
Defined.

Lemma updateCategory_renames_in_place_witness :
  json_clean (load Sample.store) ∧
  In "Food" (stored_categories Sample.store) ∧
  updateCategory "Food" " Groceries " Sample.store =
    Returns true (state_after (updateCategory "Food" " Groceries " Sample.store)
                    Sample.store) ∧
  stored_categories (state_after (updateCategory "Food" " Groceries " Sample.store)
                       Sample.store) = ["Groceries"; "Rent"] ∧
  stored_expenses (state_after (updateCategory "Food" " Groceries " Sample.store)
                     Sample.store) = stored_expenses Sample.store.
Proof.
  assert (Hin : In "Food" (stored_categories Sample.store)).
  { rewrite sample_store_categories. simpl. tauto. }
  destruct (updateCategory_renames_in_place (L := reference_laws) Sample.store
              "Food" " Groceries " sample_store_clean)
    as (_ & Hpresent & Hexps & _).
  destruct (Hpresent Hin) as (i & Hi & _ & Hrun & Hnew & _).
  split; [exact sample_store_clean|]. split; [exact Hin|]. split; [exact Hrun|].
  split; [|exact Hexps].
  rewrite Hnew. rewrite sample_store_categories in Hi |- *.
  destruct i as [|[|i]]; [reflexivity | discriminate Hi | discriminate Hi].
Defined.

Lemma deleteCategory_removes_name_only_witness :
  json_clean (load Sample.store) ∧
  stored_categories (state_after (deleteCategory "Food" Sample.store) Sample.store) =
    ["Rent"] ∧
  stored_categories (state_after (deleteCategory "food" Sample.store) Sample.store) =
    ["Food"; "Rent"] ∧
  stored_expenses (state_after (deleteCategory "Food" Sample.store) Sample.store) =
    stored_expenses Sample.store.
Proof.
  destruct (deleteCategory_removes_name_only (L := reference_laws) Sample.store
              "Food" sample_store_clean) as (_ & Hsome & Hexps & _).
  destruct (Hsome _ sample_store_categories_field) as (_ & Hnew & _).
  destruct (deleteCategory_removes_name_only (L := reference_laws) Sample.store
              "food" sample_store_clean) as (_ & Hsome' & _).
  destruct (Hsome' _ sample_store_categories_field) as (_ & Hnew' & _).
  split; [exact sample_store_clean|].
  split; [rewrite Hnew; reflexivity|]. split; [rewrite Hnew'; reflexivity|].
  exact Hexps.
Defined.

Lemma addExpense_then_deleteExpense_witness :
  json_clean (load (E := Reference.engine) None) ∧
  expenses (load (E := Reference.engine) None) = Some [] ∧
  load (state_after
          (deleteExpense (VStr (pretty Sample.now))
             (state_after (addExpense (Sample.draft "Food" 12) Sample.now Sample.now None)
                None))
          (state_after (addExpense (Sample.draft "Food" 12) Sample.now Sample.now None)
             None)) = load (E := Reference.engine) None.
Proof.
  assert (Hnone : expenses (load (E := Reference.engine) None) = Some [])
    by reflexivity.
  destruct (addExpense_then_deleteExpense (L := reference_laws) None
              (Sample.draft "Food" 12) Sample.now Sample.now [] empty_store_clean Hnone)
    as (_ & _ & _ & _ & Hundo).
  split; [exact empty_store_clean|]. split; [exact Hnone|].
  apply Hundo. intros e [].
Defined.

Lemma cleanupOldData_only_expenses_witness :
  json_clean (load Sample.store) ∧
  stored_expenses (state_after (cleanupOldData Sample.now Sample.store) Sample.store) =
    [Sample.e_boundary; Sample.e_recent] ∧
  categories (load (state_after (cleanupOldData Sample.now Sample.store) Sample.store)) =
    Some ["Food"; "Rent"] ∧
  cleanupOldData Sample.now
      (state_after (cleanupOldData Sample.now Sample.store) Sample.store) =
    Returns tt (state_after (cleanupOldData Sample.now Sample.store) Sample.store).
Proof.
  destruct (cleanupOldData_only_expenses (L := reference_laws) Sample.store Sample.now
              sample_store_clean) as (_ & Hexps & _ & Hcats & _ & _ & Hagain).
  assert (H1 : retained Sample.now Sample.e_old = false) by (vm_compute; reflexivity).
  assert (H2 : retained Sample.now Sample.e_boundary = true) by (vm_compute; reflexivity).
  assert (H3 : retained Sample.now Sample.e_recent = true) by (vm_compute; reflexivity).
  assert (H4 : retained Sample.now Sample.e_undated = false) by (vm_compute; reflexivity).
  assert (H5 : retained Sample.now Sample.e_misdated = false) by (vm_compute; reflexivity).
  split; [exact sample_store_clean|]. split.
  { rewrite Hexps, sample_store_expenses. cbn [List.filter].
    rewrite H1, H2, H3, H4, H5. reflexivity. }
  split; [exact (eq_trans Hcats sample_store_categories_field) | exact Hagain].
Defined.

Lemma sample_no_list_load :
  load (Some (Reference.stringify SampleMore.no_list)) = SampleMore.no_list.
Proof. apply (load_saved_clean (L := reference_laws)). vm_compute. reflexivity. Defined.

(** The store after a first category was added is reached and no call
    throws on it; on a record without an expense list [addExpense] throws. *)
Lemma reachable_store_never_throws_witness :
  reachable (state_after (addCategory "Food" None) None) ∧
  well_formed (state_after (addCategory "Food" None) None) ∧
  (∃ e st', addExpense (Sample.draft "Food" 12) Sample.now Sample.now
              (state_after (addCategory "Food" None) None) = Returns e st') ∧
  addExpense (Sample.draft "Food" 12) Sample.now Sample.now
    (Some (Reference.stringify SampleMore.no_list)) = Throws.
Proof.
  assert (Hreach : reachable (E := Reference.engine)
                     (state_after (addCategory "Food" None) None)).
  { eapply reachable_step; [apply reachable_empty | constructor]. }
  destruct (reachable_store_never_throws (L := reference_laws) _ Hreach)
    as (Hwf & Hadd & _).
  destruct (Hadd (Sample.draft "Food" 12) Sample.now Sample.now) as (e & st' & Hrun & _).
  split; [exact Hreach|]. split; [exact Hwf|]. split; [by exists e, st'|].
  unfold addExpense. run_store. rewrite sample_no_list_load. reflexivity.
Defined.

(** * Further properties of the navigation *)

Section HandlerFacts.
Context {E : Engine} {L : JSONLaws E}.
Variable is_screen : string → bool.

Lemma showScreen_active screenId push n :
  active (showScreen is_screen screenId push n) =
    if is_screen screenId then Some screenId else None.
Proof. reflexivity. Qed.

Lemma showScreen_no_push screenId n :
  history (showScreen is_screen screenId false n) = history n.
Proof. reflexivity. Qed.

(** X11. From the main menu, or any other screen, a menu action shows the
    screen of the action, with every pending timer cleared and one history
    entry pushed unless that screen was already shown; pressing back there
    shows the main menu again and pushes nothing. An action that is not
    one of the seven only clears the timers. *)
Theorem handleMenuAction_then_back st action target n :
  In (action, target) menuTarget →
  is_screen target = true →
  is_screen "main-menu-screen" = true →
  let shown := handleMenuAction is_screen action n in
  let back := navigateBack is_screen st shown in
  active shown = Some target ∧
  activeTimeouts shown = [] ∧
  history shown =
    (if other_screen (active n) target then target :: history n else history n) ∧
  active back = Some "main-menu-screen" ∧
  history back = history shown ∧
  (∀ other, ¬ In other (List.map fst menuTarget) →
     handleMenuAction is_screen other n = clear_timeouts n).
Proof.
  intros Hin Htarget Hmenu shown back.
  assert (Hshown : shown = showScreen is_screen target true (clear_timeouts n)).
  { subst shown. simpl in Hin.
    repeat (destruct Hin as [[= <- <-]|Hin]; [reflexivity|]). destruct Hin. }
  assert (Hparent : In (target, "main-menu-screen") staticParent).
  { simpl in Hin.
    repeat (destruct Hin as [[= <- <-]|Hin]; [simpl; tauto|]). destruct Hin. }
  assert (Hactive : active shown = Some target).
  { by rewrite Hshown, showScreen_active, Htarget. }
  assert (Hback : back = showScreen is_screen "main-menu-screen" false shown).
  { subst back. by rewrite (navigateBack_static is_screen st shown _ _ Hparent Hactive). }
  split; [done|]. split; [by rewrite Hshown|]. split; [by rewrite Hshown|].
  split; [by rewrite Hback, showScreen_active, Hmenu|].
  split; [by rewrite Hback|].
  intros other Hother. unfold handleMenuAction.
  repeat match goal with
         | |- context [String.eqb other ?s] =>
             destruct (String.eqb_spec other s) as [->|_];
               [exfalso; apply Hother; simpl; tauto|]
         end.
  reflexivity.
Qed.

Lemma property_In {A} (table : list (string * A)) key v :
  property table key = Some v → In (key, v) table.
Proof.
  induction table as [|[k w] table IH]; simpl; [done|].
  destruct (String.eqb_spec k key) as [->|_]; [intros [= ->]; by left | auto].
Qed.

(** The distance to the main menu is 0 on the main menu only. *)
Lemma backDistance_zero current :
  backDistance current = 0%nat → current = Some "main-menu-screen".
Proof.
  destruct current as [id|]; [|done]. unfold backDistance.
  destruct (property backDistanceOf id) as [d|] eqn:Hd; simpl; [|done].
  intros ->. apply property_In in Hd. simpl in Hd.
  destruct Hd as [[= <-]|Hd]; [done|].
  repeat (destruct Hd as [Hd|Hd]; [discriminate Hd|]). destruct Hd.
Qed.

Lemma backDistance_bound current : (backDistance current ≤ 5)%nat.
Proof.
  destruct current as [id|]; [|simpl; lia]. unfold backDistance.
  destruct (property backDistanceOf id) as [d|] eqn:Hd; simpl; [|lia].
  revert Hd. apply (property_Forall (λ d, (d ≤ 5)%nat)).
  unfold backDistanceOf. repeat (constructor; [simpl; lia|]). constructor.
Qed.

Lemma backDistance_positive id :
  id ≠ "main-menu-screen" → (0 < backDistance (Some id))%nat.
Proof.
  intros Hne. destruct (backDistance (Some id)) eqn:Hd; [|lia].
  apply backDistance_zero in Hd. congruence.
Qed.

(** Each press of back comes closer to the main menu, when the page has
    the screens back navigation shows and a category is stored. *)
Lemma navigateBack_closer st n :
  Forall (λ id, is_screen id = true) backTargets →
  stored_categories st ≠ [] →
  active n ≠ Some "main-menu-screen" →
  (backDistance (active (navigateBack is_screen st n)) < backDistance (active n))%nat.
Proof.
  intros Hpage Hcats Hnot.
  assert (Hlen : (length (stored_categories st) =? 0)%nat = false)
    by (by destruct (stored_categories st)).
  unfold backTargets in Hpage.
  repeat match type of Hpage with
         | Forall _ (_ :: _) => apply Forall_cons in Hpage as [? Hpage]
         end.
  clear Hpage.
  destruct (active n) as [id|] eqn:Hact.
  2: { rewrite navigateBack_exit by auto.
       rewrite showScreen_active.
       match goal with H : is_screen ?s = true |- context [is_screen ?s] => rewrite H end.
       simpl. lia. }
  assert (Hexit : ∀ m, active (showScreen is_screen "exit-confirmation-screen" true m) =
                        Some "exit-confirmation-screen").
  { intros m. rewrite showScreen_active.
    match goal with H : is_screen ?s = true |- context [is_screen ?s] => by rewrite H end. }
  assert (Hmain : ∀ m, active (showScreen is_screen "main-menu-screen" false m) =
                        Some "main-menu-screen").
  { intros m. rewrite showScreen_active.
    match goal with H : is_screen ?s = true |- context [is_screen ?s] => by rewrite H end. }
  destruct (String.eqb_spec id "") as [->|Hempty].
  { unfold navigateBack. rewrite Hact. cbn [String.eqb orb].
    unfold showExitConfirmation. rewrite Hexit. simpl. lia. }
  destruct (String.eqb_spec id "welcome-screen") as [->|Hwelcome].
  { rewrite navigateBack_exit by auto. rewrite Hexit. simpl. lia. }
  destruct (String.eqb_spec id "main-menu-screen") as [->|Hmenu]; [done|].
  destruct (String.eqb_spec id "category-expenses-detail-screen") as [->|Hdetail].
  { rewrite navigateBack_detail by done.
    destruct (lastSummaryParams n) as [[year monthIndex]|];
      rewrite showScreen_active;
      match goal with H : is_screen ?s = true |- context [is_screen ?s] => rewrite H end;
      simpl; lia. }
  destruct (String.eqb_spec id "delete-expense-confirmation-screen") as [->|Hdelete].
  { destruct (navigateBack_delete_confirmation is_screen st n Hact)
      as (Hfrom_detail & Hfrom_list & Hother).
    destruct (decide (deletionSourceScreen n = Some "edit-expenses-list-screen"))
      as [Hlist|Hnolist].
    { rewrite (Hfrom_list Hlist), showScreen_active.
      match goal with H : is_screen ?s = true |- context [is_screen ?s] => rewrite H end.
      simpl. lia. }
    destruct (decide (deletionSourceScreen n = Some "category-expenses-detail-screen"))
      as [Hsource|Hnosource].
    - destruct (deletionContext n) as [[[year monthIndex] category]|] eqn:Hcontext.
      + rewrite (Hfrom_detail _ _ _ Hsource eq_refl), showScreen_active.
        match goal with H : is_screen ?s = true |- context [is_screen ?s] => rewrite H end.
        simpl. lia.
      + rewrite (Hother Hnolist (or_intror eq_refl)), Hmain. simpl. lia.
    - rewrite (Hother Hnolist (or_introl Hnosource)), Hmain. simpl. lia. }
  destruct (property staticParent id) as [parent|] eqn:Hparent.
  - apply property_In in Hparent. pose proof Hparent as Hin. simpl in Hparent.
    repeat (destruct Hparent as [[= <- <-]|Hparent];
      [rewrite (navigateBack_static is_screen st n _ _ Hin Hact), Hlen, ?andb_false_r;
       rewrite showScreen_active;
       match goal with H : is_screen ?s = true |- context [is_screen ?s] => rewrite H end;
       vm_compute; lia|]).
    destruct Hparent.
  - rewrite (navigateBack_no_entry is_screen st n id) by
      (try done; apply logicalParent_entries; by rewrite <- property_None).
    rewrite Hmain. simpl. by apply backDistance_positive.
Qed.

(** X12. Back navigation has no dead end and no cycle once a category is
    stored: on a page that has the screens back navigation shows, pressing
    back repeatedly leads from any state to the main menu, in at most as
    many presses as the distance listed for the current screen, which is
    never more than five (the delete confirmation reached from a category
    detail list). *)
Theorem navigateBack_reaches_menu st n :
  Forall (λ id, is_screen id = true) backTargets →
  stored_categories st ≠ [] →
  ∃ k : nat,
    (k ≤ backDistance (active n))%nat ∧
    (backDistance (active n) ≤ 5)%nat ∧
    active (Nat.iter k (navigateBack is_screen st) n) = Some "main-menu-screen".
Proof.
  intros Hpage Hcats.
  assert (Hreach : ∀ d n, backDistance (active n) = d →
            ∃ k : nat, (k ≤ d)%nat ∧
              active (Nat.iter k (navigateBack is_screen st) n) = Some "main-menu-screen").
  { intros d. induction d as [d IH] using lt_wf_ind. intros m Hd.
    destruct (decide (active m = Some "main-menu-screen")) as [Hmenu|Hnot].
    - exists 0%nat. split; [lia | done].
    - pose proof (navigateBack_closer st m Hpage Hcats Hnot) as Hcloser.
      destruct (IH (backDistance (active (navigateBack is_screen st m))))
        with (n := navigateBack is_screen st m) as (k & Hk & Hmenu); [lia | done |].
      exists (S k). split; [lia|]. by rewrite Nat.iter_succ_r. }
  destruct (Hreach _ n eq_refl) as (k & Hk & Hmenu).
  exists k. split; [done|]. split; [apply backDistance_bound | done].
Qed.

(** ** Deleting an expense from a list *)

Lemma cancelDeleteExpense_cases n :
  (∀ year monthIndex category,
     deletionSourceScreen n = Some "category-expenses-detail-screen" →
     deletionContext n = Some (year, monthIndex, category) →
     cancelDeleteExpense is_screen n =
       showScreen is_screen "category-expenses-detail-screen" false
         (set_detail year monthIndex category n)) ∧
  (deletionSourceScreen n = Some "edit-expenses-list-screen" →
     cancelDeleteExpense is_screen n =
       showScreen is_screen "edit-expenses-list-screen" false
         (set_editing (currentEditingYear n) (currentEditingMonthIndex n) n)) ∧
  (deletionSourceScreen n ≠ Some "edit-expenses-list-screen" →
   deletionSourceScreen n ≠ Some "category-expenses-detail-screen" ∨
   deletionContext n = None →
     cancelDeleteExpense is_screen n = showScreen is_screen "main-menu-screen" true n).
Proof.
  unfold cancelDeleteExpense. split; [|split].
  - intros year monthIndex category -> ->. done.
  - intros ->. by destruct (deletionContext n) as [[[year monthIndex] category]|].
  - intros Hedit Hdetail.
    destruct (deletionSourceScreen n) as [source|]; [|done].
    assert (Hne : String.eqb source "edit-expenses-list-screen" = false).
    { apply String.eqb_neq. congruence. }
    rewrite Hne.
    destruct (deletionContext n) as [[[year monthIndex] category]|]; [|done].
    destruct Hdetail as [Hdetail|]; [|done].
    assert (Hne' : String.eqb source "category-expenses-detail-screen" = false).
    { apply String.eqb_neq. congruence. }
    by rewrite Hne'.
Qed.

(** X13. On the delete confirmation the cancel button and back navigation
    lead to the same screen: the list the delete button was on, shown
    again without a history entry and in the same state, or, when the
    source is neither of the two lists, the main menu. The two differ in
    that last case only, where cancel pushes a history entry and back does
    not. *)
Theorem cancelDeleteExpense_as_back st n :
  active n = Some "delete-expense-confirmation-screen" →
  (deletionSourceScreen n = Some "edit-expenses-list-screen" ∨
   (deletionSourceScreen n = Some "category-expenses-detail-screen" ∧
    is_Some (deletionContext n)) →
     cancelDeleteExpense is_screen n = navigateBack is_screen st n) ∧
  (deletionSourceScreen n ≠ Some "edit-expenses-list-screen" →
   deletionSourceScreen n ≠ Some "category-expenses-detail-screen" ∨
   deletionContext n = None →
     cancelDeleteExpense is_screen n = showScreen is_screen "main-menu-screen" true n ∧
     navigateBack is_screen st n = showScreen is_screen "main-menu-screen" false n) ∧
  active (cancelDeleteExpense is_screen n) = active (navigateBack is_screen st n).
Proof.
  intros Hactive.
  destruct (navigateBack_delete_confirmation is_screen st n Hactive)
    as (Hback_detail & Hback_list & Hback_other).
  destruct (cancelDeleteExpense_cases n) as (Hdetail & Hlist & Hother).
  assert (Hsame : deletionSourceScreen n = Some "edit-expenses-list-screen" ∨
            (deletionSourceScreen n = Some "category-expenses-detail-screen" ∧
             is_Some (deletionContext n)) →
            cancelDeleteExpense is_screen n = navigateBack is_screen st n).
  { intros [Hsource|[Hsource [[[year monthIndex] category] Hcontext]]].
    - by rewrite Hlist, Hback_list.
    - by rewrite (Hdetail _ _ _ Hsource Hcontext), (Hback_detail _ _ _ Hsource Hcontext). }
  split; [done|]. split; [auto|].
  destruct (decide (deletionSourceScreen n = Some "edit-expenses-list-screen"))
    as [Hsource|Hnolist]; [by rewrite Hsame by auto|].
  destruct (decide (deletionSourceScreen n = Some "category-expenses-detail-screen"))
    as [Hsource|Hnosource].
  - destruct (deletionContext n) as [context|] eqn:Hcontext.
    + by rewrite Hsame by eauto.
    + by rewrite Hother, Hback_other by auto.
  - by rewrite Hother, Hback_other by auto.
Qed.

Lemma showDeletionSource_cases n :
  (∀ year monthIndex category,
     deletionSourceScreen n = Some "category-expenses-detail-screen" →
     deletionContext n = Some (year, monthIndex, category) →
     showDeletionSource is_screen n =
       showScreen is_screen "category-expenses-detail-screen" false
         (set_detail year monthIndex category n)) ∧
  (deletionSourceScreen n = Some "edit-expenses-list-screen" →
     showDeletionSource is_screen n =
       showScreen is_screen "edit-expenses-list-screen" false
         (set_editing (currentEditingYear n) (currentEditingMonthIndex n) n)) ∧
  history (showDeletionSource is_screen n) = history n.
Proof.
  unfold showDeletionSource. split; [|split].
  - intros year monthIndex category -> ->. done.
  - intros ->. by destruct (deletionContext n) as [[[year monthIndex] category]|].
  - destruct (deletionSourceScreen n) as [source|]; [|done].
    destruct (deletionContext n) as [[[year monthIndex] category]|];
      repeat (destruct (String.eqb source _); [done|]); done.
Qed.

(** X14. Confirming the deletion of a listed expense. After
    [showDeleteExpenseConfirmation(id, source, context)] the confirm
    handler returns; it has removed from the store exactly the expenses
    with that id, left categories, income and limits alone, cleared the
    three deletion variables, and shown again, without a history entry,
    the list the button was on: the category detail list with its year,
    month and category, or the edit list. A second click on confirm finds
    no id and does nothing. *)
Theorem handleDeleteExpense_confirmed st id source context p exps :
  json_clean (load st) →
  expenses (load st) = Some exps →
  id ≠ "" →
  let p1 := showDeleteExpenseConfirmation is_screen id source context p in
  let st2 := state_after (handleDeleteExpense is_screen p1 st) st in
  ∃ p2,
    handleDeleteExpense is_screen p1 st = Returns p2 st2 ∧
    stored_expenses st2 = List.filter (λ e, negb (has_id (VStr id) e)) exps ∧
    categories (load st2) = categories (load st) ∧
    income (load st2) = income (load st) ∧
    limits (load st2) = limits (load st) ∧
    expenseIdToDelete p2 = None ∧
    deletionSourceScreen (nav p2) = None ∧
    deletionContext (nav p2) = None ∧
    history (nav p2) = history (nav p1) ∧
    (∀ year monthIndex category,
       source = "category-expenses-detail-screen" →
       context = Some (year, monthIndex, category) →
       is_screen source = true →
       active (nav p2) = Some source ∧
       lastCategoryDetailParams (nav p2) = Some (year, monthIndex, category)) ∧
    (source = "edit-expenses-list-screen" →
     is_screen source = true →
       active (nav p2) = Some source) ∧
    handleDeleteExpense is_screen p2 st2 = Returns p2 st2.
Proof.
  intros Hclean Hexps Hid p1 st2.
  destruct (deleteExpense_state st (VStr id) exps Hclean Hexps) as [Hrun Hload].
  set (n1 := nav p1).
  set (p2 := {| nav := set_deletion None None (showDeletionSource is_screen n1);
                expenseIdToDelete := None |}).
  assert (Hhandler : handleDeleteExpense is_screen p1 st =
                     Returns p2 (state_after (deleteExpense (VStr id) st) st)).
  { unfold handleDeleteExpense. cbn [expenseIdToDelete p1 showDeleteExpenseConfirmation].
    rewrite (proj2 (String.eqb_neq id "") Hid).
    unfold mbind, M_bind. rewrite Hrun. reflexivity. }
  assert (Hst2 : st2 = state_after (deleteExpense (VStr id) st) st).
  { subst st2. by rewrite Hhandler. }
  rewrite Hst2. exists p2.
  destruct (showDeletionSource_cases n1) as (Hdetail & Hlist & Hhistory).
  split; [done|]. split; [unfold stored_expenses; by rewrite Hload|].
  rewrite Hload. split; [done|]. split; [done|]. split; [done|].
  split; [done|]. split; [done|]. split; [done|].
  split; [exact Hhistory|]. split.
  { intros year monthIndex category -> -> Hscreen.
    cbn [nav p2 set_deletion active lastCategoryDetailParams].
    rewrite (Hdetail year monthIndex category) by done.
    rewrite showScreen_active, Hscreen. done. }
  split.
  { intros -> Hscreen. cbn [nav p2 set_deletion active].
    rewrite Hlist by done. by rewrite showScreen_active, Hscreen. }
  reflexivity.
Qed.


(** ** The category forms keep the names distinct *)

Lemma map_lookup {A B} (f : A → B) (l : list A) (i : nat) :
  List.map f l !! i = f <$> l !! i.
Proof.
  revert i. induction l as [|a l IH]; intros [|i]; simpl; first [done | apply IH].
Qed.

Lemma distinct_snoc {A B} (f : A → B) (l : list A) (x : A) :
  NoDup (List.map f l) → ¬ In (f x) (List.map f l) → NoDup (List.map f (l ++ [x])).
Proof.
  intros Hl Hx. rewrite List.map_app. simpl. apply NoDup_app.
  split; [done|]. split; [|apply NoDup_singleton].
  intros y Hy Hyx. apply list_elem_of_singleton in Hyx as ->.
  by apply list_elem_of_In in Hy.
Qed.

Lemma distinct_filter {A B} (f : A → B) (p : A → bool) (l : list A) :
  NoDup (List.map f l) → NoDup (List.map f (List.filter p l)).
Proof.
  induction l as [|a l IH]; simpl; [done|].
  rewrite NoDup_cons. intros [Ha Hl]. destruct (p a); simpl; [|auto].
  apply NoDup_cons. split; [|auto].
  rewrite list_elem_of_In in *. intros Hin. apply Ha.
  apply in_map_iff in Hin as (c & Hc & Hin). apply List.filter_In in Hin as [Hin _].
  apply in_map_iff. eauto.
Qed.

Lemma distinct_insert {A B} (f : A → B) (l : list A) (i : nat) (x : A) :
  NoDup (List.map f l) →
  (∀ (j : nat) c, j ≠ i → l !! j = Some c → f c ≠ f x) →
  NoDup (List.map f (<[i := x]> l)).
Proof.
  revert i. induction l as [|a l IH]; intros i Hl Hother; [done|].
  simpl in Hl. apply NoDup_cons in Hl as [Ha Hl]. rewrite list_elem_of_In in Ha.
  destruct i as [|i]; simpl; apply NoDup_cons; rewrite list_elem_of_In.
  - split; [|done]. intros Hin. apply in_map_iff in Hin as (c & Hc & Hin).
    apply list_elem_of_In, list_elem_of_lookup in Hin as [j Hj].
    by apply (Hother (S j) c).
  - split.
    + intros Hin. apply in_map_iff in Hin as (c & Hc & Hin).
      apply list_elem_of_In, list_elem_of_lookup in Hin as [j Hj].
      apply list_lookup_insert_Some in Hj as [(-> & <- & Hlt)|(Hne & Hj)].
      * by apply (Hother 0%nat a).
      * apply Ha, in_map_iff. exists c. split; [done|].
        apply list_elem_of_In, list_elem_of_lookup. eauto.
    + apply IH; [done|]. intros j c Hj Hc. apply (Hother (S j) c); [lia | done].
Qed.

Lemma categories_after_save d :
  stored_categories (Some (JSON_stringify d)) = default [] (categories d).
Proof. rewrite categories_after_load, load_saved. reflexivity. Qed.

Lemma addCategory_distinct st name :
  distinct_names (stored_categories st) →
  distinct_names (stored_categories (state_after (addCategory name st) st)).
Proof.
  intros Hdistinct. unfold addCategory. run_store.
  destruct (existsb _ _) eqn:Hexists; simpl; [done|].
  rewrite categories_after_save. simpl. rewrite categories_after_load in Hdistinct.
  apply distinct_snoc; [done|].
  intros Hin. apply in_map_iff in Hin as (cat & Hcat & Hin).
  assert (existsb (λ cat, String.eqb (String_toLowerCase cat)
                    (String_toLowerCase (String_trim name)))
                  (default [] (categories (load st))) = true) as Htrue.
  { apply existsb_same_name. by exists cat. }
  congruence.
Qed.

Lemma deleteCategory_distinct st name :
  distinct_names (stored_categories st) →
  distinct_names (stored_categories (state_after (deleteCategory name st) st)).
Proof.
  intros Hdistinct. unfold deleteCategory. run_store.
  destruct (categories (load st)) as [cats|] eqn:Hcats; simpl; [|done].
  rewrite categories_after_save. simpl.
  rewrite categories_after_load, Hcats in Hdistinct. by apply distinct_filter.
Qed.

Lemma handleUpdateCategory_distinct st input current n :
  String_trim (String_trim input) = String_trim input →
  distinct_names (stored_categories st) →
  distinct_names (stored_categories
    (state_after (handleUpdateCategory is_screen input current n st) st)).
Proof.
  intros Htrim Hdistinct. unfold handleUpdateCategory.
  destruct (String.eqb (String_trim input) ""); [done|].
  unfold mbind, M_bind. rewrite getCategories_load.
  destruct (existsb _ _) eqn:Hguard; [done|].
  destruct current as [oldName|]; [|done].
  unfold updateCategory. run_store.
  destruct (categories (load st)) as [cats|] eqn:Hcats; simpl in *; [|done].
  destruct (findIndex _ cats) as [i|] eqn:Hfind; simpl; [|done].
  rewrite categories_after_save. simpl. rewrite Htrim.
  rewrite categories_after_load, Hcats in Hdistinct. simpl in Hdistinct.
  apply findIndex_Some in Hfind as (old & Hi & Hold & _).
  apply String.eqb_eq in Hold as ->.
  apply distinct_insert; [done|].
  intros j c Hj Hc Hsame.
  assert (Hc_old : c = oldName).
  { destruct (String.eqb_spec c oldName) as [|Hne]; [done|].
    assert (existsb (λ cat,
              String.eqb (String_toLowerCase cat) (String_toLowerCase (String_trim input))
              && differs cat (Some oldName)) cats = true) as Htrue;
      [|simpl in Htrue; congruence].
    apply existsb_exists. exists c. split.
    - apply list_elem_of_In, list_elem_of_lookup. eauto.
    - rewrite Hsame, String.eqb_refl. simpl. by apply negb_true_iff, String.eqb_neq. }
  subst c. apply Hj. eapply NoDup_lookup; [exact Hdistinct | |].
  - rewrite map_lookup, Hc. done.
  - rewrite map_lookup, Hi. done.
Qed.

(** X15. The category names stay pairwise distinct up to the case of their
    letters. If they are so in the store, they are so after
    [addCategory] and [deleteCategory], whatever the argument, and after
    each of the three handlers of the category forms, whatever the text
    typed (for the edit form: a text that [trim] leaves alone once it is
    trimmed). [updateCategory] alone does not check the new name: the
    check is the one of [handleUpdateCategory]. *)
Theorem category_names_stay_distinct st n :
  distinct_names (stored_categories st) →
  (∀ name, distinct_names (stored_categories (state_after (addCategory name st) st))) ∧
  (∀ name, distinct_names (stored_categories (state_after (deleteCategory name st) st))) ∧
  (∀ input,
     distinct_names (stored_categories
       (state_after (handleAddCategory is_screen input n st) st))) ∧
  (∀ input current,
     String_trim (String_trim input) = String_trim input →
     distinct_names (stored_categories
       (state_after (handleUpdateCategory is_screen input current n st) st))) ∧
  (∀ name,
     distinct_names (stored_categories
       (state_after (handleDeleteCategory is_screen name n st) st))).
Proof.
  intros Hdistinct.
  split; [intros name; by apply addCategory_distinct|].
  split; [intros name; by apply deleteCategory_distinct|].
  split.
  { intros input. unfold handleAddCategory.
    destruct (String.eqb (String_trim input) ""); [done|].
    pose proof (addCategory_distinct st (String_trim input) Hdistinct) as Hadd.
    unfold mbind, M_bind.
    destruct (addCategory (String_trim input) st) as [[name|] st'|]; simpl in *;
      [by destruct (String.eqb name "") | done | done]. }
  split; [intros input current Htrim; by apply handleUpdateCategory_distinct|].
  intros name. unfold handleDeleteCategory.
  pose proof (deleteCategory_distinct st name Hdistinct) as Hdelete.
  unfold mbind, M_bind.
  destruct (deleteCategory name st) as [[|] st'|]; simpl in *; done.
Qed.

(** ** The expense form and the income form *)

Lemma toISOString_nonempty t : toISOString t ≠ "".
Proof.
  intros Heq. apply (f_equal String.length) in Heq.
  unfold toISOString in Heq. rewrite !string_length_app in Heq. simpl in Heq. lia.
Qed.

Lemma float_eqb_leb x y : PrimFloat.eqb x y = true → PrimFloat.leb x y = true.
Proof.
  rewrite FloatAxioms.eqb_spec, FloatAxioms.leb_spec. unfold SFeqb, SFleb.
  by destruct (SFcompare (Prim2SF x) (Prim2SF y)) as [[| |]|].
Qed.

(** What [addExpense] stores for a draft that has a date. *)
Lemma addExpense_dated st (expense : object) date t_id t_date exps :
  json_clean (load st) →
  expenses (load st) = Some exps →
  expense !! "date" = Some (VStr date) → date ≠ "" →
  let stored := <["date" := VStr date]> (<["id" := VStr (pretty t_id)]> expense) in
  addExpense expense t_id t_date st =
    Returns stored (state_after (addExpense expense t_id t_date st) st) ∧
  load (state_after (addExpense expense t_id t_date st) st) =
    with_expenses (exps ++ [json_object stored]) (load st).
Proof.
  intros Hclean Hexps Hdate Hne stored.
  assert (Hor : or_else (get (<["id" := VStr (pretty t_id)]> expense) "date")
                        (VStr (toISOString t_date)) = VStr date).
  { unfold get. rewrite lookup_insert_ne by done. rewrite Hdate.
    unfold or_else. simpl. by destruct (String.eqb_spec date ""). }
  assert (Hrun : addExpense expense t_id t_date st =
            Returns stored (Some (JSON_stringify
              (with_expenses (exps ++ [stored]) (load st))))).
  { unfold addExpense. run_store. rewrite Hexps, Hor. done. }
  rewrite Hrun. unfold state_after. split; [done|].
  rewrite load_saved. unfold json_clean in Hclean. rewrite <- Hclean at 2.
  unfold jsonify, with_expenses. simpl. f_equal. f_equal.
  rewrite List.map_app. simpl. f_equal.
  apply map_fixed_Forall. by eapply json_clean_expenses.
Qed.

(** X16. The add-expense form stores nothing unless the date, the category
    and the comment (once trimmed) are filled in and the amount reads as a
    number above 0: otherwise the handler returns with the store and the
    screen as they were. With the four fields filled in and a date that
    parses, it appends exactly one expense (the id is the clock reading,
    the date the ISO text of the parsed date, the category, the amount
    and the trimmed comment are the ones given, an infinite amount being
    kept as [null]) and shows the confirmation screen; the other
    collections are untouched. With a date text that does not parse the
    handler throws and stores nothing. *)
Theorem handleAddExpenseSubmit_validates st date cat value comment t_id n exps :
  json_clean (load st) →
  expenses (load st) = Some exps →
  let val := parseFloat_text value in
  let filled :=
    negb (String.eqb date "") && negb (String.eqb cat "")
    && negb (PrimFloat.is_nan val || PrimFloat.leb val 0)
    && negb (String.eqb (String_trim comment) "") in
  let result := handleAddExpenseSubmit is_screen date cat value comment t_id n st in
  (filled = false → result = Returns n st) ∧
  (filled = true → Date_parse date = None → result = Throws) ∧
  (filled = true → ∀ t, Date_parse date = Some t →
     ∃ stored : object,
       result = Returns (showScreen is_screen "expense-added-screen" true n)
                        (state_after result st) ∧
       stored_expenses (state_after result st) = exps ++ [stored] ∧
       stored !! "id" = Some (VStr (pretty t_id)) ∧
       stored !! "date" = Some (VStr (toISOString t)) ∧
       stored !! "category" = Some (VStr cat) ∧
       stored !! "amount" =
         Some (if PrimFloat.is_infinity val then VNull else VNum val) ∧
       stored !! "comment" = Some (VStr (String_trim comment)) ∧
       (∀ k, k ≠ "id" → k ≠ "date" → k ≠ "category" → k ≠ "amount" → k ≠ "comment" →
             stored !! k = None) ∧
       cat ≠ "" ∧ String_trim comment ≠ "" ∧
       PrimFloat.is_nan val = false ∧ PrimFloat.leb val 0 = false ∧
       categories (load (state_after result st)) = categories (load st) ∧
       income (load (state_after result st)) = income (load st) ∧
       limits (load (state_after result st)) = limits (load st)).
Proof.
  intros Hclean Hexps val filled result.
  assert (Hcode : result =
    if filled then
      match Date_parse date with
      | Some t =>
          (_ ← addExpense {[ "date" := VStr (toISOString t); "category" := VStr cat;
                             "amount" := VNum val;
                             "comment" := VStr (String_trim comment) ]} t_id t_id;
           mret (showScreen is_screen "expense-added-screen" true n)) st
      | None => Throws
      end
    else Returns n st).
  { subst result filled. unfold handleAddExpenseSubmit. fold val.
    destruct (String.eqb date ""), (String.eqb cat ""),
      (PrimFloat.is_nan val || PrimFloat.leb val 0),
      (String.eqb (String_trim comment) ""); simpl; try done;
      by destruct (Date_parse date). }
  split; [intros Hfilled; by rewrite Hcode, Hfilled|].
  split; [intros Hfilled Hdate; by rewrite Hcode, Hfilled, Hdate|].
  intros Hfilled t Hdate. rewrite Hcode, Hfilled, Hdate. clear Hcode.
  subst filled. rewrite !andb_true_iff, !negb_true_iff in Hfilled.
  destruct Hfilled as (((Hd & Hc) & Hv) & Hm).
  apply orb_false_iff in Hv as [Hnan Hleb].
  apply String.eqb_neq in Hd, Hc, Hm.
  set (draft := ({[ "date" := VStr (toISOString t); "category" := VStr cat;
                    "amount" := VNum val;
                    "comment" := VStr (String_trim comment) ]} : object)).
  destruct (addExpense_dated st draft (toISOString t) t_id t_id exps Hclean Hexps)
    as [Hrun Hload]; [by subst draft; simplify_map_eq | apply toISOString_nonempty |].
  set (st' := state_after (addExpense draft t_id t_id st) st) in *.
  unfold mbind, M_bind. rewrite Hrun. unfold mret, M_ret, state_after.
  eexists. split; [done|].
  split; [unfold stored_expenses; by rewrite Hload|].
  assert (Hzero : PrimFloat.eqb val 0 = false).
  { destruct (PrimFloat.eqb val 0) eqn:Hz; [|done].
    apply float_eqb_leb in Hz. congruence. }
  unfold json_object. rewrite !lookup_omap. subst draft.
  split; [by simplify_map_eq|]. split; [by simplify_map_eq|].
  split; [by simplify_map_eq|]. split.
  { simplify_map_eq. simpl. rewrite Hnan, Hzero. simpl.
    by destruct (PrimFloat.is_infinity val). }
  split; [by simplify_map_eq|]. split.
  { intros k ? ? ? ? ?. rewrite lookup_omap. by simplify_map_eq. }
  rewrite Hload. done.
Qed.

Lemma setIncome_current st amount now :
  setIncome amount None now st = setIncome amount (Some (getMonthKey (Some now))) now st.
Proof.
  unfold setIncome. rewrite key_or_current_given; [done|].
  rewrite getMonthKey_valid. apply monthKeyOf_nonempty.
Qed.

(** X17. The income form stores nothing for a text that does not read as a
    number or reads as a negative one: the handler raises an alert and
    leaves the store and the screen alone. Any other text sets the income
    of the current month, which then reads back as the number typed (as 0
    when it is a zero or infinite) and is never negative; the income of
    every other month reads as before; the screen stays and one timer is
    pending more. *)
Theorem handleSetIncome_validates st input now timeout n :
  json_clean (load st) →
  let x := parseFloat_text input in
  let result := handleSetIncome input now timeout n st in
  let st' := state_after result st in
  (PrimFloat.is_nan x || PrimFloat.ltb x 0 = true →
     result = Returns (alert "Please enter a valid income amount." n) st) ∧
  (PrimFloat.is_nan x || PrimFloat.ltb x 0 = false →
     result = Returns (push_timeout timeout n) st' ∧
     (∃ v, getIncome None now st' = Returns (VNum v) st' ∧
           v = (if PrimFloat.is_infinity x || PrimFloat.eqb x 0 then 0%float else x) ∧
           PrimFloat.is_nan v = false ∧ PrimFloat.ltb v 0 = false) ∧
     (∀ k', k' ≠ "" → k' ≠ getMonthKey (Some now) →
        ∃ v, getIncome (Some k') now st = Returns v st ∧
             getIncome (Some k') now st' = Returns v st') ∧
     active (push_timeout timeout n) = active n ∧
     activeTimeouts (push_timeout timeout n) = activeTimeouts n ++ [timeout]).
Proof.
  intros Hclean x result st'.
  assert (Hcode : result =
    if PrimFloat.is_nan x || PrimFloat.ltb x 0
    then Returns (alert "Please enter a valid income amount." n) st
    else (_ ← setIncome (VNum x) None now; mret (push_timeout timeout n)) st).
  { subst result. unfold handleSetIncome. fold x.
    by destruct (PrimFloat.is_nan x || PrimFloat.ltb x 0). }
  split; [intros Hbad; by rewrite Hcode, Hbad|].
  intros Hgood.
  assert (Hk : getMonthKey (Some now) ≠ "").
  { rewrite getMonthKey_valid. apply monthKeyOf_nonempty. }
  assert (Hparse : parseFloat (VNum x) = if PrimFloat.eqb x 0 then 0%float else x)
    by done.
  destruct (setIncome_state st (VNum x) (getMonthKey (Some now)) now Hclean Hk)
    as [Hrun Hinc].
  rewrite <- setIncome_current in Hrun, Hinc.
  assert (Hst' : st' = state_after (setIncome (VNum x) None now st) st).
  { subst st'. rewrite Hcode, Hgood. unfold mbind, M_bind. by rewrite Hrun. }
  rewrite <- Hst' in Hrun, Hinc.
  apply orb_false_iff in Hgood as [Hnan Hneg].
  assert (Hold : json_object (default ∅ (income (load st))) = default ∅ (income (load st))).
  { destruct (income (load st)) as [inc|] eqn:Hi; simpl; [by eapply json_clean_income|].
    apply map_eq. intros key. unfold json_object. by rewrite lookup_omap, lookup_empty. }
  split.
  { rewrite Hcode, Hnan, Hneg. simpl. unfold mbind, M_bind. by rewrite Hrun. }
  split.
  { rewrite <- getIncome_current.
    rewrite getIncome_load by done. rewrite Hinc. simpl.
    unfold get, json_object. rewrite lookup_omap, lookup_insert_eq. simpl.
    destruct (PrimFloat.eqb x 0) eqn:Hzero.
    - exists 0%float. rewrite orb_true_r. repeat split; reflexivity.
    - rewrite Hnan, Hzero. simpl.
      destruct (PrimFloat.is_infinity x) eqn:Hinf; simpl.
      + exists 0%float. repeat split; reflexivity.
      + exists x. unfold or_else. simpl. by rewrite Hnan, Hzero. }
  split; [|done].
  intros k' Hk' Hne. eexists. split; [by apply getIncome_load|].
  rewrite getIncome_load by done. rewrite Hinc. simpl. f_equal.
  unfold get at 1. unfold json_object. rewrite lookup_omap.
  rewrite lookup_insert_ne by done.
  unfold get. rewrite <- Hold at 2. unfold json_object. by rewrite lookup_omap.
Qed.

End HandlerFacts.

(** ** The retention window in days, and what an addition does to a total *)

Section RetentionFacts.
Context {E : Engine} {L : JSONLaws E}.

(** The day number of a time value, from its calendar fields. *)
Lemma Day_fields t :
  Day t = DayFromYear (YearFromTime t)
          + DaysBeforeMonth (if DaysInYear (YearFromTime t) =? 366 then 1 else 0)
                            (MonthFromTime t)
          + DateFromTime t - 1.
Proof. unfold DateFromTime, DayWithinYear, InLeapYear. lia. Qed.

(** The same day of the same month one year earlier lies 365 or 366 days
    back. *)
Lemma MakeDay_year_back y m d :
  0 ≤ m < 12 →
  let day := DayFromYear y
             + DaysBeforeMonth (if DaysInYear y =? 366 then 1 else 0) m + d - 1 in
  365 ≤ day - MakeDay (y - 1) m d ≤ 366.
Proof.
  intros Hm day. subst day. unfold MakeDay.
  replace (m / 12) with 0 by zdiv. replace (m mod 12) with m by zdiv.
  rewrite Z.add_0_r.
  pose proof (DayFromYear_step (y - 1)) as Hstep.
  replace (y - 1 + 1) with y in Hstep by lia.
  assert (Hleap : DaysInYear y = 366 → DaysInYear (y - 1) = 365).
  { unfold DaysInYear.
    repeat (case_match; simpl); rewrite ?negb_true_iff, ?negb_false_iff in *;
      rewrite ?Z.eqb_eq, ?Z.eqb_neq in *; try done; zdiv. }
  pose proof (DaysInYear_range y) as Hy.
  pose proof (DaysInYear_range (y - 1)) as Hy1.
  destruct (Z.eqb_spec (DaysInYear y) 366) as [H366|Hnot];
    destruct (Z.eqb_spec (DaysInYear (y - 1)) 366) as [H366'|Hnot'];
    try (specialize (Hleap H366); lia);
    destruct (month_cases m Hm) as
      [-> | [-> | [-> | [-> | [-> | [-> | [-> | [-> | [-> | [-> | [-> | ->]]]]]]]]]]];
    simpl; lia.
Qed.

(** X18. The retention window in milliseconds. In a time zone with a fixed
    offset, the cutoff of [cleanupOldData] lies 365 or 366 days before
    [now]. So at a start of the application every stored expense dated
    within the last 365 days is kept, and every one dated more than 366
    days ago is removed. *)
Theorem retention_window st now cutoff tz :
  (∀ t isUTC, LocalTZA t isUTC = tz) →
  twelveMonthsAgo now = Some cutoff →
  json_clean (load st) →
  now - 366 * msPerDay ≤ cutoff ≤ now - 365 * msPerDay ∧
  (∀ e t,
     In e (stored_expenses st) →
     Date_new (get e "date") = Some t →
     (now - 365 * msPerDay ≤ t →
        In e (stored_expenses (state_after (init now st) st))) ∧
     (t < now - 366 * msPerDay →
        ¬ In e (stored_expenses (state_after (init now st) st)))).
Proof.
  intros Htz Hcutoff Hclean.
  assert (Hwindow : now - 366 * msPerDay ≤ cutoff ≤ now - 365 * msPerDay).
  { pose proof (twelveMonthsAgo_calendar now) as Hcal. cbv zeta in Hcal.
    rewrite Hcal in Hcutoff. clear Hcal.
    apply (LocalTime_UTC tz) in Hcutoff; [|done].
    pose proof (Day_fields (LocalTime now)) as Hday.
    pose proof (MakeDay_year_back (YearFromTime (LocalTime now))
                  (MonthFromTime (LocalTime now)) (DateFromTime (LocalTime now))
                  (MonthFromTime_range _)) as Hback.
    cbv zeta in Hback. rewrite <- Hday in Hback. clear Hday.
    revert Hcutoff Hback.
    generalize (MakeDay (YearFromTime (LocalTime now) - 1)
                  (MonthFromTime (LocalTime now)) (DateFromTime (LocalTime now))).
    intros day Hcutoff Hback.
    unfold LocalTime in *. rewrite !Htz in *.
    unfold MakeDate, TimeWithinDay, Day, msPerDay in *. zdiv. }
  split; [done|]. intros e t Hin Hdate.
  assert (Hstate : state_after (init now st) st = state_after (cleanupOldData now st) st)
    by (by rewrite init_cleanup).
  rewrite Hstate, cleanupOldData_expenses by done.
  assert (Hretained : retained now e = (cutoff <=? t)).
  { unfold retained. by rewrite Hdate, Hcutoff. }
  rewrite List.filter_In, Hretained. split.
  - intros Hrecent. split; [done|]. apply Z.leb_le. lia.
  - intros Hold [_ Hle]. apply Z.leb_le in Hle. lia.
Qed.

(** The totals after an expense was appended. *)
Lemma month_total_load st monthKey now :
  getTotalExpensesForMonth monthKey now st =
    Returns (fold_left (λ sum exp,
      if in_month (key_or_current monthKey now) exp
      then (sum + amount_or_zero exp)%float else sum) (stored_expenses st) 0%float) st.
Proof.
  unfold getTotalExpensesForMonth, mbind, M_bind. rewrite getExpenses_load.
  unfold mret, M_ret. f_equal. apply fold_left_pointwise.
  intros sum exp. unfold in_month. by destruct (truthy (get exp "date")).
Qed.

(** X19. What [addExpense] does to the totals of a month. The new expense
    is appended last, so the total of a month after the call is the total
    before it plus, as one more addition of doubles, the amount of the
    stored expense when its date falls in that month, and is the total
    before it otherwise; the totals of the other months do not change. *)
Theorem addExpense_adds_to_month_total st expense t_id t_date exps monthKey now :
  json_clean (load st) →
  expenses (load st) = Some exps →
  let st' := state_after (addExpense expense t_id t_date st) st in
  let key := key_or_current monthKey now in
  ∃ (stored : object) (total : float),
    stored_expenses st' = exps ++ [stored] ∧
    get stored "id" = VStr (pretty t_id) ∧
    getTotalExpensesForMonth monthKey now st = Returns total st ∧
    getTotalExpensesForMonth monthKey now st' =
      Returns (if in_month key stored
               then (total + amount_or_zero stored)%float else total) st'.
Proof.
  intros Hclean Hexps st' key.
  destruct (addExpense_state st expense t_id t_date exps Hclean Hexps)
    as (stored & Hid & _ & _ & _ & Hload).
  fold st' in Hload.
  assert (Hafter : stored_expenses st' = exps ++ [stored]).
  { unfold stored_expenses. by rewrite Hload. }
  assert (Hbefore : stored_expenses st = exps).
  { unfold stored_expenses. by rewrite Hexps. }
  exists stored. eexists. split; [done|]. split; [done|].
  split; [apply month_total_load|].
  rewrite month_total_load, Hafter, Hbefore, fold_left_app. reflexivity.
Qed.

End RetentionFacts.

(** ** The properties of the navigation on the sample page *)

Lemma handleMenuAction_then_back_witness :
  In ("categories", "categories-main-screen") menuTarget ∧
  SampleNav.every_screen "categories-main-screen" = true ∧
  SampleNav.every_screen "main-menu-screen" = true ∧
  active (handleMenuAction SampleNav.every_screen "categories"
            (SampleNav.on_screen "main-menu-screen")) = Some "categories-main-screen" ∧
  active (navigateBack (E := Reference.engine) SampleNav.every_screen None
            (handleMenuAction SampleNav.every_screen "categories"
               (SampleNav.on_screen "main-menu-screen"))) = Some "main-menu-screen".
Proof.
  assert (Hin : In ("categories", "categories-main-screen") menuTarget)
    by (simpl; tauto).
  destruct (handleMenuAction_then_back (E := Reference.engine) SampleNav.every_screen
              None "categories" "categories-main-screen"
              (SampleNav.on_screen "main-menu-screen") Hin eq_refl eq_refl)
    as (Hshown & _ & _ & Hback & _).
  split; [exact Hin|]. split; [reflexivity|]. split; [reflexivity|].
  split; [exact Hshown | exact Hback].
Defined.

Lemma every_screen_backTargets :
  Forall (λ id, SampleNav.every_screen id = true) backTargets.
Proof. unfold backTargets. repeat constructor. Defined.

Lemma sample_store_has_categories : stored_categories Sample.store ≠ [].
Proof. rewrite sample_store_categories. discriminate. Defined.

Lemma navigateBack_reaches_menu_witness :
  Forall (λ id, SampleNav.every_screen id = true) backTargets ∧
  stored_categories Sample.store ≠ [] ∧
  ∃ k : nat,
    (k ≤ 3)%nat ∧
    active (Nat.iter k (navigateBack SampleNav.every_screen Sample.store)
              (SampleNav.on_screen "edit-category-form-screen")) =
      Some "main-menu-screen".
Proof.
  destruct (navigateBack_reaches_menu SampleNav.every_screen Sample.store
              (SampleNav.on_screen "edit-category-form-screen")
              every_screen_backTargets sample_store_has_categories)
    as (k & Hk & _ & Hmenu).
  split; [exact every_screen_backTargets|].
  split; [exact sample_store_has_categories|].
  exists k. split; [exact Hk | exact Hmenu].
Defined.

Lemma cancelDeleteExpense_as_back_witness :
  active SamplePage.confirming = Some "delete-expense-confirmation-screen" ∧
  deletionSourceScreen SamplePage.confirming = Some "edit-expenses-list-screen" ∧
  cancelDeleteExpense SampleNav.every_screen SamplePage.confirming =
    navigateBack (E := Reference.engine) SampleNav.every_screen None
      SamplePage.confirming ∧
  active (cancelDeleteExpense SampleNav.every_screen SamplePage.confirming) =
    Some "edit-expenses-list-screen".
Proof.
  destruct (cancelDeleteExpense_as_back (E := Reference.engine) SampleNav.every_screen
              None SamplePage.confirming eq_refl) as (Hsame & _ & _).
  split; [reflexivity|]. split; [reflexivity|].
  split; [apply Hsame; left; reflexivity | reflexivity].
Defined.

Lemma handleDeleteExpense_confirmed_witness :
  json_clean (load Sample.store) ∧
  expenses (load Sample.store) =
    Some [Sample.e_old; Sample.e_boundary; Sample.e_recent; Sample.e_undated;
          Sample.e_misdated] ∧
  "2" ≠ "" ∧
  ∃ p2,
    handleDeleteExpense SampleNav.every_screen
      (showDeleteExpenseConfirmation SampleNav.every_screen "2"
         "category-expenses-detail-screen" (Some (2024, 2, "Food"))
         (SamplePage.showing "category-expenses-detail-screen")) Sample.store =
    Returns p2
      (state_after
         (handleDeleteExpense SampleNav.every_screen
            (showDeleteExpenseConfirmation SampleNav.every_screen "2"
               "category-expenses-detail-screen" (Some (2024, 2, "Food"))
               (SamplePage.showing "category-expenses-detail-screen")) Sample.store)
         Sample.store) ∧
    stored_expenses
      (state_after
         (handleDeleteExpense SampleNav.every_screen
            (showDeleteExpenseConfirmation SampleNav.every_screen "2"
               "category-expenses-detail-screen" (Some (2024, 2, "Food"))
               (SamplePage.showing "category-expenses-detail-screen")) Sample.store)
         Sample.store) =
      [Sample.e_old; Sample.e_recent; Sample.e_undated; Sample.e_misdated] ∧
    expenseIdToDelete p2 = None ∧
    active (nav p2) = Some "category-expenses-detail-screen".
Proof.
  assert (Hid : "2" ≠ "") by discriminate.
  destruct (handleDeleteExpense_confirmed (L := reference_laws) SampleNav.every_screen
              Sample.store "2" "category-expenses-detail-screen" (Some (2024, 2, "Food"))
              (SamplePage.showing "category-expenses-detail-screen") _
              sample_store_clean sample_store_expenses_field Hid)
    as (p2 & Hrun & Hexps & _ & _ & _ & Hcleared & _ & _ & _ & Hdetail & _).
  destruct (Hdetail 2024 2 "Food" eq_refl eq_refl eq_refl) as [Hactive _].
  assert (H1 : has_id (VStr "2") Sample.e_old = false) by (vm_compute; reflexivity).
  assert (H2 : has_id (VStr "2") Sample.e_boundary = true) by (vm_compute; reflexivity).
  assert (H3 : has_id (VStr "2") Sample.e_recent = false) by (vm_compute; reflexivity).
  assert (H4 : has_id (VStr "2") Sample.e_undated = false) by (vm_compute; reflexivity).
  assert (H5 : has_id (VStr "2") Sample.e_misdated = false) by (vm_compute; reflexivity).
  cbn [List.filter] in Hexps. rewrite H1, H2, H3, H4, H5 in Hexps. cbn [negb] in Hexps.
  split; [exact sample_store_clean|]. split; [exact sample_store_expenses_field|].
  split; [exact Hid|]. exists p2.
  split; [exact Hrun|]. split; [exact Hexps|]. split; [exact Hcleared | exact Hactive].
Defined.

Lemma sample_store_distinct : distinct_names (stored_categories Sample.store).
Proof.
  rewrite sample_store_categories. unfold distinct_names.
  change (NoDup ["food"; "rent"]).
  apply NoDup_cons. split; [|apply NoDup_singleton].
  intros Hin. apply list_elem_of_singleton in Hin. discriminate Hin.
Defined.

(** Renaming Rent to a text that is Food up to case is refused: the list
    stays as it is. *)
Lemma category_names_stay_distinct_witness :
  distinct_names (stored_categories Sample.store) ∧
  String_trim (String_trim " food ") = String_trim " food " ∧
  distinct_names
    (stored_categories
       (state_after
          (handleUpdateCategory SampleNav.every_screen " food " (Some "Rent")
             (SampleNav.on_screen "edit-category-form-screen") Sample.store)
          Sample.store)) ∧
  handleUpdateCategory SampleNav.every_screen " food " (Some "Rent")
    (SampleNav.on_screen "edit-category-form-screen") Sample.store =
    Returns (SampleNav.on_screen "edit-category-form-screen") Sample.store.
Proof.
  assert (Htrim : String_trim (Engine := Reference.engine) (String_trim " food ") =
                  String_trim " food ") by (vm_compute; reflexivity).
  destruct (category_names_stay_distinct (L := reference_laws) SampleNav.every_screen
              Sample.store (SampleNav.on_screen "edit-category-form-screen")
              sample_store_distinct) as (_ & _ & _ & Hupdate & _).
  split; [exact sample_store_distinct|]. split; [exact Htrim|].
  split; [exact (Hupdate " food " (Some "Rent") Htrim)|].
  assert (Hfilled : String.eqb (String_trim (Engine := Reference.engine) " food ") "" =
                    false) by (vm_compute; reflexivity).
  unfold handleUpdateCategory. rewrite Hfilled. unfold mbind, M_bind.
  rewrite (getCategories_load Sample.store), sample_store_categories_field.
  reflexivity.
Defined.

Lemma empty_store_expenses : expenses (load (E := Reference.engine) None) = Some [].
Proof. reflexivity. Defined.

(** A lunch of 12.50 is stored; an amount of -3 is not. *)
Lemma handleAddExpenseSubmit_validates_witness :
  json_clean (load (E := Reference.engine) None) ∧
  expenses (load (E := Reference.engine) None) = Some [] ∧
  Date_parse "2025-03-15" = Some 1741996800000 ∧
  (∃ stored : object,
     stored_expenses
       (state_after
          (handleAddExpenseSubmit SampleNav.every_screen "2025-03-15" "Food" "12.50"
             " lunch " Sample.now (SampleNav.on_screen "add-expense-screen") None)
          None) = [] ++ [stored] ∧
     stored !! "date" = Some (VStr (toISOString 1741996800000)) ∧
     stored !! "category" = Some (VStr "Food") ∧
     stored !! "comment" = Some (VStr (String_trim " lunch "))) ∧
  handleAddExpenseSubmit SampleNav.every_screen "2025-03-15" "Food" "-3"
    " lunch " Sample.now (SampleNav.on_screen "add-expense-screen") None =
    Returns (SampleNav.on_screen "add-expense-screen") None.
Proof.
  assert (Hdate : Date_parse (Engine := Reference.engine) "2025-03-15" =
                  Some 1741996800000) by (vm_compute; reflexivity).
  destruct (handleAddExpenseSubmit_validates (L := reference_laws) SampleNav.every_screen
              None "2025-03-15" "Food" "12.50" " lunch " Sample.now
              (SampleNav.on_screen "add-expense-screen") [] empty_store_clean
              empty_store_expenses) as (_ & _ & Hvalid).
  destruct (Hvalid ltac:(vm_compute; reflexivity) _ Hdate)
    as (stored & _ & Hlist & _ & Hd & Hc & _ & Hm & _).
  destruct (handleAddExpenseSubmit_validates (L := reference_laws) SampleNav.every_screen
              None "2025-03-15" "Food" "-3" " lunch " Sample.now
              (SampleNav.on_screen "add-expense-screen") [] empty_store_clean
              empty_store_expenses) as (Hinvalid & _).
  split; [exact empty_store_clean|]. split; [exact empty_store_expenses|].
  split; [exact Hdate|]. split.
  - exists stored. split; [exact Hlist|]. split; [exact Hd|]. split; [exact Hc | exact Hm].
  - apply Hinvalid. vm_compute. reflexivity.
Defined.

(** An income of 2500 is stored for the current month; -5 is refused. *)
Lemma handleSetIncome_validates_witness :
  json_clean (load (E := Reference.engine) None) ∧
  getIncome None Sample.now
    (state_after
       (handleSetIncome "2500" Sample.now 1%nat (SampleNav.on_screen "income-edit-screen")
          None) None) =
    Returns (VNum 2500)
      (state_after
         (handleSetIncome "2500" Sample.now 1%nat
            (SampleNav.on_screen "income-edit-screen") None) None) ∧
  handleSetIncome "-5" Sample.now 1%nat (SampleNav.on_screen "income-edit-screen") None =
    Returns (alert "Please enter a valid income amount."
               (SampleNav.on_screen "income-edit-screen")) None.
Proof.
  destruct (handleSetIncome_validates (L := reference_laws) None "2500" Sample.now 1%nat
              (SampleNav.on_screen "income-edit-screen") empty_store_clean)
    as (_ & Hvalid).
  destruct (Hvalid ltac:(vm_compute; reflexivity)) as (_ & (v & Hget & Hv & _) & _).
  destruct (handleSetIncome_validates (L := reference_laws) None "-5" Sample.now 1%nat
              (SampleNav.on_screen "income-edit-screen") empty_store_clean)
    as (Hinvalid & _).
  split; [exact empty_store_clean|]. split.
  - rewrite Hget. rewrite Hv. vm_compute. reflexivity.
  - apply Hinvalid. vm_compute. reflexivity.
Defined.

Lemma retention_window_witness :
  (∀ t isUTC, LocalTZA (Engine := Reference.engine) t isUTC = 0) ∧
  twelveMonthsAgo Sample.now = Some 1710504000000 ∧
  json_clean (load Sample.store) ∧
  Sample.now - 366 * msPerDay ≤ 1710504000000 ≤ Sample.now - 365 * msPerDay ∧
  In Sample.e_recent (stored_expenses Sample.store) ∧
  Date_new (get Sample.e_recent "date") = Some 1736497800000 ∧
  In Sample.e_recent (stored_expenses (state_after (init Sample.now Sample.store)
                                         Sample.store)).
Proof.
  assert (Htz : ∀ t isUTC, LocalTZA (Engine := Reference.engine) t isUTC = 0) by done.
  assert (Hcutoff : twelveMonthsAgo Sample.now = Some 1710504000000)
    by (vm_compute; reflexivity).
  assert (Hin : In Sample.e_recent (stored_expenses Sample.store))
    by (rewrite sample_store_expenses; simpl; tauto).
  assert (Hdate : Date_new (get Sample.e_recent "date") = Some 1736497800000)
    by (vm_compute; reflexivity).
  destruct (retention_window (L := reference_laws) Sample.store Sample.now _ 0 Htz Hcutoff
              sample_store_clean) as [Hwindow Hkept].
  destruct (Hkept _ _ Hin Hdate) as [Hrecent _].
  split; [exact Htz|]. split; [exact Hcutoff|]. split; [exact sample_store_clean|].
  split; [exact Hwindow|]. split; [exact Hin|]. split; [exact Hdate|].
  apply Hrecent. vm_compute. discriminate.
Defined.

Lemma Returns_value {A} (a b : A) (st st' : storage) :
  Returns a st = Returns b st' → a = b.
Proof. by intros [= -> _]. Qed.

Lemma sample_march_load : load Sample.march_store = Sample.march.
Proof. apply (load_saved_clean (L := reference_laws)), sample_march_clean. Defined.

(** Two expenses of 50 and 30 in March 2024, then one of 20: the total of
    the month goes from 80 to 100. *)
Lemma addExpense_adds_to_month_total_witness :
  json_clean (load Sample.march_store) ∧
  expenses (load Sample.march_store) = Some [Sample.e_march5; Sample.e_march20] ∧
  getTotalExpensesForMonth (Some "2024-03") Sample.now Sample.march_store =
    Returns 80%float Sample.march_store ∧
  getTotalExpensesForMonth (Some "2024-03") Sample.now
    (state_after (addExpense SamplePage.draft25 Sample.now Sample.now Sample.march_store)
       Sample.march_store) =
    Returns 100%float
      (state_after (addExpense SamplePage.draft25 Sample.now Sample.now Sample.march_store)
         Sample.march_store).
Proof.
  assert (Hclean : json_clean (load Sample.march_store)).
  { rewrite sample_march_load. apply sample_march_clean. }
  assert (Hexps : expenses (load Sample.march_store) =
                  Some [Sample.e_march5; Sample.e_march20]).
  { rewrite sample_march_load. reflexivity. }
  destruct (addExpense_adds_to_month_total (L := reference_laws) Sample.march_store
              SamplePage.draft25 Sample.now Sample.now _ (Some "2024-03") Sample.now
              Hclean Hexps) as (stored & total & Hafter & _ & Hbefore & Htotal).
  destruct (addExpense_dated (L := reference_laws) Sample.march_store SamplePage.draft25
              "2024-03-25T00:00:00.000Z" Sample.now Sample.now _ Hclean Hexps)
    as [_ Hload]; [vm_compute; reflexivity | discriminate |].
  unfold stored_expenses in Hafter. rewrite Hload in Hafter. simpl in Hafter.
  injection Hafter as Hstored.
  assert (Hmonth : in_month (key_or_current (Some "2024-03") Sample.now) stored = true)
    by (rewrite <- Hstored; vm_compute; reflexivity).
  assert (Hamount : amount_or_zero stored = 20%float)
    by (rewrite <- Hstored; vm_compute; reflexivity).
  assert (Heighty : total = 80%float).
  { rewrite month_total_load, sample_march_expenses in Hbefore.
    apply Returns_value in Hbefore as <-. vm_compute. reflexivity. }
  rewrite Hmonth, Hamount, Heighty in Htotal. rewrite Heighty in Hbefore.
  split; [exact Hclean|]. split; [exact Hexps|]. split; [exact Hbefore | exact Htotal].
Defined.

(** ** Carrying the income forward *)

Section IncomeFlowFacts.
Context {E : Engine} {L : JSONLaws E}.
Variable is_screen : string → bool.
Variable Number_text : string → float.

(** X20. The continue button of the income screen. When the current month
    has an income above 0, nothing is written and the confirmation is
    shown. Otherwise the income [getPreviousMonthIncome] reads is carried
    forward: when it is 0 an alert is raised and nothing is written or
    shown; when it is not, it is stored for the current month and the
    confirmation is shown, after which the current month reads as that
    income (for a finite number other than 0) and every other month reads
    as before. The confirmation leaves exactly one timer pending. *)
Theorem handleContinueIncome_carries_forward st now now' timeout n :
  json_clean (load st) →
  let key := getMonthKey (Some now) in
  let result := handleContinueIncome is_screen Number_text now now' timeout n st in
  let st' := state_after result st in
  ∃ currentIncome previousIncome,
    getIncome (Some key) now st = Returns currentIncome st ∧
    getPreviousMonthIncome now' st = Returns previousIncome st ∧
    (above_zero Number_text currentIncome = true →
       result = Returns (showIncomeConfirmation is_screen timeout n) st) ∧
    (above_zero Number_text currentIncome = false →
     strict_eq previousIncome (VNum 0) = true →
       result = Returns (alert "Please enter an income using the Edit button." n) st) ∧
    (above_zero Number_text currentIncome = false →
     strict_eq previousIncome (VNum 0) = false →
       result = Returns (showIncomeConfirmation is_screen timeout n) st' ∧
       (∀ x, previousIncome = VNum x → is_finite x = true →
             getIncome (Some key) now st' = Returns (VNum x) st') ∧
       (∀ k', k' ≠ "" → k' ≠ key →
          ∃ v, getIncome (Some k') now st = Returns v st ∧
               getIncome (Some k') now st' = Returns v st')) ∧
    activeTimeouts (showIncomeConfirmation is_screen timeout n) = [timeout] ∧
    (is_screen "income-confirmation-screen" = true →
       active (showIncomeConfirmation is_screen timeout n) =
         Some "income-confirmation-screen").
Proof.
  intros Hclean key result st'.
  assert (Hkey : key ≠ "").
  { subst key. rewrite getMonthKey_valid. apply monthKeyOf_nonempty. }
  set (currentIncome := or_else (get (default ∅ (income (load st))) key) (VNum 0)).
  assert (Hcurrent : getIncome (Some key) now st = Returns currentIncome st)
    by (by apply getIncome_load).
  assert (∃ previousIncome, getPreviousMonthIncome now' st = Returns previousIncome st)
    as [previousIncome Hprevious].
  { unfold getPreviousMonthIncome, getIncome. run_store.
    destruct (income (load st)); eauto. }
  assert (Hcode : result =
    if above_zero Number_text currentIncome
    then Returns (showIncomeConfirmation is_screen timeout n) st
    else if strict_eq previousIncome (VNum 0)
    then Returns (alert "Please enter an income using the Edit button." n) st
    else (_ ← setIncome previousIncome (Some key) now;
          mret (showIncomeConfirmation is_screen timeout n)) st).
  { subst result. unfold handleContinueIncome. fold key.
    unfold mbind at 1. unfold M_bind at 1. rewrite Hcurrent.
    destruct (above_zero Number_text currentIncome); [done|].
    unfold mbind at 1. unfold M_bind at 1. rewrite Hprevious.
    by destruct (strict_eq previousIncome (VNum 0)). }
  exists currentIncome, previousIncome.
  split; [done|]. split; [done|].
  split; [intros Habove; by rewrite Hcode, Habove|].
  split; [intros Habove Hzero; by rewrite Hcode, Habove, Hzero|].
  split; [|split; [reflexivity|]].
  2: { intros Hscreen. unfold showIncomeConfirmation. simpl. by rewrite Hscreen. }
  intros Habove Hzero.
  destruct (setIncome_state st previousIncome key now Hclean Hkey) as [Hrun Hinc].
  assert (Hst' : st' = state_after (setIncome previousIncome (Some key) now st) st).
  { subst st'. rewrite Hcode, Habove, Hzero. unfold mbind, M_bind. by rewrite Hrun. }
  rewrite <- Hst' in Hrun, Hinc.
  assert (Hold : json_object (default ∅ (income (load st))) = default ∅ (income (load st))).
  { destruct (income (load st)) as [inc|] eqn:Hi; simpl; [by eapply json_clean_income|].
    apply map_eq. intros k. unfold json_object. by rewrite lookup_omap, lookup_empty. }
  split.
  { rewrite Hcode, Habove, Hzero. unfold mbind, M_bind. by rewrite Hrun. }
  split.
  { intros x -> Hfinite. simpl in Hzero.
    rewrite getIncome_load by done. rewrite Hinc. simpl. f_equal.
    unfold get, json_object. rewrite lookup_omap, lookup_insert_eq. simpl.
    rewrite Hzero. unfold is_finite in Hfinite.
    apply andb_true_iff in Hfinite as [Hnan Hinf].
    apply negb_true_iff in Hnan, Hinf. rewrite Hnan, Hinf, Hzero. simpl.
    unfold or_else. simpl. by rewrite Hnan, Hzero. }
  intros k' Hk' Hne. eexists. split; [by apply getIncome_load|].
  rewrite getIncome_load by done. rewrite Hinc. simpl. f_equal.
  unfold get at 1. unfold json_object. rewrite lookup_omap.
  rewrite lookup_insert_ne by done.
  unfold get. rewrite <- Hold at 2. unfold json_object. by rewrite lookup_omap.
Qed.

(** ** The back button of the category detail list *)

(** X21. On the category detail list the back button of the screen and
    back navigation do the same when the list was opened for the month of
    the last summary, as it is when it is opened from a row of the
    summary: both show that month's summary again, in the same state and
    without a history entry. *)
Theorem categoryExpensesBack_as_back st n year monthIndex :
  active n = Some "category-expenses-detail-screen" →
  lastSummaryParams n = Some (year, monthIndex) →
  currentViewYear n = Some year →
  currentViewMonthIndex n = Some monthIndex →
  categoryExpensesBack is_screen n = navigateBack is_screen st n ∧
  history (navigateBack is_screen st n) = history n ∧
  lastSummaryParams (navigateBack is_screen st n) = Some (year, monthIndex) ∧
  (∀ category m,
     is_screen "category-expenses-detail-screen" = true →
     let opened := showCategoryExpensesDetailScreen is_screen year monthIndex category true
                     (showMonthSummaryScreen is_screen year monthIndex true m) in
     categoryExpensesBack is_screen opened = navigateBack is_screen st opened).
Proof.
  intros Hactive Hsummary Hyear Hmonth.
  assert (Hsame : ∀ m, active m = Some "category-expenses-detail-screen" →
            lastSummaryParams m = Some (year, monthIndex) →
            currentViewYear m = Some year →
            currentViewMonthIndex m = Some monthIndex →
            categoryExpensesBack is_screen m = navigateBack is_screen st m).
  { intros m Ha Hs Hy Hm. rewrite navigateBack_detail by done.
    unfold categoryExpensesBack. by rewrite Hs, Hy, Hm. }
  split; [by apply Hsame|].
  rewrite navigateBack_detail by done. rewrite Hsummary.
  split; [done|]. split; [done|].
  intros category m Hscreen opened. apply Hsame; subst opened; try done.
  unfold showCategoryExpensesDetailScreen. by rewrite showScreen_active, Hscreen.
Qed.

(** ** Deleting an expense and the totals of the months *)

Lemma filter_filter_implied {A} (p q : A → bool) (l : list A) :
  (∀ x, In x l → p x = true → q x = true) →
  List.filter p (List.filter q l) = List.filter p l.
Proof.
  intros Himplied. induction l as [|x l IH]; simpl; [done|].
  destruct (q x) eqn:Hq; simpl.
  - destruct (p x); rewrite IH; try done; intros y Hy; apply Himplied; by right.
  - destruct (p x) eqn:Hp.
    + rewrite Himplied in Hq; [done | by left | done].
    + apply IH. intros y Hy. apply Himplied. by right.
Qed.

(** X22. [deleteExpense(id)] changes the expenses of a month only when one
    of them has the id: when no stored expense dated in the month has it,
    [getExpensesForMonth] returns the same list after the call as before,
    and the total of the month and the totals of its categories are the
    same doubles. *)
Theorem deleteExpense_other_months st id exps monthKey now :
  json_clean (load st) →
  expenses (load st) = Some exps →
  (∀ e, In e exps → in_month (key_or_current monthKey now) e = true →
        has_id id e = false) →
  let st' := state_after (deleteExpense id st) st in
  (∃ listed,
     getExpensesForMonth monthKey now st = Returns listed st ∧
     getExpensesForMonth monthKey now st' = Returns listed st') ∧
  (∃ total,
     getTotalExpensesForMonth monthKey now st = Returns total st ∧
     getTotalExpensesForMonth monthKey now st' = Returns total st') ∧
  (∀ category, category ≠ "" →
     ∃ total,
       getTotalExpensesForCategoryInMonth category monthKey now st = Returns total st ∧
       getTotalExpensesForCategoryInMonth category monthKey now st' = Returns total st').
Proof.
  intros Hclean Hexps Hnone st'.
  destruct (deleteExpense_state st id exps Hclean Hexps) as [_ Hload].
  fold st' in Hload.
  assert (Hbefore : stored_expenses st = exps).
  { unfold stored_expenses. by rewrite Hexps. }
  assert (Hafter : stored_expenses st' = List.filter (λ e, negb (has_id id e)) exps).
  { unfold stored_expenses. by rewrite Hload. }
  assert (Hlist : List.filter (in_month (key_or_current monthKey now)) (stored_expenses st') =
                  List.filter (in_month (key_or_current monthKey now)) (stored_expenses st)).
  { rewrite Hafter, Hbefore. apply filter_filter_implied.
    intros e He Hmonth. by rewrite (Hnone e He Hmonth). }
  split.
  { eexists. split; [apply getExpensesForMonth_load|].
    by rewrite getExpensesForMonth_load, Hlist. }
  split.
  { destruct (month_totals_list st "x" monthKey now) as [Htotal _]; [done|].
    destruct (month_totals_list st' "x" monthKey now) as [Htotal' _]; [done|].
    eexists. split; [exact Htotal|]. by rewrite Htotal', Hlist. }
  intros category Hcategory.
  destruct (month_totals_list st category monthKey now Hcategory) as [_ Htotal].
  destruct (month_totals_list st' category monthKey now Hcategory) as [_ Htotal'].
  eexists. split; [exact Htotal|]. by rewrite Htotal', Hlist.
Qed.

End IncomeFlowFacts.

(** In April 2025 no income is set and March has 1000: continue carries
    the 1000 forward. *)
Lemma handleContinueIncome_carries_forward_witness :
  json_clean (load Sample.store) ∧
  getMonthKey (Some SampleFlow.april15) = "2025-04" ∧
  getIncome (Some "2025-04") SampleFlow.april15 Sample.store =
    Returns (VNum 0) Sample.store ∧
  getPreviousMonthIncome SampleFlow.april15 Sample.store =
    Returns (VNum 1000) Sample.store ∧
  getIncome (Some "2025-04") SampleFlow.april15
    (state_after
       (handleContinueIncome SampleNav.every_screen Reference.parse_decimal
          SampleFlow.april15 SampleFlow.april15 1%nat
          (SampleNav.on_screen "income-view-screen") Sample.store) Sample.store) =
    Returns (VNum 1000)
      (state_after
         (handleContinueIncome SampleNav.every_screen Reference.parse_decimal
            SampleFlow.april15 SampleFlow.april15 1%nat
            (SampleNav.on_screen "income-view-screen") Sample.store) Sample.store).
Proof.
  assert (Hkey : getMonthKey (Some SampleFlow.april15) = "2025-04")
    by (vm_compute; reflexivity).
  assert (Hprevkey : getMonthKey (getPreviousMonth (Some SampleFlow.april15)) = "2025-03")
    by (vm_compute; reflexivity).
  assert (Hcurrent : getIncome (Some "2025-04") SampleFlow.april15 Sample.store =
                     Returns (VNum 0) Sample.store).
  { rewrite getIncome_load by discriminate. rewrite sample_store_load. reflexivity. }
  assert (Hprevious : getPreviousMonthIncome SampleFlow.april15 Sample.store =
                      Returns (VNum 1000) Sample.store).
  { unfold getPreviousMonthIncome. rewrite Hprevkey.
    rewrite getIncome_load by discriminate. rewrite sample_store_load. reflexivity. }
  pose proof (handleContinueIncome_carries_forward (L := reference_laws)
                SampleNav.every_screen Reference.parse_decimal Sample.store
                SampleFlow.april15 SampleFlow.april15 1%nat
                (SampleNav.on_screen "income-view-screen") sample_store_clean) as Hflow.
  cbv zeta in Hflow. rewrite Hkey in Hflow.
  destruct Hflow as (currentIncome & previousIncome & Hc & Hp & _ & _ & Hcarry & _).
  rewrite Hcurrent in Hc. apply Returns_value in Hc as <-.
  rewrite Hprevious in Hp. apply Returns_value in Hp as <-.
  destruct Hcarry as (_ & Hread & _); [reflexivity | reflexivity |].
  split; [exact sample_store_clean|]. split; [exact Hkey|].
  split; [exact Hcurrent|]. split; [exact Hprevious|].
  apply Hread; reflexivity.
Defined.

Lemma categoryExpensesBack_as_back_witness :
  active SampleFlow.detail_from_summary = Some "category-expenses-detail-screen" ∧
  lastSummaryParams SampleFlow.detail_from_summary = Some (2025, 2) ∧
  currentViewYear SampleFlow.detail_from_summary = Some 2025 ∧
  currentViewMonthIndex SampleFlow.detail_from_summary = Some 2 ∧
  categoryExpensesBack SampleNav.every_screen SampleFlow.detail_from_summary =
    navigateBack (E := Reference.engine) SampleNav.every_screen None
      SampleFlow.detail_from_summary ∧
  active (categoryExpensesBack SampleNav.every_screen SampleFlow.detail_from_summary) =
    Some "view-expenses-month-summary-screen".
Proof.
  destruct (categoryExpensesBack_as_back (E := Reference.engine) SampleNav.every_screen
              None SampleFlow.detail_from_summary 2025 2 eq_refl eq_refl eq_refl eq_refl)
    as (Hsame & _).
  split; [reflexivity|]. split; [reflexivity|]. split; [reflexivity|].
  split; [reflexivity|]. split; [exact Hsame | reflexivity].
Defined.

(** Deleting the rent of January 2025 leaves March 2024 as it was. *)
Lemma deleteExpense_other_months_witness :
  json_clean (load Sample.store) ∧
  expenses (load Sample.store) =
    Some [Sample.e_old; Sample.e_boundary; Sample.e_recent; Sample.e_undated;
          Sample.e_misdated] ∧
  has_id (VStr "3") Sample.e_recent = true ∧
  ∃ total,
    getTotalExpensesForMonth (Some "2024-03") Sample.now Sample.store =
      Returns total Sample.store ∧
    getTotalExpensesForMonth (Some "2024-03") Sample.now
      (state_after (deleteExpense (VStr "3") Sample.store) Sample.store) =
      Returns total (state_after (deleteExpense (VStr "3") Sample.store) Sample.store).
Proof.
  destruct (deleteExpense_other_months (L := reference_laws) Sample.store (VStr "3") _
              (Some "2024-03") Sample.now sample_store_clean sample_store_expenses_field)
    as (_ & Htotal & _).
  { intros e He. simpl in He.
    destruct He as [<-|[<-|[<-|[<-|[<-|[]]]]]]; intros Hmonth;
      first [vm_compute; reflexivity | vm_compute in Hmonth; discriminate Hmonth]. }
  split; [exact sample_store_clean|]. split; [exact sample_store_expenses_field|].
  split; [vm_compute; reflexivity | exact Htotal].
Defined.

